(** * Verification of the multi-tenant ComfyUI management server

    A shallow embedding of [scripts/tenant_manager.py]: the process registry
    ([ProcessManager.load_processes], [save_processes]), the health prober
    ([_is_port_open], [_is_comfyui_healthy]), the supervisor ([start_tenant],
    [stop_tenant], [get_tenant_info], [_force_cleanup_tenant],
    [_cleanup_dead_processes], [_setup_tenant_scripts],
    [_setup_cloudwatch_logging]), and of [MetricsHandler] the dispatcher
    [do_POST] with its three handlers and [send_tenants_response].  The
    telemetry of [MetricsHandler] (floating-point figures read from the
    system) and the HTTP server itself are not modelled.

    The Python methods act on the operating system (pids, signals, sockets,
    files, child processes).  Each such action is a [call]; a method is a
    finite tree of calls ([prog]) threaded with the in-memory registry
    [self.processes] and with Python's exceptions ([M]).  A [handler] gives
    the answers of a host; [run] interprets a tree against it and records
    the calls made with their answers.  The theorems about the supervisor
    quantify over every handler, that is over every behaviour of the host;
    [Host] is one concrete host, used where the contents of the registry
    file matter and to evaluate the code on explicit inputs.

    Conventions of the embedding:
    - a record of the registry is the dict written by [start_tenant]; its
      keys are always present, a pid or port of [0] is Python-falsy;
    - durations and timestamps (Python floats [2.0], [5.0], [time.time()])
      are integers;
    - calls to [logger] have no effect on control flow and are left out;
    - [psutil.pid_exists] is the answer it gives for a pid in the range of
      [pid_t]; beyond it the library raises, and the theorems about
      arbitrary registries are stated for pids in that range
      ([pids_in_range]);
    - [send_error] and [send_json] stand for the response the handler asks
      the HTTP layer to send; the sending itself is not modelled. *)

From stdpp Require Import gmap strings list fin_maps pretty.

Local Open Scope Z_scope.

(** ** Data model *)

(** The dict stored per tenant by [start_tenant] (source lines 188-195). *)
Record process_info := ProcessInfo {
  info_pid : Z;
  info_port : Z;
  info_username : string;
  info_network_volume : string;
  info_started_at : Z;
  info_env : gmap string string
}.

(** Python truthiness of an int: [if pid], [existing_port and ...]. *)
Definition truthy (n : Z) : bool := negb (n =? 0).

(** The exceptions the code can meet.  [is_OSError] is Python's subclass
    relation to [OSError]; [except Exception] catches all of them. *)
Inductive exn :=
| ProcessLookupError
| PermissionError
| FileNotFoundError
| FileExistsError
| OSError
| JSONDecodeError
| TimeoutExpired
| RequestException
| TypeError
| AttributeError
| UnicodeDecodeError.

Definition is_OSError (e : exn) : bool :=
  match e with
  | ProcessLookupError | PermissionError | FileNotFoundError
  | FileExistsError | OSError => true
  | _ => false
  end.

Definition is_ProcessLookupError (e : exn) : bool :=
  match e with ProcessLookupError => true | _ => false end.

Definition str_exn (e : exn) : string :=
  match e with
  | ProcessLookupError => "ProcessLookupError"
  | PermissionError => "PermissionError"
  | FileNotFoundError => "FileNotFoundError"
  | FileExistsError => "FileExistsError"
  | OSError => "OSError"
  | JSONDecodeError => "JSONDecodeError"
  | TimeoutExpired => "TimeoutExpired"
  | RequestException => "RequestException"
  | TypeError => "TypeError"
  | AttributeError => "AttributeError"
  | UnicodeDecodeError => "UnicodeDecodeError"
  end.

(** Answer of a library call that may raise. *)
Inductive result (X : Type) : Type :=
| Ok (x : X)
| Err (e : exn).
Arguments Ok {X} x.
Arguments Err {X} e.

Inductive signal := SIGTERM | SIGKILL.

(** What [Popen.communicate] yields for a finished child. *)
Record completed := Completed {
  returncode : Z;
  stdout : string;
  stderr : string
}.

(** ** Calls to the host *)

Inductive call : Type -> Type :=
(* psutil / os / time *)
| pid_exists (pid : Z) : call bool
| getpgid (pid : Z) : call (result Z)
| killpg (pgid : Z) (sig : signal) : call (result unit)
| sleep (secs : Z) : call unit
| time_time : call Z
(* socket / requests *)
| connect_ex (host : string) (port : Z) (timeout : Z) : call (result Z)
| requests_get (url : string) (timeout : Z) : call (result Z)
(* files *)
| path_exists (path : string) : call bool
| json_load (path : string) : call (result (gmap string process_info))
| open_w (path : string) : call (result unit)
| json_dump (path : string) (d : gmap string process_info) : call (result unit)
| makedirs (path : string) : call (result unit)
| listdir (path : string) : call (result (list string))
| symlink (src dst : string) : call (result unit)
| environ_copy : call (gmap string string)
(* subprocess *)
| Popen (args : list string) (shell : bool)
        (env : option (gmap string string)) (setsid : bool) : call (result Z)
| communicate (child : Z) (timeout : option Z) : call (result completed)
| kill (child : Z) : call unit
| wait (child : Z) : call unit.

(** A method body: a finite tree of calls, each continued on its answer. *)
Inductive prog (R : Type) : Type :=
| Ret (r : R)
| Vis (X : Type) (c : call X) (k : X -> prog R).
Arguments Ret {R} r.
Arguments Vis {R X} c k.

Fixpoint bind {A B : Type} (p : prog A) (f : A -> prog B) : prog B :=
  match p with
  | Ret a => f a
  | Vis c k => Vis c (fun x => bind (k x) f)
  end.

(** A call made, with the answer it got. *)
Inductive event : Type :=
| Ev (X : Type) (c : call X) (x : X).
Arguments Ev {X} c x.

Definition handler (W : Type) : Type := forall X : Type, call X -> W -> X * W.

Fixpoint run {W R : Type} (h : handler W) (p : prog R) (w : W)
  : R * W * list event :=
  match p with
  | Ret r => (r, w, [])
  | Vis c k =>
      let a := h _ c w in
      let r := run h (k a.1) a.2 in
      (r.1.1, r.1.2, Ev c a.1 :: r.2)
  end.

(** The same interpretation cut after [n] calls: the state of the host when
    the supervisor dies at that point. *)
Fixpoint crash_after {W R : Type} (h : handler W) (n : nat) (p : prog R)
  (w : W) : W :=
  match n, p with
  | O, _ => w
  | _, Ret _ => w
  | S n', Vis c k => let a := h _ c w in crash_after h n' (k a.1) a.2
  end.

(** ** Methods: registry state and exceptions over [prog] *)

Inductive outcome (R : Type) : Type :=
| Return (r : R)
| Raise (e : exn).
Arguments Return {R} r.
Arguments Raise {R} e.

(** A method of [ProcessManager]: it starts from [self.processes] and ends
    with a value or an exception, and with the registry as it left it. *)
Definition M (R : Type) : Type :=
  gmap string process_info -> prog (outcome R * gmap string process_info).

#[global] Instance M_ret : MRet M := fun _ r s => Ret (Return r, s).

#[global] Instance M_bind : MBind M := fun _ _ f m s =>
  bind (m s) (fun os =>
    match os.1 with
    | Return a => f a os.2
    | Raise e => Ret (Raise e, os.2)
    end).

Definition raise {R : Type} (e : exn) : M R := fun s => Ret (Raise e, s).

(** [try: m  except <those e with catches e>: h e]. *)
Definition try_except {R : Type} (m : M R) (catches : exn -> bool)
  (h : exn -> M R) : M R := fun s =>
  bind (m s) (fun os =>
    match os.1 with
    | Return a => Ret (Return a, os.2)
    | Raise e => if catches e then h e os.2 else Ret (Raise e, os.2)
    end).

Definition Exception (e : exn) : bool := true.

Definition get_processes : M (gmap string process_info) :=
  fun s => Ret (Return s, s).

Definition set_processes (d : gmap string process_info) : M unit :=
  fun _ => Ret (Return tt, d).

(** A call that does not raise. *)
Definition os {X : Type} (c : call X) : M X :=
  fun s => Vis c (fun x => Ret (Return x, s)).

(** A call whose failure is a Python exception. *)
Definition os_try {X : Type} (c : call (result X)) : M X :=
  fun s => Vis c (fun x =>
    match x with
    | Ok v => Ret (Return v, s)
    | Err e => Ret (Raise e, s)
    end).

Definition run_M {W R : Type} (h : handler W) (m : M R)
  (s : gmap string process_info) (w : W)
  : outcome R * gmap string process_info * W * list event :=
  let r := run h (m s) w in (r.1.1.1, r.1.1.2, r.1.2, r.2).

(** A computation that does not touch the registry, used as a method. *)
Definition lift {X : Type} (p : prog X) : M X :=
  fun s => bind p (fun x => Ret (Return x, s)).

(** ** class ProcessManager *)

Module ProcessManager.

Definition processes_file : string := "/tmp/comfyui_processes.json".

(** [save_processes] (source lines 56-62): [open(file, 'w')] truncates the
    file, [json.dump] then writes the whole dict; any exception is logged
    and swallowed. *)
Definition save_processes : M unit :=
  try_except
    (d ← get_processes;
     os_try (open_w processes_file);;
     os_try (json_dump processes_file d))
    Exception (fun _ => mret tt).

(** [_is_port_open] (lines 64-73): connect with a timeout, [True] iff
    [connect_ex] returns errno 0; any exception gives [False]. *)
Definition _is_port_open (host : string) (port timeout : Z) : prog bool :=
  Vis (connect_ex host port timeout) (fun r =>
    Ret match r with
        | Ok errno => errno =? 0
        | Err _ => false
        end).

(** [_is_comfyui_healthy] (lines 75-88). *)
Definition _is_comfyui_healthy (port timeout : Z) : prog bool :=
  bind (_is_port_open "localhost" port 2) (fun is_open =>
    if negb is_open then Ret false
    else
      let url := "http://localhost:" +:+ pretty port in
      Vis (requests_get url timeout) (fun r =>
        Ret match r with
            | Ok status_code => status_code =? 200
            | Err _ => false
            end)).

(** The inner [try] of [_force_cleanup_tenant] (lines 96-103): SIGTERM to
    the group, two seconds of grace, SIGKILL if the pid is still there. *)
Definition force_kill (pid : Z) : M unit :=
  pgid ← os_try (getpgid pid);
  os_try (killpg pgid SIGTERM);;
  os (sleep 2);;
  still ← os (pid_exists pid);
  if still : bool then
    pgid' ← os_try (getpgid pid);
    os_try (killpg pgid' SIGKILL);;
    os (sleep 1)
  else mret tt.

(** The end of [_force_cleanup_tenant] (lines 107-111). *)
Definition remove_from_tracking (pod_id : string) : M unit :=
  procs ← get_processes;
  match procs !! pod_id with
  | Some _ => set_processes (delete pod_id procs);; save_processes
  | None => mret tt
  end.

(** [_force_cleanup_tenant] (lines 90-113). *)
Definition _force_cleanup_tenant (pod_id : string) (process_info : process_info)
  : M unit :=
  try_except
    (let pid := info_pid process_info in
     alive ← (if truthy pid then os (pid_exists pid) else mret false);
     (if alive : bool then
        try_except (force_kill pid) is_ProcessLookupError (fun _ => mret tt)
      else mret tt);;
     remove_from_tracking pod_id)
    Exception (fun _ => mret tt).

(** The first loop of [_cleanup_dead_processes]: the ids whose pid is
    truthy and not found on the host, in iteration order. *)
Fixpoint collect_dead (items : list (string * process_info))
  : prog (list string) :=
  match items with
  | [] => Ret []
  | (pod_id, info) :: rest =>
      let pid := info_pid info in
      if truthy pid then
        Vis (pid_exists pid) (fun b =>
          bind (collect_dead rest) (fun dead_pods =>
            Ret (if b : bool then dead_pods else pod_id :: dead_pods)))
      else collect_dead rest
  end.

(** [_cleanup_dead_processes] (lines 115-128). *)
Definition _cleanup_dead_processes : M unit :=
  procs ← get_processes;
  dead_pods ← lift (collect_dead (map_to_list procs));
  set_processes (foldl (fun d pod_id => delete pod_id d) procs dead_pods);;
  match dead_pods with
  | [] => mret tt
  | _ => save_processes
  end.

(** [load_processes] (lines 44-54). *)
Definition load_processes : M unit :=
  try_except
    (present ← os (path_exists processes_file);
     if present : bool then
       d ← os_try (json_load processes_file);
       set_processes d;;
       _cleanup_dead_processes
     else mret tt)
    Exception (fun _ => set_processes ∅).

(** [__init__] (lines 39-42): the registry a fresh supervisor starts with. *)
Definition __init__ : M unit :=
  set_processes ∅;; load_processes.


(** Python's [subprocess.run] (standard library): start the child, wait for
    it with [communicate]; when that raises (the timeout expired, or
    anything else) the child is killed and waited for, and the exception is
    raised again. *)
Definition subprocess_run (args : list string) (shell : bool)
  (timeout : option Z) : M completed :=
  child ← os_try (Popen args shell None false);
  try_except (os_try (communicate child timeout))
    Exception (fun e => os (kill child);; os (wait child);; raise e).

(** [os.path.join] on two components. *)
Definition path_join (a b : string) : string :=
  if String.prefix "/" b then b
  else if String.eqb a "" then b
  else if String.eqb (String.substring (String.length a - 1)%nat 1 a) "/"
       then a +:+ b
  else a +:+ "/" +:+ b.

(** [str.endswith]. *)
Definition endswith (s suffix : string) : bool :=
  let n := String.length s in
  let m := String.length suffix in
  (m <=? n)%nat && String.eqb (String.substring (n - m)%nat m s) suffix.

(** The loop of [_setup_tenant_scripts] over the shared scripts. *)
Fixpoint link_scripts (source_scripts_dir scripts_dir : string)
  (files : list string) : M unit :=
  match files with
  | [] => mret tt
  | script_file :: rest =>
      (if endswith script_file ".sh" then
         let source_path := path_join source_scripts_dir script_file in
         let target_path := path_join scripts_dir script_file in
         present ← os (path_exists target_path);
         if present : bool then mret tt
         else
           try_except (os_try (symlink source_path target_path))
             is_OSError
             (fun _ => subprocess_run ["cp"; source_path; target_path]
                         false None;; mret tt)
       else mret tt);;
      link_scripts source_scripts_dir scripts_dir rest
  end.

(** [_setup_tenant_scripts] (lines 296-313). *)
Definition _setup_tenant_scripts (network_volume : string) : M unit :=
  let scripts_dir := path_join network_volume "scripts" in
  os_try (makedirs scripts_dir);;
  let source_scripts_dir := "/scripts" in
  files ← os_try (listdir source_scripts_dir);
  link_scripts source_scripts_dir scripts_dir files.

(** [_setup_cloudwatch_logging] (lines 315-351): every failure is logged
    and swallowed. *)
Definition _setup_cloudwatch_logging (pod_id network_volume : string)
  : M unit :=
  try_except
    (let log_dir := path_join network_volume "logs" in
     os_try (makedirs log_dir);;
     let setup_script := "/scripts/setup_pod_cloudwatch.sh" in
     present ← os (path_exists setup_script);
     if present : bool then
       subprocess_run [setup_script; pod_id] false (Some 30);; mret tt
     else mret tt)
    Exception (fun _ => mret tt).

(** The dicts returned by [start_tenant] and [stop_tenant], by their
    ["status"]. *)
Inductive start_result :=
| already_running (port pid : Z)
| started (port pid : Z) (network_volume : string).

Inductive stop_result := not_found | not_running | stopped.

(** [start_tenant] (lines 130-215).  The first part (lines 135-156) decides
    between the early return and the forced cleanup; [None] stands for
    falling through to the set-up of the new process. *)
Definition check_existing (pod_id : string) : M (option start_result) :=
  procs ← get_processes;
  match procs !! pod_id with
  | Some existing_info =>
      let existing_pid := info_pid existing_info in
      let existing_port := info_port existing_info in
      alive ← os (pid_exists existing_pid);
      is_healthy ← (if alive && truthy existing_port
                    then lift (_is_comfyui_healthy existing_port 5)
                    else mret false);
      if is_healthy : bool then
        mret (Some (already_running existing_port existing_pid))
      else
        _force_cleanup_tenant pod_id existing_info;; mret None
  | None => mret None
  end.

(** The second part (lines 158-211): set-up of the workspace and of the
    environment, spawn, record, persist. *)
Definition spawn_tenant (pod_id username : string) (port : Z)
  (env_vars : gmap string string) : M start_result :=
  let network_volume :=
    default ("/workspace/" +:+ pod_id) (env_vars !! "NETWORK_VOLUME") in
  os_try (makedirs network_volume);;
  environ ← os environ_copy;
  let tenant_env : gmap string string :=
    env_vars ∪
    (<["POD_ID" := pod_id]> (<["POD_USER_NAME" := username]>
      (<["NETWORK_VOLUME" := network_volume]>
        (<["COMFYUI_PORT" := pretty port]> environ)))) in
  _setup_tenant_scripts network_volume;;
  let cmd := ["/bin/bash"; "/scripts/start_tenant.sh"] in
  process_pid ← os_try (Popen cmd false (Some tenant_env) true);
  now ← os time_time;
  let process_info :=
    {| info_pid := process_pid; info_port := port;
       info_username := username; info_network_volume := network_volume;
       info_started_at := now; info_env := env_vars |} in
  procs ← get_processes;
  set_processes (<[pod_id := process_info]> procs);;
  save_processes;;
  _setup_cloudwatch_logging pod_id network_volume;;
  mret (started port process_pid network_volume).

Definition start_tenant (pod_id username : string) (port : Z)
  (env_vars : gmap string string) : M start_result :=
  early ← check_existing pod_id;
  match early with
  | Some r => mret r
  | None => spawn_tenant pod_id username port env_vars
  end.

(** The polling loop of [stop_tenant]: [for _ in range(30)]. *)
Fixpoint wait_for_exit (n : nat) (pid : Z) : M unit :=
  match n with
  | O => mret tt
  | S n' =>
      alive ← os (pid_exists pid);
      if alive : bool then os (sleep 1);; wait_for_exit n' pid
      else mret tt
  end.

(** The body of the [try] of [stop_tenant] (lines 233-243): SIGTERM to the
    group, up to 30 polls one second apart, SIGKILL if the pid is still
    there. *)
Definition graceful_shutdown (pid : Z) : M unit :=
  pgid ← os_try (getpgid pid);
  os_try (killpg pgid SIGTERM);;
  wait_for_exit 30 pid;;
  still ← os (pid_exists pid);
  if still : bool then
    pgid' ← os_try (getpgid pid);
    os_try (killpg pgid' SIGKILL);;
    os (sleep 2)
  else mret tt.

(** The clean-up that ends [stop_tenant] (lines 248-254). *)
Definition clean_up (pod_id : string) : M stop_result :=
  procs ← get_processes;
  set_processes (delete pod_id procs);;
  save_processes;;
  mret stopped.

(** [stop_tenant] (lines 217-258). *)
Definition stop_tenant (pod_id : string) : M stop_result :=
  procs ← get_processes;
  match procs !! pod_id with
  | None => mret not_found
  | Some process_info =>
      let pid := info_pid process_info in
      alive ← (if truthy pid then os (pid_exists pid) else mret false);
      if negb alive then
        set_processes (delete pod_id procs);;
        save_processes;;
        mret not_running
      else
        try_except (graceful_shutdown pid)
          is_ProcessLookupError (fun _ => mret tt);;
        clean_up pod_id
  end.

(** The entries of the list returned by [get_tenant_info]. *)
Inductive tenant_status := healthy | unhealthy | dead.

Record tenant_info := TenantInfo {
  t_pod_id : string;
  t_username : string;
  t_port : Z;
  t_pid : Z;
  t_uptime : Z;
  t_network_volume : string;
  t_status : tenant_status;
  t_process_alive : bool;
  t_service_healthy : bool
}.

(** The classification loop of [get_tenant_info]. *)
Fixpoint classify (items : list (string * process_info))
  : prog (list tenant_info) :=
  match items with
  | [] => Ret []
  | (pod_id, info) :: rest =>
      let pid := info_pid info in
      let port := info_port info in
      Vis (pid_exists pid) (fun is_process_alive =>
        bind (if is_process_alive && truthy port
              then _is_comfyui_healthy port 5 else Ret false)
          (fun is_service_healthy =>
            let status :=
              if is_process_alive && is_service_healthy then healthy
              else if is_process_alive && negb is_service_healthy
                   then unhealthy
                   else dead in
            Vis time_time (fun now =>
              bind (classify rest) (fun tenants =>
                Ret ({| t_pod_id := pod_id;
                        t_username := info_username info;
                        t_port := port;
                        t_pid := pid;
                        t_uptime := now - info_started_at info;
                        t_network_volume := info_network_volume info;
                        t_status := status;
                        t_process_alive := is_process_alive;
                        t_service_healthy := is_service_healthy |}
                     :: tenants)))))
  end.

(** [get_tenant_info] (lines 260-294). *)
Definition get_tenant_info : M (list tenant_info) :=
  _cleanup_dead_processes;;
  procs ← get_processes;
  lift (classify (map_to_list procs)).

End ProcessManager.

(** ** class MetricsHandler: the POST handlers *)

(** A decoded JSON value (numbers are integers). *)
#[warnings="-register-all"]
Inductive json :=
| JNull
| JBool (b : bool)
| JInt (n : Z)
| JStr (s : string)
| JList (l : list json)
| JDict (l : list (string * json)).

(** Python truthiness: [None], [False], [0], [""], [[]] and [{}] are
    falsy. *)
Definition json_truthy (v : json) : bool :=
  match v with
  | JNull => false
  | JBool b => b
  | JInt n => truthy n
  | JStr s => negb (String.eqb s "")
  | JList l => match l with [] => false | _ => true end
  | JDict l => match l with [] => false | _ => true end
  end.

(** [dict.get(key, default)] on a decoded object; of a repeated key
    [json.loads] keeps the last value. *)
Fixpoint dict_lookup (key : string) (l : list (string * json)) : option json :=
  match l with
  | [] => None
  | (k, v) :: rest =>
      match dict_lookup key rest with
      | Some v' => Some v'
      | None => if String.eqb k key then Some v else None
      end
  end.

Definition json_get (data : json) (key : string) (dflt : json) : M json :=
  match data with
  | JDict l => mret (default dflt (dict_lookup key l))
  | _ => raise AttributeError
  end.

(** The body sent back with [send_response], or [send_error]. *)
Inductive body :=
| start_body (r : ProcessManager.start_result)
| stop_body (r : ProcessManager.stop_result)
| execute_body (returncode : Z) (stdout stderr : string) (success : bool).

Inductive http_response :=
| send_error (code : Z) (message : string)
| send_json (code : Z) (b : body).

Module MetricsHandler.

Section Handler.

(** [self.process_manager], injected by [create_handler_class]: its two
    operations as the handlers call them, on the decoded values. *)
Variable process_manager_start_tenant :
  json -> json -> json -> json -> M ProcessManager.start_result.
Variable process_manager_stop_tenant :
  json -> M ProcessManager.stop_result.

(** Reading and decoding the request body; [None] is a body that
    [json.loads] rejects. *)
Definition read_body (post_data : option json) : M json :=
  match post_data with
  | Some data => mret data
  | None => raise JSONDecodeError
  end.

(** [handle_start_request] (lines 446-473). *)
Definition handle_start_request (post_data : option json) : M http_response :=
  try_except
    (data ← read_body post_data;
     pod_id ← json_get data "POD_ID" JNull;
     username ← json_get data "POD_USERNAME" JNull;
     port ← json_get data "PORT" JNull;
     env_vars ← json_get data "env" (JDict []);
     if negb (forallb json_truthy [pod_id; username; port]) then
       mret (send_error 400 "POD_ID, POD_USERNAME, and PORT required")
     else
       result ← process_manager_start_tenant pod_id username port env_vars;
       mret (send_json 200 (start_body result)))
    Exception (fun e => mret (send_error 500 (str_exn e))).

(** [handle_stop_request] (lines 475-497). *)
Definition handle_stop_request (post_data : option json) : M http_response :=
  try_except
    (data ← read_body post_data;
     pod_id ← json_get data "POD_ID" JNull;
     if negb (json_truthy pod_id) then
       mret (send_error 400 "POD_ID required")
     else
       result ← process_manager_stop_tenant pod_id;
       mret (send_json 200 (stop_body result)))
    Exception (fun e => mret (send_error 500 (str_exn e))).

End Handler.

(** The keys of a decoded object in the order in which Python iterates
    them: every key once, at the place of its first occurrence. *)
Definition dict_keys (l : list (string * json)) : list string :=
  reverse (remove_dups (reverse l.*1)).

(** The arguments of [subprocess.run(command, shell=True, ...)]: a string,
    or what [list(command)] makes of an iterable of strings: the items of a
    list, the keys of an object; anything else is a [TypeError]. *)
Definition shell_args (command : json) : option (list string) :=
  match command with
  | JStr s => Some [s]
  | JList l =>
      mapM (fun v => match v with JStr s => Some s | _ => None end) l
  | JDict l => Some (dict_keys l)
  | _ => None
  end.

(** [handle_execute_request] (lines 499-536). *)
Definition handle_execute_request (post_data : option json) : M http_response :=
  try_except
    (try_except
       (data ← read_body post_data;
        command ← json_get data "command" JNull;
        if negb (json_truthy command) then
          mret (send_error 400 "command required")
        else
          args ← match shell_args command with
                 | Some args => mret args
                 | None => raise TypeError
                 end;
          result ← ProcessManager.subprocess_run args true (Some 300);
          mret (send_json (if returncode result =? 0 then 200 else 500)
                  (execute_body (returncode result) (stdout result)
                     (stderr result) (returncode result =? 0))))
       (fun e => match e with TimeoutExpired => true | _ => false end)
       (fun _ => mret (send_error 408 "Command timeout")))
    Exception (fun e => mret (send_error 500 (str_exn e))).

(** The process manager behind the handlers, on requests that follow the
    annotations of [start_tenant(pod_id: str, username: str, port: int,
    env_vars: dict)]; values of another type end in a [TypeError]. *)
Definition env_of_json (v : json) : option (gmap string string) :=
  match v with
  | JDict l =>
      list_to_map <$>
        mapM (fun kv => match kv.2 with
                        | JStr s => Some (kv.1, s)
                        | _ => None
                        end) (reverse l)
  | _ => None
  end.

Definition start_tenant_json (pod_id username port env_vars : json)
  : M ProcessManager.start_result :=
  match pod_id, username, port, env_of_json env_vars with
  | JStr p, JStr u, JInt n, Some env => ProcessManager.start_tenant p u n env
  | _, _, _, _ => raise TypeError
  end.

(** [stop_tenant] on a decoded [POD_ID]: the keys of the registry are
    strings, so a number or a boolean is not among them; a list or an
    object is unhashable, and [pod_id not in self.processes] raises. *)
Definition stop_tenant_json (pod_id : json) : M ProcessManager.stop_result :=
  match pod_id with
  | JStr p => ProcessManager.stop_tenant p
  | JList _ | JDict _ => raise TypeError
  | _ => mret ProcessManager.not_found
  end.

(** [do_POST] (lines 375-383): the three operations by their path;
    [send_error(404)] carries the standard phrase of the status. *)
Definition do_POST
  (process_manager_start_tenant :
     json -> json -> json -> json -> M ProcessManager.start_result)
  (process_manager_stop_tenant : json -> M ProcessManager.stop_result)
  (path : string) (post_data : option json) : M http_response :=
  if String.eqb path "/start" then
    handle_start_request process_manager_start_tenant post_data
  else if String.eqb path "/stop" then
    handle_stop_request process_manager_stop_tenant post_data
  else if String.eqb path "/execute" then
    handle_execute_request post_data
  else mret (send_error 404 "Not Found").

(** The document written by [send_tenants_response] (lines 415-444). *)
Record summary := Summary {
  total_tenants : nat;
  healthy_tenants : nat;
  unhealthy_tenants : nat;
  dead_tenants : nat
}.

Record tenants_data := TenantsData {
  timestamp : Z;
  tenants : list ProcessManager.tenant_info;
  tenants_summary : summary
}.

(** [t['status'] == status]. *)
Definition has_status (status : ProcessManager.tenant_status)
  (t : ProcessManager.tenant_info) : bool :=
  match ProcessManager.t_status t, status with
  | ProcessManager.healthy, ProcessManager.healthy
  | ProcessManager.unhealthy, ProcessManager.unhealthy
  | ProcessManager.dead, ProcessManager.dead => true
  | _, _ => false
  end.

Definition send_tenants_response : M tenants_data :=
  tenant_list ← ProcessManager.get_tenant_info;
  now ← os time_time;
  mret {| timestamp := now;
          tenants := tenant_list;
          tenants_summary :=
            {| total_tenants := length tenant_list;
               healthy_tenants :=
                 length (List.filter (has_status ProcessManager.healthy)
                           tenant_list);
               unhealthy_tenants :=
                 length (List.filter (has_status ProcessManager.unhealthy)
                           tenant_list);
               dead_tenants :=
                 length (List.filter (has_status ProcessManager.dead)
                           tenant_list) |} |}.

End MetricsHandler.

(** ** A concrete host

    Processes with their groups and their reaction to signals, listening
    services, the registry file, and a clock.  The registry file holds a
    complete JSON document (which [json.load] decodes to the dict that was
    dumped), or is [Torn]: opened for writing and truncated, the document
    not yet complete, which [json.load] rejects. *)

Module Host.

Inductive file :=
| Absent
| Torn
| Document (d : gmap string process_info).

Record proc := Proc {
  p_pid : Z;
  p_pgid : Z;
  p_ours : bool;            (* may the supervisor signal it *)
  p_grace : option Z;       (* seconds it needs to exit on SIGTERM; None: ignores it *)
  p_dying : option Z;       (* seconds left, once SIGTERM was received *)
  p_job : Z * completed     (* run time and result, for a child of subprocess.run *)
}.

Record t := Host {
  procs : list proc;
  services : list (Z * result Z);   (* listening port, answer to GET / *)
  registry_file : file;
  read_only : bool;                 (* the registry file cannot be written *)
  paths : list string;              (* other existing paths *)
  scripts : list string;            (* content of /scripts *)
  environ : gmap string string;
  programs : list (list string * (Z * completed));
  clock : Z;
  next_pid : Z
}.

Definition with_procs (w : t) (ps : list proc) : t :=
  Host ps (services w) (registry_file w) (read_only w) (paths w)
       (scripts w) (environ w) (programs w) (clock w) (next_pid w).

Definition with_file (w : t) (f : file) : t :=
  Host (procs w) (services w) f (read_only w) (paths w)
       (scripts w) (environ w) (programs w) (clock w) (next_pid w).

Definition tick (w : t) (secs : Z) : t :=
  Host (procs w) (services w) (registry_file w) (read_only w) (paths w)
       (scripts w) (environ w) (programs w) (clock w + secs) (next_pid w).

Definition has_pid (w : t) (pid : Z) : bool :=
  existsb (fun p => p_pid p =? pid) (procs w).

Definition in_group (pgid : Z) (p : proc) : bool := p_pgid p =? pgid.

(** Delivery of a signal to one process: [None] when it is gone at once. *)
Definition deliver (sig : signal) (p : proc) : option proc :=
  match sig with
  | SIGKILL => None
  | SIGTERM =>
      match p_grace p with
      | Some 0 => None
      | Some g =>
          Some (Proc (p_pid p) (p_pgid p) (p_ours p) (p_grace p)
                  (Some (default g (p_dying p))) (p_job p))
      | None => Some p
      end
  end.

(** One process over [secs] seconds. *)
Definition elapse (secs : Z) (p : proc) : option proc :=
  match p_dying p with
  | Some remaining =>
      if remaining <=? secs then None
      else Some (Proc (p_pid p) (p_pgid p) (p_ours p) (p_grace p)
                   (Some (remaining - secs)) (p_job p))
  | None => Some p
  end.

Definition spawn (w : t) (args : list string) (setsid : bool) : t :=
  let pid := next_pid w in
  let job := default (0, Completed 0 "" "")
               (snd <$> find (fun pr => bool_decide (pr.1 = args))
                          (programs w)) in
  Host (procs w ++ [Proc pid (if setsid then pid else 1) true (Some 0) None job])
       (services w) (registry_file w) (read_only w) (paths w)
       (scripts w) (environ w) (programs w) (clock w) (pid + 1).

Definition is_registry (path : string) : bool :=
  String.eqb path ProcessManager.processes_file.

Definition step : handler t := fun X c =>
  match c in call X return t -> X * t with
  | pid_exists pid => fun w => (has_pid w pid, w)
  | getpgid pid => fun w =>
      (match find (fun p => p_pid p =? pid) (procs w) with
       | Some p => Ok (p_pgid p)
       | None => Err ProcessLookupError
       end, w)
  | killpg pgid sig => fun w =>
      let members := filter (fun p => in_group pgid p = true) (procs w) in
      match members with
      | [] => (Err ProcessLookupError, w)
      | _ =>
          if existsb p_ours members then
            (Ok tt,
             with_procs w (omap (fun p => if in_group pgid p && p_ours p
                                          then deliver sig p else Some p)
                             (procs w)))
          else (Err PermissionError, w)
      end
  | sleep secs => fun w =>
      (tt, tick (with_procs w (omap (elapse secs) (procs w))) secs)
  | time_time => fun w => (clock w, w)
  | connect_ex _ port _ => fun w =>
      (match find (fun s => s.1 =? port) (services w) with
       | Some _ => Ok 0
       | None => Ok 111
       end, w)
  | requests_get url _ => fun w =>
      (match find (fun s => String.eqb url ("http://localhost:" +:+ pretty s.1))
               (services w) with
       | Some s => s.2
       | None => Err RequestException
       end, w)
  | path_exists path => fun w =>
      (if is_registry path
       then match registry_file w with Absent => false | _ => true end
       else bool_decide (path ∈ paths w), w)
  | json_load path => fun w =>
      (if is_registry path
       then match registry_file w with
            | Document d => Ok d
            | Torn => Err JSONDecodeError
            | Absent => Err FileNotFoundError
            end
       else Err FileNotFoundError, w)
  | open_w path => fun w =>
      if read_only w then (Err PermissionError, w)
      else (Ok tt, if is_registry path then with_file w Torn else w)
  | json_dump path d => fun w =>
      (Ok tt, if is_registry path then with_file w (Document d) else w)
  | makedirs _ => fun w => (Ok tt, w)
  | listdir _ => fun w => (Ok (scripts w), w)
  | symlink _ _ => fun w => (Ok tt, w)
  | environ_copy => fun w => (environ w, w)
  | Popen args _ _ setsid => fun w => (Ok (next_pid w), spawn w args setsid)
  | communicate child timeout => fun w =>
      match find (fun p => p_pid p =? child) (procs w) with
      | Some p =>
          let '(duration, result) := p_job p in
          match timeout with
          | Some limit =>
              if limit <? duration then (Err TimeoutExpired, tick w limit)
              else (Ok result,
                    tick (with_procs w
                            (filter (fun q => p_pid q ≠ child) (procs w)))
                      duration)
          | None =>
              (Ok result,
               tick (with_procs w
                       (filter (fun q => p_pid q ≠ child) (procs w)))
                 duration)
          end
      | None => (Err ProcessLookupError, w)
      end
  | kill child => fun w =>
      (tt, with_procs w (filter (fun q => p_pid q ≠ child) (procs w)))
  | wait _ => fun w => (tt, w)
  end.

(** A record whose pid (a real one, not 0) is not on the host. *)
Definition gone (w : t) (info : process_info) : bool :=
  truthy (info_pid info) && negb (has_pid w (info_pid info)).

(** A quiet host: no process, no service, no registry file. *)
Definition empty : t :=
  Host [] [] Absent false [] [] ∅ [] 0 100.

End Host.

(** ** Observations on a trace *)

(** The observations [f] makes of the events of a trace, in order. *)
Fixpoint observe {A : Type} (f : event -> option A) (tr : list event)
  : list A :=
  match tr with
  | [] => []
  | e :: rest =>
      match f e with
      | Some a => a :: observe f rest
      | None => observe f rest
      end
  end.

Definition is_spawn (e : event) : bool :=
  match e with
  | Ev c _ => match c with Popen _ _ _ _ => true | _ => false end
  end.

(** The start of a tenant: [Popen] as a new process-group leader. *)
Definition is_tenant_spawn (e : event) : bool :=
  match e with
  | Ev c _ => match c with Popen _ _ _ setsid => setsid | _ => false end
  end.

(** The signals handed to [os.killpg], in order. *)
Definition signal_of (e : event) : option (Z * signal) :=
  match e with
  | Ev c _ => match c with killpg pgid sig => Some (pgid, sig) | _ => None end
  end.

Definition signals (tr : list event) : list (Z * signal) := observe signal_of tr.

(** The durations handed to [time.sleep], in order. *)
Definition nap_of (e : event) : option Z :=
  match e with
  | Ev c _ => match c with sleep secs => Some secs | _ => None end
  end.

Definition naps (tr : list event) : list Z := observe nap_of tr.

(** A signalling step ([os.getpgid], [os.killpg]) that failed otherwise than
    by [ProcessLookupError]. *)
Definition foreign_error (e : event) : bool :=
  match e with
  | Ev c x =>
      match c in call X return X -> bool with
      | getpgid _ => fun r =>
          match r with Err e => negb (is_ProcessLookupError e) | Ok _ => false end
      | killpg _ _ => fun r =>
          match r with Err e => negb (is_ProcessLookupError e) | Ok _ => false end
      | _ => fun _ => false
      end x
  end.

Definition lookup_errors_only (tr : list event) : bool :=
  forallb (fun e => negb (foreign_error e)) tr.

(** The answers the host gave about one pid. *)
Definition pid_answer (pid : Z) (e : event) : option bool :=
  match e with
  | Ev c x =>
      match c in call X return X -> option bool with
      | pid_exists p => fun b => if p =? pid then Some b else None
      | _ => fun _ => None
      end x
  end.

Definition pid_answers (pid : Z) (tr : list event) : list bool :=
  observe (pid_answer pid) tr.

(** The registry contents handed to [json.dump], in order. *)
Definition dump_of (e : event) : option (gmap string process_info) :=
  match e with
  | Ev c _ => match c with json_dump _ d => Some d | _ => None end
  end.

Definition dumps (tr : list event) : list (gmap string process_info) :=
  observe dump_of tr.

(** ** The health probe as the specification words it

    [probe(port) -> {unreachable, reachable_unhealthy, healthy}]: a TCP
    connect bounded by 2 s, whose failure is [unreachable]; then a request
    to the service root bounded by 5 s, [healthy] on a successful status
    and [reachable_unhealthy] on anything else.  [is_success] says which
    status codes count as successful. *)

Module ProbeSpec.

Inductive status := unreachable | reachable_unhealthy | healthy.

(** The success class of HTTP: 2xx. *)
Definition success_class (status_code : Z) : bool :=
  (200 <=? status_code) && (status_code <? 300).

Definition probe (is_success : Z -> bool) (port : Z) : prog status :=
  Vis (connect_ex "localhost" port 2) (fun r =>
    match r with
    | Ok 0 =>
        Vis (requests_get ("http://localhost:" +:+ pretty port) 5) (fun r' =>
          Ret match r' with
              | Ok status_code =>
                  if is_success status_code then healthy
                  else reachable_unhealthy
              | Err _ => reachable_unhealthy
              end)
    | _ => Ret unreachable
    end).

Definition reports_healthy (s : status) : bool :=
  match s with healthy => true | _ => false end.

(** The code's boolean probe implements [spec]: on every host it makes the
    same calls and answers [True] exactly when [spec] says [healthy]. *)
Definition implemented_by_code (spec : Z -> prog status) : Prop :=
  forall (W : Type) (h : handler W) (w : W) (port : Z),
    let r := run h (spec port) w in
    run h (ProcessManager._is_comfyui_healthy port 5) w
    = (reports_healthy r.1.1, r.1.2, r.2).

End ProbeSpec.

(** ** Hosts and registries used as explicit inputs *)

Module Examples.

Definition idle_job : Z * completed := (0, Completed 0 "" "").

(** Tenant [t1], started for [alice] on port 8188 as pid 4242. *)
Definition alice : process_info :=
  ProcessInfo 4242 8188 "alice" "/workspace/t1" 1000 ∅.

Definition registry : gmap string process_info := {[ "t1" := alice ]}.

(** Pid 4242 leads its own group and exits 3 s after SIGTERM. *)
Definition tenant_process : Host.proc :=
  Host.Proc 4242 4242 true (Some 3) None idle_job.


(** A record left behind by tenant [t3], whose pid 9999 is gone. *)
Definition stale : process_info :=
  ProcessInfo 9999 8190 "carol" "/workspace/t3" 500 ∅.

Definition registry_with_stale : gmap string process_info :=
  <["t3" := stale]> registry.

(** The tenant runs and its service answers [status_code] on port 8188. *)
Definition serving (status_code : Z) : Host.t :=
  Host.Host [tenant_process] [(8188, Ok status_code)] Host.Absent false []
    ["start_tenant.sh"] ∅ [] 2000 5000.

End Examples.

(** The pids of the tenants started: successful [Popen] calls that made a
    new process-group leader. *)
Definition spawn_of (e : event) : option Z :=
  match e with
  | Ev c x =>
      match c in call X return X -> option Z with
      | Popen _ _ _ true => fun r =>
          match r with Ok pid => Some pid | Err _ => None end
      | _ => fun _ => None
      end x
  end.

Definition spawned (tr : list event) : list Z := observe spawn_of tr.

(** Events of the supervisor's housekeeping: no signal, no sleep, no tenant
    started. *)
Definition housekeeping (e : event) : bool :=
  match signal_of e, nap_of e, spawn_of e with
  | None, None, None => negb (foreign_error e) && negb (is_tenant_spawn e)
  | _, _, _ => false
  end.

Module Requests.

(** A start request whose port is 0. *)
Definition port_zero : list (string * json) :=
  [("POD_ID", JStr "t1"); ("POD_USERNAME", JStr "alice"); ("PORT", JInt 0)].

(** Execute requests, on a host that knows the two commands: one ends
    after a second, the other would run for ten minutes. *)
Definition echo : list (string * json) := [("command", JStr "echo hi")].
Definition sleeper : list (string * json) := [("command", JStr "sleep 600")].

Definition shell_host : Host.t :=
  Host.Host [] [] Host.Absent false [] [] ∅
    [(["echo hi"], (1, Completed 0 "hi" ""));
     (["sleep 600"], (600, Completed 0 "" ""))]
    2000 5000.

End Requests.

Module Crash.

(** The registry after tenant [t2] was started for [bob] as pid 4343. *)
Definition bob : process_info :=
  ProcessInfo 4343 8189 "bob" "/workspace/t2" 1500 ∅.

Definition registry' : gmap string process_info :=
  <["t2" := bob]> Examples.registry.

(** The registry file holds the record of [t1]; both tenants run. *)
Definition host : Host.t :=
  Host.Host [Examples.tenant_process;
             Host.Proc 4343 4343 true (Some 3) None Examples.idle_job]
    [(8188, Ok 200); (8189, Ok 200)] (Host.Document Examples.registry)
    false [] ["start_tenant.sh"] ∅ [] 2000 5000.

End Crash.

(** ** A scripted host

    The host answers the calls from a script, one entry per call that asks
    something ([time.sleep], [kill] and [wait] ask nothing).  It serves to
    play the races between a check and the step that follows it. *)

Module Script.

Inductive answer :=
| yes
| no
| gives (n : Z)
| fails (e : exn).

Definition as_bool (a : option answer) : bool :=
  match a with Some yes => true | _ => false end.

Definition as_Z (a : option answer) : result Z :=
  match a with
  | Some (gives n) => Ok n
  | Some (fails e) => Err e
  | _ => Ok 0
  end.

Definition as_unit (a : option answer) : result unit :=
  match a with
  | Some (fails e) => Err e
  | _ => Ok tt
  end.

Definition step : handler (list answer) := fun X c =>
  match c in call X return list answer -> X * list answer with
  | pid_exists _ => fun w => (as_bool (head w), tail w)
  | getpgid _ => fun w => (as_Z (head w), tail w)
  | killpg _ _ => fun w => (as_unit (head w), tail w)
  | sleep _ => fun w => (tt, w)
  | time_time => fun w =>
      (match head w with Some (gives n) => n | _ => 0 end, tail w)
  | connect_ex _ _ _ => fun w => (as_Z (head w), tail w)
  | requests_get _ _ => fun w => (as_Z (head w), tail w)
  | path_exists _ => fun w => (as_bool (head w), tail w)
  | json_load _ => fun w =>
      (match head w with Some (fails e) => Err e | _ => Ok ∅ end, tail w)
  | open_w _ => fun w => (as_unit (head w), tail w)
  | json_dump _ _ => fun w => (as_unit (head w), tail w)
  | makedirs _ => fun w => (as_unit (head w), tail w)
  | listdir _ => fun w =>
      (match head w with Some (fails e) => Err e | _ => Ok [] end, tail w)
  | symlink _ _ => fun w => (as_unit (head w), tail w)
  | environ_copy => fun w => (∅, w)
  | Popen _ _ _ _ => fun w => (as_Z (head w), tail w)
  | communicate _ _ => fun w =>
      (match head w with
       | Some (fails e) => Err e
       | Some (gives n) => Ok (Completed n "" "")
       | _ => Ok (Completed 0 "" "")
       end, tail w)
  | kill _ => fun w => (tt, w)
  | wait _ => fun w => (tt, w)
  end.

(** The pid is there; its group is resolved; SIGTERM is delivered; the pid
    is still there at each of the 30 polls and after them; its group is
    resolved again; SIGKILL is refused. *)
Definition sigkill_refused : list answer :=
  [yes; gives 4242; gives 0] ++ repeat yes 31
  ++ [gives 4242; fails PermissionError].

(** The pid is there at the check and gone when its group is looked up. *)
Definition vanishes : list answer := [yes; fails ProcessLookupError].

(** SIGTERM and SIGKILL are delivered, and the pid is reported at every
    check all the same. *)
Definition unkillable : list answer :=
  [yes; gives 4242; gives 0] ++ repeat yes 31 ++ [gives 4242; gives 0].

End Script.

(** A liveness check: [psutil.pid_exists]. *)
Definition is_pid_check (e : event) : bool :=
  match e with
  | Ev c _ => match c with pid_exists _ => true | _ => false end
  end.

(** The entry that [get_tenant_info] builds for one record: the fields of
    the record, and a status that follows from the two flags. *)
Definition entry_of (pod_id : string) (info : process_info)
  (t : ProcessManager.tenant_info) : Prop :=
  ProcessManager.t_pod_id t = pod_id /\
  ProcessManager.t_username t = info_username info /\
  ProcessManager.t_port t = info_port info /\
  ProcessManager.t_pid t = info_pid info /\
  ProcessManager.t_network_volume t = info_network_volume info /\
  ProcessManager.t_status t
  = (if ProcessManager.t_process_alive t
     then if ProcessManager.t_service_healthy t
          then ProcessManager.healthy else ProcessManager.unhealthy
     else ProcessManager.dead) /\
  (ProcessManager.t_service_healthy t = true ->
   ProcessManager.t_process_alive t = true) /\
  (ProcessManager.t_service_healthy t = true -> info_port info <> 0).

(** What the tenants were started with: the command and the environment
    handed to the [Popen] calls that make a new process-group leader, in
    order. *)
Definition tenant_env_of (e : event)
  : option (list string * gmap string string) :=
  match e with
  | Ev c _ =>
      match c with
      | Popen args _ (Some env) true => Some (args, env)
      | _ => None
      end
  end.

Definition tenant_envs (tr : list event)
  : list (list string * gmap string string) :=
  observe tenant_env_of tr.

(** The links asked of [os.symlink], in order: source and target. *)
Definition link_of (e : event) : option (string * string) :=
  match e with
  | Ev c _ => match c with symlink src dst => Some (src, dst) | _ => None end
  end.

Definition links (tr : list event) : list (string * string) :=
  observe link_of tr.

(** Events that do not write a file: everything but [open(.., 'w')] and
    [json.dump]. *)
Definition keeps_files (e : event) : bool :=
  match e with
  | Ev c _ => match c with open_w _ | json_dump _ _ => false | _ => true end
  end.

(** The registry file of the host can be written and holds the registry
    that is in memory. *)
Definition mirrored (s : gmap string process_info) (w : Host.t) : Prop :=
  Host.read_only w = false /\ Host.registry_file w = Host.Document s.

(** ** A host whose shell runs the command as a child

    [Popen(command, shell=True)] starts [/bin/sh -c command]; the pid it
    returns is that of the shell.  For a command that the shell does not
    replace itself with (a list, a pipeline, a redirection under an older
    shell) the command runs as a child of the shell.  Here [Popen] through
    the shell makes both processes, the shell first; the command ends when
    the shell ends normally, and a signal to the shell reaches the shell
    alone. *)

Module Shell.

Definition step : handler Host.t := fun X c =>
  match c in call X return Host.t -> X * Host.t with
  | Popen args shell env setsid => fun w =>
      let a := Host.step _ (Popen args shell env setsid) w in
      if shell then (a.1, Host.spawn a.2 args false) else a
  | communicate child timeout => fun w =>
      let a := Host.step _ (communicate child timeout) w in
      match a.1 with
      | Ok _ =>
          (a.1, Host.with_procs a.2
                  (filter (fun q => Host.p_pid q ≠ child + 1)
                     (Host.procs a.2)))
      | Err _ => a
      end
  | c' => Host.step _ c'
  end.

(** A command of two steps, the first of which would run for ten
    minutes. *)
Definition two_steps : list (string * json) :=
  [("command", JStr "sleep 600; echo done")].

Definition host : Host.t :=
  Host.Host [] [] Host.Absent false [] [] ∅
    [(["sleep 600; echo done"], (600, Completed 0 "done" ""))]
    2000 5000.

End Shell.

(** ** A host whose disk can fail during a write

    [Host] with one more way to fail: [write_error] is the exception that
    [json.dump] (or the close that ends the [with] block) raises when the
    document cannot be written out, the disk being full for instance; the
    file then stays as [open(.., 'w')] left it, truncated. *)

Module Disk.

Record t := Disk {
  host : Host.t;
  write_error : option exn
}.

Definition step : handler t := fun X c =>
  match c in call X return t -> X * t with
  | json_dump path d => fun w =>
      match write_error w with
      | Some e => (Err e, w)
      | None =>
          let a := Host.step _ (json_dump path d) (host w) in
          (a.1, Disk a.2 None)
      end
  | c' => fun w =>
      let a := Host.step _ c' (host w) in (a.1, Disk a.2 (write_error w))
  end.

End Disk.

(** ** The range of [psutil.pid_exists]

    [psutil.pid_exists] answers for the pids of the range of [pid_t]; for
    a larger number it raises [OverflowError].  The call [pid_exists] of
    this embedding is the answer within that range: what is said about the
    sweep and the listing of an arbitrary registry is said of registries
    whose pids are in the range. *)
Definition pid_in_range (pid : Z) : bool := (0 <=? pid) && (pid <? 2 ^ 31).

Definition pids_in_range (procs : gmap string process_info) : Prop :=
  map_Forall (fun _ info => pid_in_range (info_pid info) = true) procs.





(** What an entry of [get_tenant_info] owes to the host, in a trace: its
    [process_alive] is an answer that [psutil.pid_exists] gave about its
    pid; a service reported healthy was reached on its port and answered
    200; and for a live process with a port, a service not reported
    healthy failed the connect or the request. *)
Definition reported_from (tr : list event) (t : ProcessManager.tenant_info)
  : Prop :=
  let port := ProcessManager.t_port t in
  let url := "http://localhost:" +:+ pretty port in
  Ev (pid_exists (ProcessManager.t_pid t)) (ProcessManager.t_process_alive t)
    ∈ tr /\
  (ProcessManager.t_service_healthy t = true ->
   Ev (connect_ex "localhost" port 2) (Ok 0) ∈ tr /\
   Ev (requests_get url 5) (Ok 200) ∈ tr) /\
  (ProcessManager.t_process_alive t = true -> port <> 0 ->
   ProcessManager.t_service_healthy t = false ->
   (exists r, Ev (connect_ex "localhost" port 2) r ∈ tr /\ r <> Ok 0) \/
   (exists r, Ev (requests_get url 5) r ∈ tr /\ r <> Ok 200)).

(** * Properties *)

(** ** Interpretation lemmas *)

Section Run.
Context {W : Type} (h : handler W).

Lemma run_bind {A B : Type} (p : prog A) (f : A -> prog B) (w : W) :
  run h (bind p f) w =
  let r := run h p w in
  let r' := run h (f r.1.1) r.1.2 in
  (r'.1.1, r'.1.2, r.2 ++ r'.2).
Proof.
  revert w. induction p as [a | X c k IH]; intros w; cbn.
  - by destruct (run h (f a) w) as [[? ?] ?].
  - by rewrite IH.
Qed.

Lemma run_M_ret {A : Type} (a : A) s w :
  run_M h (mret a) s w = (Return a, s, w, []).
Proof. reflexivity. Qed.

Lemma run_M_raise {A : Type} (e : exn) s w :
  run_M h (raise e : M A) s w = (Raise e, s, w, []).
Proof. reflexivity. Qed.

Lemma run_M_get s w :
  run_M h get_processes s w = (Return s, s, w, []).
Proof. reflexivity. Qed.

Lemma run_M_set d s w :
  run_M h (set_processes d) s w = (Return tt, d, w, []).
Proof. reflexivity. Qed.

Lemma run_M_os {X : Type} (c : call X) s w :
  run_M h (os c) s w = (Return (h X c w).1, s, (h X c w).2, [Ev c (h X c w).1]).
Proof. reflexivity. Qed.

Lemma run_M_os_try {X : Type} (c : call (result X)) s w :
  run_M h (os_try c) s w =
  (match (h _ c w).1 with Ok v => Return v | Err e => Raise e end,
   s, (h _ c w).2, [Ev c (h _ c w).1]).
Proof. unfold run_M, os_try. cbn. by destruct (h _ c w).1. Qed.

Lemma run_M_lift {X : Type} (p : prog X) s w :
  run_M h (lift p) s w =
  (Return (run h p w).1.1, s, (run h p w).1.2, (run h p w).2).
Proof.
  unfold run_M, lift. rewrite run_bind. cbn. by rewrite app_nil_r.
Qed.

Lemma run_M_bind {A B : Type} (m : M A) (f : A -> M B) s w :
  run_M h (m ≫= f) s w =
  let r := run_M h m s w in
  match r.1.1.1 with
  | Return a =>
      let r' := run_M h (f a) r.1.1.2 r.1.2 in
      (r'.1.1.1, r'.1.1.2, r'.1.2, r.2 ++ r'.2)
  | Raise e => (Raise e, r.1.1.2, r.1.2, r.2)
  end.
Proof.
  unfold run_M, mbind, M_bind. rewrite run_bind. cbn.
  destruct (run h (m s) w) as [[[o s1] w1] t1]. cbn.
  destruct o; cbn; [done | by rewrite app_nil_r].
Qed.

Lemma run_M_try {A : Type} (m : M A) catches (k : exn -> M A) s w :
  run_M h (try_except m catches k) s w =
  let r := run_M h m s w in
  match r.1.1.1 with
  | Return a => r
  | Raise e =>
      if catches e then
        let r' := run_M h (k e) r.1.1.2 r.1.2 in
        (r'.1.1.1, r'.1.1.2, r'.1.2, r.2 ++ r'.2)
      else r
  end.
Proof.
  unfold run_M, try_except. rewrite run_bind. cbn.
  destruct (run h (m s) w) as [[[o s1] w1] t1]. cbn.
  destruct o; cbn; [by rewrite app_nil_r |].
  destruct (catches e); cbn; [done | by rewrite app_nil_r].
Qed.

End Run.

(** ** The health prober *)

(** C5, as stated, does not hold: with "any success-class response" read as
    any 2xx status, the code departs from the specified probe.  On a host
    whose service answers 204 the specification says [healthy], the code
    answers [False]. *)
Lemma probe_success_class_refuted :
  ~ ProbeSpec.implemented_by_code (ProbeSpec.probe ProbeSpec.success_class).
Proof.
  intros Hspec.
  specialize (Hspec Host.t Host.step (Examples.serving 204) 8188).
  vm_compute in Hspec. discriminate Hspec.
Qed.

(** C5, amended: the probe first connects to [localhost:port] with a 2 s
    timeout and answers [unreachable] (the code: [False]) when that fails;
    only then it requests the service root with a 5 s timeout, and answers
    [healthy] (the code: [True]) exactly when the status is 200; any other
    status, error or timeout is [reachable_unhealthy] (the code:
    [False]). *)
Theorem probe_healthy_on_200_only :
  ProbeSpec.implemented_by_code (ProbeSpec.probe (fun c => c =? 200)).
Proof.
  intros W h w port. cbn.
  destruct (h _ (connect_ex "localhost" port 2) w) as [[errno | e] w1];
    cbn; [| done].
  destruct errno; cbn; [| done | done].
  destruct (h _ (requests_get ("http://localhost:" +:+ pretty port) 5) w1)
    as [[status_code | e] w2]; cbn; [| done].
  by destruct (status_code =? 200).
Qed.


(** Unfolding of the monad of methods, down to the calls. *)
Ltac unfold_M :=
  unfold run_M, mbind, M_bind, mret, M_ret, try_except, raise,
    get_processes, set_processes, os, os_try, lift, Exception in *;
  cbn.

(** ** Inversion of a run that returned *)

Section Inversion.
Context {W : Type} (h : handler W).

Lemma bind_returned {A B : Type} (m : M A) (f : A -> M B) s w b s' w' tr :
  run_M h (m ≫= f) s w = (Return b, s', w', tr) ->
  exists a s1 w1 t1 t2,
    run_M h m s w = (Return a, s1, w1, t1) /\
    run_M h (f a) s1 w1 = (Return b, s', w', t2) /\
    tr = t1 ++ t2.
Proof.
  rewrite run_M_bind. cbn zeta.
  destruct (run_M h m s w) as [[[o s1] w1] t1]. cbn [fst snd].
  destruct o as [a | e]; [| discriminate].
  destruct (run_M h (f a) s1 w1) as [[[o2 s2] w2] t2] eqn:E2. cbn [fst snd].
  intros [= -> -> -> <-]. by exists a, s1, w1, t1, t2.
Qed.

Lemma os_try_returned {X : Type} (c : call (result X)) s w v s' w' tr :
  run_M h (os_try c) s w = (Return v, s', w', tr) ->
  h _ c w = (Ok v, w') /\ s' = s /\ tr = [Ev c (Ok v)].
Proof.
  rewrite run_M_os_try. destruct (h _ c w) as [[x | e] w1]; cbn.
  - by intros [= -> -> -> <-].
  - discriminate.
Qed.

Lemma os_returned {X : Type} (c : call X) s w v s' w' tr :
  run_M h (os c) s w = (Return v, s', w', tr) ->
  h _ c w = (v, w') /\ s' = s /\ tr = [Ev c v].
Proof.
  rewrite run_M_os. destruct (h _ c w) as [x w1]; cbn.
  by intros [= -> -> -> <-].
Qed.

End Inversion.

(** ** Methods that leave the registry alone *)

Definition preserves_registry {R : Type} (m : M R) : Prop :=
  forall (W : Type) (h : handler W) s w, (run_M h m s w).1.1.2 = s.

Definition never_raises {R : Type} (m : M R) : Prop :=
  forall (W : Type) (h : handler W) s w,
    exists r, (run_M h m s w).1.1.1 = Return r.

Create HintDb registry.

Lemma preserves_ret {R : Type} (r : R) : preserves_registry (mret r).
Proof. by intros W h s w. Qed.

Lemma preserves_raise {R : Type} e : preserves_registry (raise e : M R).
Proof. by intros W h s w. Qed.

Lemma preserves_os {X : Type} (c : call X) : preserves_registry (os c).
Proof. by intros W h s w. Qed.

Lemma preserves_os_try {X : Type} (c : call (result X)) :
  preserves_registry (os_try c).
Proof. intros W h s w. by rewrite run_M_os_try. Qed.

Lemma preserves_lift {X : Type} (p : prog X) : preserves_registry (lift p).
Proof. intros W h s w. by rewrite run_M_lift. Qed.

Lemma preserves_get : preserves_registry get_processes.
Proof. by intros W h s w. Qed.

Lemma preserves_bind {A B : Type} (m : M A) (f : A -> M B) :
  preserves_registry m -> (forall a, preserves_registry (f a)) ->
  preserves_registry (m ≫= f).
Proof.
  intros Hm Hf W h s w. rewrite run_M_bind. cbn zeta.
  specialize (Hm W h s w).
  destruct (run_M h m s w) as [[[o s1] w1] t1]. cbn in *. subst s1.
  destruct o as [a | e]; cbn; [apply Hf | done].
Qed.

Lemma preserves_try {R : Type} (m : M R) catches (k : exn -> M R) :
  preserves_registry m -> (forall e, preserves_registry (k e)) ->
  preserves_registry (try_except m catches k).
Proof.
  intros Hm Hk W h s w. rewrite run_M_try. cbn zeta.
  specialize (Hm W h s w).
  destruct (run_M h m s w) as [[[o s1] w1] t1]. cbn in *. subst s1.
  destruct o as [a | e]; cbn; [done |].
  destruct (catches e); cbn; [apply Hk | done].
Qed.

#[global] Hint Resolve preserves_ret preserves_raise preserves_os
  preserves_os_try preserves_lift preserves_get : registry.
#[global] Hint Extern 2 (preserves_registry (_ ≫= _)) =>
  apply preserves_bind; [| intros ?] : registry.
#[global] Hint Extern 2 (preserves_registry (try_except _ _ _)) =>
  apply preserves_try; [| intros ?] : registry.
#[global] Hint Extern 3 (preserves_registry (if ?b then _ else _)) =>
  destruct b : registry.
#[global] Hint Extern 3 (preserves_registry (match ?x with _ => _ end)) =>
  destruct x : registry.

Lemma save_preserves : preserves_registry ProcessManager.save_processes.
Proof. unfold ProcessManager.save_processes. auto 10 with registry. Qed.

Lemma save_returns {W : Type} (h : handler W) s w :
  exists w' tr,
    run_M h ProcessManager.save_processes s w = (Return tt, s, w', tr) /\
    signals tr = [] /\ naps tr = [] /\ spawned tr = [] /\
    lookup_errors_only tr = true.
Proof.
  unfold ProcessManager.save_processes. unfold_M.
  destruct (h _ (open_w ProcessManager.processes_file) w) as [[[] | e] w1];
    cbn; [| by do 2 eexists].
  destruct (h _ (json_dump ProcessManager.processes_file s) w1)
    as [[[] | e] w2]; cbn; by do 2 eexists.
Qed.

Lemma subprocess_run_preserves args shell timeout :
  preserves_registry (ProcessManager.subprocess_run args shell timeout).
Proof. unfold ProcessManager.subprocess_run. auto 10 with registry. Qed.
#[global] Hint Resolve save_preserves subprocess_run_preserves : registry.

Lemma link_scripts_preserves src dst files :
  preserves_registry (ProcessManager.link_scripts src dst files).
Proof.
  induction files as [| f files IH]; cbn [ProcessManager.link_scripts];
    auto 12 with registry.
Qed.
#[global] Hint Resolve link_scripts_preserves : registry.

Lemma setup_scripts_preserves nv :
  preserves_registry (ProcessManager._setup_tenant_scripts nv).
Proof. unfold ProcessManager._setup_tenant_scripts. auto 10 with registry. Qed.

Lemma cloudwatch_preserves pod nv :
  preserves_registry (ProcessManager._setup_cloudwatch_logging pod nv).
Proof.
  unfold ProcessManager._setup_cloudwatch_logging. auto 12 with registry.
Qed.
#[global] Hint Resolve setup_scripts_preserves cloudwatch_preserves : registry.

Lemma cloudwatch_returns {W : Type} (h : handler W) pod nv s w :
  exists w' tr,
    run_M h (ProcessManager._setup_cloudwatch_logging pod nv) s w
    = (Return tt, s, w', tr).
Proof.
  pose proof (cloudwatch_preserves pod nv W h s w) as Hs.
  unfold ProcessManager._setup_cloudwatch_logging in *.
  rewrite run_M_try in *. cbn zeta in *.
  destruct (run_M h _ s w) as [[[o s1] w1] t1]. cbn in *.
  destruct o as [[] | e]; cbn in *; subst; eauto.
Qed.

(** ** Methods that only do housekeeping *)

Definition emits {R : Type} (P : event -> bool) (m : M R) : Prop :=
  forall (W : Type) (h : handler W) s w, forallb P (run_M h m s w).2 = true.

Lemma emits_ret {R : Type} P (r : R) : emits P (mret r).
Proof. by intros W h s w. Qed.

Lemma emits_raise {R : Type} P e : emits P (raise e : M R).
Proof. by intros W h s w. Qed.

Lemma emits_get P : emits P get_processes.
Proof. by intros W h s w. Qed.

Lemma emits_set P d : emits P (set_processes d).
Proof. by intros W h s w. Qed.

Lemma emits_os {X : Type} (P : event -> bool) (c : call X) :
  (forall x, P (Ev c x) = true) -> emits P (os c).
Proof. intros HP W h s w. rewrite run_M_os. cbn. by rewrite HP. Qed.

Lemma emits_os_try {X : Type} (P : event -> bool) (c : call (result X)) :
  (forall x, P (Ev c x) = true) -> emits P (os_try c).
Proof. intros HP W h s w. rewrite run_M_os_try. cbn. by rewrite HP. Qed.

Lemma emits_bind {A B : Type} P (m : M A) (f : A -> M B) :
  emits P m -> (forall a, emits P (f a)) -> emits P (m ≫= f).
Proof.
  intros Hm Hf W h s w. rewrite run_M_bind. cbn zeta.
  specialize (Hm W h s w).
  destruct (run_M h m s w) as [[[o s1] w1] t1]. cbn [fst snd] in *.
  destruct o as [a | e]; cbn [fst snd]; [| done].
  rewrite forallb_app, Hm. apply Hf.
Qed.

Lemma emits_try {R : Type} P (m : M R) catches (k : exn -> M R) :
  emits P m -> (forall e, emits P (k e)) -> emits P (try_except m catches k).
Proof.
  intros Hm Hk W h s w. rewrite run_M_try. cbn zeta.
  specialize (Hm W h s w).
  destruct (run_M h m s w) as [[[o s1] w1] t1]. cbn [fst snd] in *.
  destruct o as [a | e]; cbn [fst snd]; [done |].
  destruct (catches e); cbn [fst snd]; [| done].
  rewrite forallb_app, Hm. apply Hk.
Qed.

#[global] Hint Resolve emits_ret emits_raise emits_get emits_set : registry.
#[global] Hint Extern 2 (emits _ (os _)) =>
  apply emits_os; intros ?; reflexivity : registry.
#[global] Hint Extern 2 (emits _ (os_try _)) =>
  apply emits_os_try; intros []; reflexivity : registry.
#[global] Hint Extern 2 (emits _ (_ ≫= _)) =>
  apply emits_bind; [| intros ?] : registry.
#[global] Hint Extern 2 (emits _ (try_except _ _ _)) =>
  apply emits_try; [| intros ?] : registry.
#[global] Hint Extern 3 (emits _ (if ?b then _ else _)) =>
  destruct b : registry.
#[global] Hint Extern 3 (emits _ (match ?x with _ => _ end)) =>
  destruct x : registry.

Lemma save_housekeeping : emits housekeeping ProcessManager.save_processes.
Proof. unfold ProcessManager.save_processes. auto 10 with registry. Qed.

Lemma subprocess_run_housekeeping args shell timeout :
  emits housekeeping (ProcessManager.subprocess_run args shell timeout).
Proof. unfold ProcessManager.subprocess_run. auto 12 with registry. Qed.
#[global] Hint Resolve save_housekeeping subprocess_run_housekeeping : registry.

Lemma link_scripts_housekeeping src dst files :
  emits housekeeping (ProcessManager.link_scripts src dst files).
Proof.
  induction files as [| f files IH]; cbn [ProcessManager.link_scripts];
    auto 14 with registry.
Qed.
#[global] Hint Resolve link_scripts_housekeeping : registry.

Lemma setup_scripts_housekeeping nv :
  emits housekeeping (ProcessManager._setup_tenant_scripts nv).
Proof. unfold ProcessManager._setup_tenant_scripts. auto 10 with registry. Qed.

Lemma cloudwatch_housekeeping pod nv :
  emits housekeeping (ProcessManager._setup_cloudwatch_logging pod nv).
Proof.
  unfold ProcessManager._setup_cloudwatch_logging. auto 14 with registry.
Qed.
#[global] Hint Resolve setup_scripts_housekeeping cloudwatch_housekeeping
  : registry.

(** What housekeeping events contribute to the observations. *)
Lemma housekeeping_observed (tr : list event) :
  forallb housekeeping tr = true ->
  signals tr = [] /\ naps tr = [] /\ spawned tr = [] /\
  lookup_errors_only tr = true /\ existsb is_tenant_spawn tr = false.
Proof.
  unfold signals, naps, spawned, lookup_errors_only.
  induction tr as [| e tr IH]; [done |]. cbn [forallb observe existsb].
  intros [He Htr]%andb_prop. destruct (IH Htr) as (-> & -> & -> & -> & ->).
  unfold housekeeping in He.
  destruct (signal_of e), (nap_of e), (spawn_of e); try discriminate.
  apply andb_prop in He as [-> He]. cbn.
  by destruct (is_tenant_spawn e).
Qed.

Lemma observe_app {A : Type} (f : event -> option A) (t1 t2 : list event) :
  observe f (t1 ++ t2) = observe f t1 ++ observe f t2.
Proof.
  induction t1 as [| e t1 IH]; [done |]. cbn. rewrite IH.
  by destruct (f e).
Qed.

(** ** The set-up and spawn of a tenant *)

Lemma probe_healthy_trace {W : Type} (h : handler W) port w w' tr :
  run h (ProcessManager._is_comfyui_healthy port 5) w = (true, w', tr) ->
  tr = [Ev (connect_ex "localhost" port 2) (Ok 0);
        Ev (requests_get ("http://localhost:" +:+ pretty port) 5) (Ok 200)].
Proof.
  cbn.
  destruct (h _ (connect_ex "localhost" port 2) w) as [[errno | e] w1];
    cbn; [| discriminate].
  destruct errno; cbn; [| discriminate | discriminate].
  destruct (h _ (requests_get ("http://localhost:" +:+ pretty port) 5) w1)
    as [[status_code | e] w2]; cbn; [| discriminate].
  destruct (status_code =? 200) eqn:E; [| discriminate].
  apply Z.eqb_eq in E as ->. by intros [= <- <-].
Qed.

Lemma preserved_run {W R : Type} {h : handler W} {m : M R} {s w o s1 w1 t1} :
  run_M h m s w = (o, s1, w1, t1) -> preserves_registry m -> s1 = s.
Proof. intros E Hm. specialize (Hm W h s w). by rewrite E in Hm. Qed.

Lemma emitted_run {W R : Type} {h : handler W} {m : M R} {P s w o s1 w1 t1} :
  run_M h m s w = (o, s1, w1, t1) -> emits P m -> forallb P t1 = true.
Proof. intros E Hm. specialize (Hm W h s w). by rewrite E in Hm. Qed.

(** A [spawn_tenant] that returns has started exactly one tenant and has
    recorded it under [pod_id]. *)
Lemma spawn_tenant_returned {W : Type} (h : handler W)
  pod_id username port env_vars s w r s' w' tr :
  run_M h (ProcessManager.spawn_tenant pod_id username port env_vars) s w
  = (Return r, s', w', tr) ->
  exists pid now,
    let network_volume :=
      default ("/workspace/" +:+ pod_id) (env_vars !! "NETWORK_VOLUME") in
    r = ProcessManager.started port pid network_volume /\
    s' = <[pod_id := ProcessInfo pid port username network_volume now env_vars]> s /\
    spawned tr = [pid] /\ signals tr = [].
Proof.
  unfold ProcessManager.spawn_tenant. intros H.
  apply bind_returned in H as (? & s1 & w1 & t1 & ? & H1 & H & ->).
  apply os_try_returned in H1 as (_ & -> & ->).
  apply bind_returned in H as (environ & s2 & w2 & t2 & ? & H1 & H & ->).
  apply os_returned in H1 as (_ & -> & ->).
  apply bind_returned in H as (? & s3 & w3 & t3 & ? & H1 & H & ->).
  pose proof (preserved_run H1 (setup_scripts_preserves _)) as ->.
  pose proof (emitted_run H1 (setup_scripts_housekeeping _)) as Hk.
  apply housekeeping_observed in Hk as (Hk1 & _ & Hk2 & _).
  apply bind_returned in H as (pid & s4 & w4 & t4 & ? & H1' & H & ->).
  apply os_try_returned in H1' as (_ & -> & ->).
  apply bind_returned in H as (now & s5 & w5 & t5 & ? & H1' & H & ->).
  apply os_returned in H1' as (_ & -> & ->).
  apply bind_returned in H as (? & s6 & w6 & t6 & ? & H1' & H & ->).
  rewrite run_M_get in H1'. injection H1' as <- <- <- <-.
  apply bind_returned in H as (? & s7 & w7 & t7 & ? & H1' & H & ->).
  rewrite run_M_set in H1'. injection H1' as _ <- <- <-.
  apply bind_returned in H as (? & s8 & w8 & t8 & ? & H2 & H & ->).
  pose proof (preserved_run H2 save_preserves) as ->.
  pose proof (emitted_run H2 save_housekeeping) as Hk.
  apply housekeeping_observed in Hk as (Hk3 & _ & Hk4 & _).
  apply bind_returned in H as (? & s9 & w9 & t9 & ? & H3 & H & ->).
  pose proof (preserved_run H3 (cloudwatch_preserves _ _)) as ->.
  pose proof (emitted_run H3 (cloudwatch_housekeeping _ _)) as Hk.
  apply housekeeping_observed in Hk as (Hk5 & _ & Hk6 & _).
  rewrite run_M_ret in H. injection H as <- <- <- <-.
  exists pid, now. cbn zeta. split; [done |]. split; [done |].
  unfold spawned, signals in *.
  rewrite !observe_app, Hk1, Hk2, Hk3, Hk4, Hk5, Hk6. by cbn.
Qed.

(** ** start_tenant *)

Lemma check_existing_healthy {W : Type} (h : handler W)
  procs pod_id info w w1 w2 trp :
  procs !! pod_id = Some info ->
  info_port info <> 0 ->
  h _ (pid_exists (info_pid info)) w = (true, w1) ->
  run h (ProcessManager._is_comfyui_healthy (info_port info) 5) w1
  = (true, w2, trp) ->
  run_M h (ProcessManager.check_existing pod_id) procs w
  = (Return (Some (ProcessManager.already_running (info_port info)
                     (info_pid info))),
     procs, w2, Ev (pid_exists (info_pid info)) true :: trp).
Proof.
  intros Hinfo Hport Hpid Hprobe. unfold ProcessManager.check_existing.
  rewrite run_M_bind, run_M_get. cbn [fst snd]. cbn zeta. rewrite Hinfo.
  rewrite run_M_bind, run_M_os, Hpid. cbn [fst snd]. cbn zeta.
  assert (truthy (info_port info) = true) as ->.
  { unfold truthy. by apply negb_true_iff, Z.eqb_neq. }
  cbn [andb]. rewrite run_M_bind, run_M_lift, Hprobe. cbn [fst snd]. cbn zeta.
  rewrite run_M_ret. cbn [fst snd app]. by rewrite app_nil_r.
Qed.

Lemma probe_spawns_nothing {W : Type} (h : handler W) port timeout w :
  forallb (fun e => negb (is_spawn e))
    (run h (ProcessManager._is_comfyui_healthy port timeout) w).2 = true.
Proof.
  cbn.
  destruct (h _ (connect_ex "localhost" port 2) w) as [[errno | e] w1];
    cbn; [| done].
  by destruct (errno =? 0).
Qed.

Lemma force_cleanup_spawns_nothing pod_id info :
  emits (fun e => negb (is_spawn e))
    (ProcessManager._force_cleanup_tenant pod_id info).
Proof.
  unfold ProcessManager._force_cleanup_tenant, ProcessManager.force_kill,
    ProcessManager.remove_from_tracking, ProcessManager.save_processes.
  auto 20 with registry.
Qed.

Lemma check_existing_spawns_nothing pod_id :
  emits (fun e => negb (is_spawn e)) (ProcessManager.check_existing pod_id).
Proof.
  unfold ProcessManager.check_existing.
  apply emits_bind; [auto with registry | intros procs].
  destruct (procs !! pod_id) as [info |]; [| auto with registry].
  apply emits_bind; [auto with registry | intros alive].
  apply emits_bind.
  - destruct (alive && truthy (info_port info)); [| auto with registry].
    intros W h s w. rewrite run_M_lift. apply probe_spawns_nothing.
  - intros []; [auto with registry |].
    apply emits_bind; [apply force_cleanup_spawns_nothing |].
    auto with registry.
Qed.

Lemma no_spawn_observed (tr : list event) :
  forallb (fun e => negb (is_spawn e)) tr = true -> spawned tr = [].
Proof.
  unfold spawned. induction tr as [| e tr IH]; [done |]. cbn.
  intros [He Htr]%andb_prop. rewrite (IH Htr).
  destruct e as [X c x]. by destruct c.
Qed.

(** [check_existing] returns early only with [already_running]. *)
Lemma check_existing_early {W : Type} (h : handler W)
  pod_id s w r s' w' tr :
  run_M h (ProcessManager.check_existing pod_id) s w
  = (Return (Some r), s', w', tr) ->
  exists port pid, r = ProcessManager.already_running port pid.
Proof.
  unfold ProcessManager.check_existing. intros H.
  apply bind_returned in H as (procs & ? & ? & ? & ? & H1 & H & ->).
  rewrite run_M_get in H1. injection H1 as <- <- <- <-.
  destruct (s !! pod_id) as [info |]; [| by rewrite run_M_ret in H].
  apply bind_returned in H as (alive & ? & ? & ? & ? & _ & H & ->).
  apply bind_returned in H as (is_healthy & ? & ? & ? & ? & _ & H & ->).
  destruct is_healthy.
  - rewrite run_M_ret in H. injection H as <- _ _ _. eauto.
  - apply bind_returned in H as (? & ? & ? & ? & ? & _ & H & ->).
    by rewrite run_M_ret in H.
Qed.

(** C1: starting a tenant that has a record, whose pid exists on the host
    and whose recorded port probes healthy, returns [already_running] with
    the recorded port and pid, makes no call but the liveness check and
    the probe (no process is spawned, no signal sent) and leaves the
    registry as it was.  So when a start that returned [started] is
    followed by a start of the same tenant while it is healthy, the first
    spawned one process and the second returns [already_running] and
    spawns none. *)
Theorem start_healthy_tenant_is_idempotent :
  (forall (W : Type) (h : handler W) (w w1 w2 : W) (trp : list event)
          (procs : gmap string process_info)
          (pod_id username : string) (port : Z)
          (env_vars : gmap string string) (info : process_info),
      procs !! pod_id = Some info ->
      info_port info <> 0 ->
      h _ (pid_exists (info_pid info)) w = (true, w1) ->
      run h (ProcessManager._is_comfyui_healthy (info_port info) 5) w1
      = (true, w2, trp) ->
      let tr := Ev (pid_exists (info_pid info)) true :: trp in
      run_M h (ProcessManager.start_tenant pod_id username port env_vars)
        procs w
      = (Return (ProcessManager.already_running (info_port info)
                   (info_pid info)), procs, w2, tr) /\
      spawned tr = [] /\ existsb is_spawn tr = false /\ signals tr = [])
  /\
  (forall (W : Type) (h : handler W) (w0 w w1 w2 : W)
          (tr0 trp : list event) (procs0 procs : gmap string process_info)
          (pod_id username network_volume : string) (port pid : Z)
          (env_vars : gmap string string),
      run_M h (ProcessManager.start_tenant pod_id username port env_vars)
        procs0 w0
      = (Return (ProcessManager.started port pid network_volume),
         procs, w, tr0) ->
      port <> 0 ->
      h _ (pid_exists pid) w = (true, w1) ->
      run h (ProcessManager._is_comfyui_healthy port 5) w1 = (true, w2, trp) ->
      spawned tr0 = [pid] /\
      exists tr,
        run_M h (ProcessManager.start_tenant pod_id username port env_vars)
          procs w
        = (Return (ProcessManager.already_running port pid), procs, w2, tr) /\
        spawned tr = []).
Proof.
  assert (Hfirst : forall (W : Type) (h : handler W) w w1 w2 trp procs
            pod_id username port env_vars info,
      procs !! pod_id = Some info ->
      info_port info <> 0 ->
      h _ (pid_exists (info_pid info)) w = (true, w1) ->
      run h (ProcessManager._is_comfyui_healthy (info_port info) 5) w1
      = (true, w2, trp) ->
      let tr := Ev (pid_exists (info_pid info)) true :: trp in
      run_M h (ProcessManager.start_tenant pod_id username port env_vars)
        procs w
      = (Return (ProcessManager.already_running (info_port info)
                   (info_pid info)), procs, w2, tr) /\
      spawned tr = [] /\ existsb is_spawn tr = false /\ signals tr = []).
  { intros W h w w1 w2 trp procs pod_id username port env_vars info
      Hinfo Hport Hpid Hprobe tr.
    split.
    - unfold ProcessManager.start_tenant.
      rewrite run_M_bind,
        (check_existing_healthy h _ _ _ _ _ _ _ Hinfo Hport Hpid Hprobe).
      cbn [fst snd]. cbn zeta. rewrite run_M_ret. cbn [fst snd].
      by rewrite app_nil_r.
    - subst tr. by rewrite (probe_healthy_trace h _ _ _ _ Hprobe). }
  split; [exact Hfirst |].
  intros W h w0 w w1 w2 tr0 trp procs0 procs pod_id username network_volume
    port pid env_vars Hstart Hport Hpid Hprobe.
  unfold ProcessManager.start_tenant in Hstart.
  apply bind_returned in Hstart as (early & s1 & w' & t1 & t2 & H1 & H & ->).
  destruct early as [r |].
  { apply check_existing_early in H1 as (? & ? & ->).
    by rewrite run_M_ret in H. }
  apply spawn_tenant_returned in H as (pid' & now & Hr & -> & Hsp & _).
  cbn zeta in Hr. injection Hr as <- _.
  set (info := ProcessInfo pid port username _ now env_vars).
  destruct (Hfirst W h w w1 w2 trp (<[pod_id := info]> s1) pod_id username
              port env_vars info) as (Hrun & Hnone & _);
    [apply lookup_insert_eq | done | done | done |].
  split; [| by eexists].
  pose proof (emitted_run H1 (check_existing_spawns_nothing _)) as Hno.
  apply no_spawn_observed in Hno.
  unfold spawned in *. by rewrite observe_app, Hsp, Hno.
Qed.

(** C1 on the host of [Examples]: tenant [t1] runs as pid 4242 and serves
    200 on port 8188; and a first start of [t1] from an empty registry,
    followed by a second one. *)
Lemma start_healthy_tenant_witness :
  run_M Host.step (ProcessManager.start_tenant "t1" "alice" 8188 ∅)
    Examples.registry (Examples.serving 200)
  = (Return (ProcessManager.already_running 8188 4242),
     Examples.registry, Examples.serving 200,
     [Ev (pid_exists 4242) true;
      Ev (connect_ex "localhost" 8188 2) (Ok 0);
      Ev (requests_get "http://localhost:8188" 5) (Ok 200)])
  /\
  exists procs w tr0 tr,
    run_M Host.step (ProcessManager.start_tenant "t1" "alice" 8188 ∅)
      ∅ (Examples.serving 200)
    = (Return (ProcessManager.started 8188 5000 "/workspace/t1"),
       procs, w, tr0) /\
    spawned tr0 = [5000] /\
    run_M Host.step (ProcessManager.start_tenant "t1" "alice" 8188 ∅) procs w
    = (Return (ProcessManager.already_running 8188 5000), procs, w, tr) /\
    spawned tr = [].
Proof.
  split.
  - apply (proj1 start_healthy_tenant_is_idempotent Host.t Host.step
             (Examples.serving 200) (Examples.serving 200)
             (Examples.serving 200)
             [Ev (connect_ex "localhost" 8188 2) (Ok 0);
              Ev (requests_get "http://localhost:8188" 5) (Ok 200)]
             Examples.registry "t1" "alice" 8188 ∅ Examples.alice);
      [reflexivity | discriminate | reflexivity | vm_compute; reflexivity].
  - pose (r := run_M Host.step
                 (ProcessManager.start_tenant "t1" "alice" 8188 ∅)
                 ∅ (Examples.serving 200)).
    assert (Hr : r = (Return (ProcessManager.started 8188 5000 "/workspace/t1"),
                      r.1.1.2, r.1.2, r.2)) by (vm_compute; reflexivity).
    destruct (proj2 start_healthy_tenant_is_idempotent Host.t Host.step
                (Examples.serving 200) r.1.2 r.1.2 r.1.2 r.2
                [Ev (connect_ex "localhost" 8188 2) (Ok 0);
                 Ev (requests_get "http://localhost:8188" 5) (Ok 200)]
                ∅ r.1.1.2 "t1" "alice" "/workspace/t1" 8188 5000 ∅)
      as (Hsp & tr & Hrun & Hno);
      [exact Hr | discriminate | vm_compute; reflexivity
      | vm_compute; reflexivity |].
    exists r.1.1.2, r.1.2, r.2, tr. by repeat split.
Defined.

(** ** The POST handlers *)

Lemma dict_lookup_removed (key : string) (l : list (string * json)) :
  dict_lookup key (filter (fun kv => kv.1 <> key) l) = None.
Proof.
  induction l as [| [k v] l IH]; [done |].
  rewrite filter_cons. cbn. case_decide as Hk; [| done].
  cbn. rewrite IH. by apply String.eqb_neq in Hk as ->.
Qed.

(** C10: a start request in which [POD_ID], [POD_USERNAME] or [PORT] is
    present but falsy (port 0, empty string, null, ...) is answered with
    [send_error 400], whatever the supervisor's start operation is: the
    handler makes no call at all and leaves the registry as it was.  The
    answer is the one given to the same request with that field taken
    out. *)
Theorem start_request_rejects_falsy_fields :
  forall (start_op : json -> json -> json -> json
                     -> M ProcessManager.start_result)
         (l : list (string * json)) (key : string)
         (procs : gmap string process_info),
    key ∈ ["POD_ID"; "POD_USERNAME"; "PORT"] ->
    json_truthy (default JNull (dict_lookup key l)) = false ->
    let rejected :=
      Ret (Return (send_error 400 "POD_ID, POD_USERNAME, and PORT required"),
           procs) in
    MetricsHandler.handle_start_request start_op (Some (JDict l)) procs
    = rejected /\
    MetricsHandler.handle_start_request start_op
      (Some (JDict (filter (fun kv => kv.1 <> key) l))) procs
    = rejected.
Proof.
  intros start_op l key procs Hkey Hfalsy rejected.
  assert (Hreject : forall l',
    json_truthy (default JNull (dict_lookup key l')) = false ->
    MetricsHandler.handle_start_request start_op (Some (JDict l')) procs
    = rejected).
  { intros l' Hl'. unfold MetricsHandler.handle_start_request.
    unfold_M.
    assert (json_truthy (default JNull (dict_lookup "POD_ID" l')) &&
            (json_truthy (default JNull (dict_lookup "POD_USERNAME" l')) &&
             (json_truthy (default JNull (dict_lookup "PORT" l')) && true))
            = false) as ->; [| done].
    repeat (apply elem_of_cons in Hkey as [-> | Hkey]);
      [| | | by apply elem_of_nil in Hkey]; rewrite Hl';
      by rewrite ?andb_false_r. }
  split; [by apply Hreject |].
  apply Hreject. by rewrite dict_lookup_removed.
Qed.

(** C10 on a request with [PORT] 0, in front of the process manager. *)
Lemma start_request_port_zero_witness :
  MetricsHandler.handle_start_request MetricsHandler.start_tenant_json
    (Some (JDict Requests.port_zero)) Examples.registry
  = Ret (Return (send_error 400 "POD_ID, POD_USERNAME, and PORT required"),
         Examples.registry).
Proof.
  apply (start_request_rejects_falsy_fields MetricsHandler.start_tenant_json
           Requests.port_zero "PORT" Examples.registry);
    [repeat constructor | reflexivity].
Defined.

(** C9, as stated, does not hold.  On a host whose shell runs the command
    as its child, the command [sleep 600; echo done] runs into the limit:
    the answer is the timeout response and the shell (pid 5000) is killed,
    but the command it started (pid 5001) is still running afterwards:
    nothing signals it.  And a command that ends within the limit, but
    whose output is not UTF-8, is answered with a bare 500, not with the
    result body. *)
Lemma execute_timeout_leaves_the_command_running :
  let r := run_M Shell.step
             (MetricsHandler.handle_execute_request
                (Some (JDict Shell.two_steps))) ∅ Shell.host in
  r.1.1.1 = Return (send_error 408 "Command timeout") /\
  Host.has_pid r.1.2 5000 = false /\
  Host.has_pid r.1.2 5001 = true /\
  (run_M Script.step
     (MetricsHandler.handle_execute_request (Some (JDict Requests.echo)))
     ∅ [Script.gives 5000; Script.fails UnicodeDecodeError]).1.1.1
  = Return (send_error 500 "UnicodeDecodeError").
Proof. vm_compute. by repeat split. Qed.

(** C9, amended: the execute operation starts the command through the
    shell and waits for the shell with a limit of 300 s.  When the wait
    returns the result, the answer is the body [{returncode, stdout,
    stderr, success}], with [success] true iff the return code is zero,
    and nothing but the start and the wait was asked of the host.  When
    the wait raises, the shell that was started is killed and waited for
    before the answer is sent, and nothing else is: no other process is
    signalled.  The answer is then [send_error 408] when the limit
    expired, which is not of the shape of the result, and [send_error 500]
    for every other exception.  A command that [Popen] does not take, or a
    start that fails, is answered in the same way, nothing having been
    started.  The registry is never touched. *)
Theorem execute_request_completes_or_times_out :
  forall (W : Type) (h : handler W) (w : W)
         (procs : gmap string process_info)
         (l : list (string * json)) (command : json),
    dict_lookup "command" l = Some command ->
    json_truthy command = true ->
    let r := run_M h (MetricsHandler.handle_execute_request (Some (JDict l)))
               procs w in
    let failed (e : exn) :=
      match e with
      | TimeoutExpired => send_error 408 "Command timeout"
      | _ => send_error 500 (str_exn e)
      end in
    match MetricsHandler.shell_args command with
    | None => r = (Return (failed TypeError), procs, w, [])
    | Some args =>
        let started := h _ (Popen args true None false) w in
        match started.1 with
        | Err e =>
            r = (Return (failed e), procs, started.2,
                 [Ev (Popen args true None false) (Err e)])
        | Ok child =>
            let finished := h _ (communicate child (Some 300)) started.2 in
            match finished.1 with
            | Ok result =>
                let success := returncode result =? 0 in
                r = (Return (send_json (if success then 200 else 500)
                               (execute_body (returncode result)
                                  (stdout result) (stderr result) success)),
                     procs, finished.2,
                     [Ev (Popen args true None false) (Ok child);
                      Ev (communicate child (Some 300)) (Ok result)])
            | Err e =>
                let killed := h _ (kill child) finished.2 in
                let waited := h _ (wait child) killed.2 in
                r = (Return (failed e), procs, waited.2,
                     [Ev (Popen args true None false) (Ok child);
                      Ev (communicate child (Some 300)) (Err e);
                      Ev (kill child) killed.1;
                      Ev (wait child) waited.1])
            end
        end
    end.
Proof.
  intros W h w procs l command Hcmd Htruthy. cbn zeta.
  unfold MetricsHandler.handle_execute_request, ProcessManager.subprocess_run.
  unfold_M. rewrite Hcmd. cbn. rewrite Htruthy.
  destruct (MetricsHandler.shell_args command) as [args |]; cbn; [| done].
  destruct (h _ (Popen args true None false) w) as [[child | e] w1]; cbn.
  2:{ by destruct e. }
  destruct (h _ (communicate child (Some 300)) w1) as [[result | e] w2]; cbn.
  { done. }
  destruct (h _ (kill child) w2) as [[] w3]. cbn.
  destruct (h _ (wait child) w3) as [[] w4].
  by destruct e.
Qed.

(** C9 on the host of [Requests]: [echo hi] ends after a second,
    [sleep 600] runs into the limit and the shell is killed. *)
Lemma execute_request_witness :
  (exists w' tr,
      run_M Host.step
        (MetricsHandler.handle_execute_request (Some (JDict Requests.echo)))
        ∅ Requests.shell_host
      = (Return (send_json 200 (execute_body 0 "hi" "" true)), ∅, w', tr)) /\
  (exists w',
      run_M Host.step
        (MetricsHandler.handle_execute_request (Some (JDict Requests.sleeper)))
        ∅ Requests.shell_host
      = (Return (send_error 408 "Command timeout"), ∅, w',
         [Ev (Popen ["sleep 600"] true None false) (Ok 5000);
          Ev (communicate 5000 (Some 300)) (Err TimeoutExpired);
          Ev (kill 5000) tt; Ev (wait 5000) tt]) /\
      Host.has_pid w' 5000 = false).
Proof.
  split.
  - pose proof (execute_request_completes_or_times_out Host.t Host.step
                  Requests.shell_host ∅ Requests.echo (JStr "echo hi")
                  eq_refl eq_refl) as H.
    do 2 eexists. exact H.
  - pose proof (execute_request_completes_or_times_out Host.t Host.step
                  Requests.shell_host ∅ Requests.sleeper (JStr "sleep 600")
                  eq_refl eq_refl) as H.
    eexists. split; [exact H | reflexivity].
Defined.

(** ** The registry file *)

(** C3, as stated, does not hold: [save_processes] opens the registry file
    itself for writing, which truncates it, and only then writes.  When the
    supervisor dies between the two, the file holds neither the record set
    that was durable before nor the new one, and the next supervisor starts
    from an empty registry. *)
Lemma save_crash_loses_durable_records :
  let after :=
    crash_after Host.step 1
      (ProcessManager.save_processes Crash.registry') Crash.host in
  Host.registry_file Crash.host = Host.Document Examples.registry /\
  Host.registry_file after <> Host.Document Examples.registry /\
  Host.registry_file after <> Host.Document Crash.registry' /\
  (run_M Host.step ProcessManager.__init__ ∅ after).1.1.2 = ∅.
Proof. vm_compute. repeat split; discriminate. Qed.

(** C3, amended: [save_processes] writes the full record set to the
    registry file in place; it always returns normally and leaves the
    registry in memory as it was.  When the file cannot be opened for
    writing, the error is swallowed and the file keeps its content.
    Otherwise the opening truncates the file: a save whose write goes
    through leaves the complete new record set in the file, and a save
    whose write fails (the error is swallowed as well) leaves a torn file.
    A crash before the file is opened leaves the old content; a crash
    between the opening and the end of the write leaves a torn file.  From
    a torn file the next supervisor starts with an empty registry. *)
Theorem save_writes_registry_in_place :
  forall (w : Disk.t) (procs : gmap string process_info) (n : nat),
    let old := Host.registry_file (Disk.host w) in
    let written :=
      match Disk.write_error w with
      | None => Host.Document procs
      | Some _ => Host.Torn
      end in
    let after_crash :=
      crash_after Disk.step n (ProcessManager.save_processes procs) w in
    let done := run_M Disk.step ProcessManager.save_processes procs w in
    Host.registry_file (Disk.host after_crash)
    = (if Host.read_only (Disk.host w) then old
       else match n with
            | O => old
            | 1%nat => Host.Torn
            | _ => written
            end) /\
    done.1.1.1 = Return tt /\
    done.1.1.2 = procs /\
    Host.registry_file (Disk.host done.1.2)
    = (if Host.read_only (Disk.host w) then old else written) /\
    (forall (torn : Disk.t) (s : gmap string process_info),
        Host.registry_file (Disk.host torn) = Host.Torn ->
        (run_M Disk.step ProcessManager.__init__ s torn).1.1.2 = ∅).
Proof.
  intros [w e] procs n. cbn zeta. cbn [Disk.host Disk.write_error].
  split; [| split; [| split; [| split]]].
  - unfold ProcessManager.save_processes. unfold_M.
    destruct (Host.read_only w) eqn:Hro.
    + destruct n as [| [| n]]; cbn; rewrite ?Hro; cbn; done.
    + destruct e as [e |].
      * destruct n as [| [| [| n]]]; cbn; rewrite ?Hro; cbn; done.
      * destruct n as [| [| [| n]]]; cbn; rewrite ?Hro; cbn; done.
  - unfold ProcessManager.save_processes. unfold_M.
    destruct (Host.read_only w) eqn:Hro, e; cbn; rewrite ?Hro; cbn; done.
  - unfold ProcessManager.save_processes. unfold_M.
    destruct (Host.read_only w) eqn:Hro, e; cbn; rewrite ?Hro; cbn; done.
  - unfold ProcessManager.save_processes. unfold_M.
    destruct (Host.read_only w) eqn:Hro, e; cbn; rewrite ?Hro; cbn; done.
  - intros [torn e'] s Htorn. cbn [Disk.host] in Htorn.
    unfold ProcessManager.__init__, ProcessManager.load_processes.
    unfold_M. rewrite Htorn. cbn. rewrite ?Htorn. done.
Qed.

(** ** Reconciliation *)

Lemma lookup_foldl_delete (ks : list string) (m : gmap string process_info)
  (k : string) :
  foldl (fun d pod_id => delete pod_id d) m ks !! k
  = if decide (k ∈ ks) then None else m !! k.
Proof.
  revert m. induction ks as [| k' ks IH]; intros m; cbn.
  - case_decide as H; [by apply elem_of_nil in H | done].
  - rewrite IH.
    destruct (decide (k ∈ ks)) as [Hin | Hnin];
      destruct (decide (k ∈ k' :: ks)) as [Hin' | Hnin']; try done.
    + exfalso. apply Hnin'. by apply list_elem_of_further.
    + apply elem_of_cons in Hin' as [-> | ?]; [| done].
      apply lookup_delete_eq.
    + apply lookup_delete_ne. intros ->. apply Hnin', list_elem_of_here.
Qed.

(** The sweep on the concrete host: it asks about every real pid, the host
    does not change, and the ids collected are those of the records that
    are [gone]. *)
Lemma collect_dead_on_host (w : Host.t) (items : list (string * process_info)) :
  (run Host.step (ProcessManager.collect_dead items) w).1
  = ((List.filter (fun kv => Host.gone w kv.2) items).*1, w).
Proof.
  induction items as [| [k info] items IH]; [done |].
  cbn [ProcessManager.collect_dead List.filter]. unfold Host.gone at 1.
  cbn [snd]. destruct (truthy (info_pid info)); cbn [andb]; [| exact IH].
  cbn [run]. cbn [Host.step fst snd]. rewrite run_bind. cbn zeta.
  destruct (run Host.step (ProcessManager.collect_dead items) w)
    as [[dead w'] tr]. cbn [fst snd] in *. injection IH as -> ->.
  by destruct (Host.has_pid w (info_pid info)).
Qed.

Lemma swept_registry (w : Host.t) (procs : gmap string process_info) :
  foldl (fun d pod_id => delete pod_id d) procs
    (List.filter (fun kv => Host.gone w kv.2) (map_to_list procs)).*1
  = filter (fun kv => Host.gone w kv.2 = false) procs.
Proof.
  apply map_eq. intros k. rewrite lookup_foldl_delete, map_lookup_filter.
  case_decide as Hin.
  - apply list_elem_of_fmap in Hin as ([k' info] & -> & Hin).
    apply list_elem_of_In, filter_In in Hin as [Hin Hgone].
    apply list_elem_of_In, elem_of_map_to_list in Hin. cbn in *.
    rewrite Hin. cbn. by rewrite Hgone, option_guard_False.
  - destruct (procs !! k) as [info |] eqn:Hk; [| done]. cbn.
    destruct (Host.gone w info) eqn:Hgone.
    + exfalso. apply Hin. apply list_elem_of_fmap. exists (k, info).
      split; [done |]. apply list_elem_of_In, filter_In.
      split; [| done]. by apply list_elem_of_In, elem_of_map_to_list.
    + by rewrite option_guard_True.
Qed.

(** The sweep on the concrete host keeps exactly the records that are not
    [gone]. *)
Lemma cleanup_on_host (w : Host.t) (procs : gmap string process_info) :
  let r := run_M Host.step ProcessManager._cleanup_dead_processes procs w in
  r.1.1.1 = Return tt /\
  r.1.1.2 = filter (fun kv => Host.gone w kv.2 = false) procs.
Proof.
  cbn zeta. unfold ProcessManager._cleanup_dead_processes.
  rewrite run_M_bind, run_M_get. cbn [fst snd]. cbn zeta.
  rewrite run_M_bind, run_M_lift. cbn [fst snd]. cbn zeta.
  pose proof (collect_dead_on_host w (map_to_list procs)) as Hdead.
  destruct (run Host.step (ProcessManager.collect_dead (map_to_list procs)) w)
    as [[dead w'] tr]. cbn [fst snd] in *. injection Hdead as -> ->.
  rewrite run_M_bind, run_M_set. cbn [fst snd]. cbn zeta.
  rewrite swept_registry.
  destruct ((List.filter (fun kv => Host.gone w kv.2) (map_to_list procs)).*1).
  - by rewrite run_M_ret.
  - destruct (save_returns Host.step
                (filter (fun kv => Host.gone w kv.2 = false) procs) w)
      as (w2 & tr2 & -> & _). done.
Qed.

(** C8: on a host whose registry file can be written, the records saved and
    then loaded by a fresh supervisor are the saved records themselves,
    field for field, without those whose pid (a real one, not 0) is no
    longer on the host. *)
Theorem registry_round_trip :
  forall (w : Host.t) (procs : gmap string process_info),
    Host.read_only w = false ->
    let saved := (run_M Host.step ProcessManager.save_processes procs w).1.2 in
    let loaded := run_M Host.step ProcessManager.__init__ ∅ saved in
    Host.registry_file saved = Host.Document procs /\
    loaded.1.1.1 = Return tt /\
    loaded.1.1.2 = filter (fun kv => Host.gone w kv.2 = false) procs /\
    (forall pod_id info,
        loaded.1.1.2 !! pod_id = Some info -> procs !! pod_id = Some info).
Proof.
  intros w procs Hro. cbn zeta.
  assert (Hsaved : (run_M Host.step ProcessManager.save_processes procs w).1.2
                   = Host.with_file (Host.with_file w Host.Torn)
                       (Host.Document procs)).
  { unfold ProcessManager.save_processes. unfold_M. rewrite Hro. cbn.
    done. }
  rewrite Hsaved. clear Hsaved.
  set (saved := Host.with_file _ _).
  assert (Hload : let r := run_M Host.step ProcessManager.__init__ ∅ saved in
            r.1.1.1 = Return tt /\
            r.1.1.2 = filter (fun kv => Host.gone w kv.2 = false) procs).
  { cbn zeta. unfold ProcessManager.__init__, ProcessManager.load_processes.
    rewrite run_M_bind, run_M_set. cbn [fst snd]. cbn zeta.
    rewrite run_M_try, run_M_bind, run_M_os. cbn [fst snd]. cbn zeta.
    change (Host.step bool (path_exists ProcessManager.processes_file) saved)
      with (true, saved). cbn [fst snd].
    rewrite run_M_bind, run_M_os_try.
    change (Host.step _ (json_load ProcessManager.processes_file) saved)
      with (Ok procs, saved). cbn [fst snd]. cbn zeta.
    rewrite run_M_bind, run_M_set. cbn [fst snd]. cbn zeta.
    destruct (cleanup_on_host saved procs) as [Ho Hs].
    destruct (run_M Host.step ProcessManager._cleanup_dead_processes procs
                saved) as [[[o s1] w1] t1]. cbn [fst snd] in *.
    subst o s1. cbn [fst snd]. done. }
  destruct Hload as [Ho Hs]. repeat split; [done | done |].
  intros pod_id info. rewrite Hs. apply map_lookup_filter_Some_1_1.
Qed.

(** C8 on the host of [Examples]: the record of [t1] comes back as it was
    saved, the record of [t3], whose pid 9999 is gone, is pruned. *)
Lemma registry_round_trip_witness :
  (run_M Host.step ProcessManager.__init__ ∅
     (run_M Host.step ProcessManager.save_processes
        Examples.registry_with_stale (Examples.serving 200)).1.2).1.1.2
  = Examples.registry.
Proof.
  destruct (registry_round_trip (Examples.serving 200)
              Examples.registry_with_stale eq_refl) as (_ & _ & Hloaded & _).
  rewrite Hloaded. vm_compute. reflexivity.
Defined.

(** ** stop_tenant *)

(** The polling loop: at most [n] naps of one second, no signal. *)
Lemma wait_for_exit_run {W : Type} (h : handler W) (n : nat) pid s w :
  exists w' tr (k : nat),
    run_M h (ProcessManager.wait_for_exit n pid) s w = (Return tt, s, w', tr) /\
    (k <= n)%nat /\ naps tr = repeat 1 k /\ signals tr = [] /\
    spawned tr = [] /\ lookup_errors_only tr = true.
Proof.
  revert w. induction n as [| n IH]; intros w.
  - exists w, [], O. cbn [ProcessManager.wait_for_exit].
    by rewrite run_M_ret.
  - cbn [ProcessManager.wait_for_exit].
    rewrite run_M_bind, run_M_os. cbn [fst snd]. cbn zeta.
    destruct (h _ (pid_exists pid) w) as [[] w1]; cbn [fst snd].
    + rewrite run_M_bind, run_M_os. cbn [fst snd]. cbn zeta.
      destruct (h _ (sleep 1) w1) as [[] w2]; cbn [fst snd].
      destruct (IH w2) as (w' & tr & k & -> & Hk & Hn & Hs & Hp & Hl).
      cbn [fst snd]. exists w', ([Ev (pid_exists pid) true] ++
                                  [Ev (sleep 1) ()] ++ tr), (S k).
      split; [done |]. split; [lia |].
      unfold naps, signals, spawned, lookup_errors_only in *. cbn.
      by rewrite Hn, Hs, Hp, Hl.
    + rewrite run_M_ret. cbn [fst snd].
      exists w1, ([Ev (pid_exists pid) false] ++ []), O.
      repeat split; [lia].
Qed.

Lemma lookup_errors_only_app (t1 t2 : list event) :
  lookup_errors_only (t1 ++ t2)
  = lookup_errors_only t1 && lookup_errors_only t2.
Proof. apply forallb_app. Qed.

(** Rewriting of the observations of a trace built by concatenation. *)
Ltac observe_simpl :=
  unfold naps, signals, spawned in *;
  repeat progress
    (rewrite ?lookup_errors_only_app, ?observe_app, ?app_nil_r; cbn).

(** The signalling of [stop_tenant] on every host: the registry is not
    touched; SIGTERM comes first and SIGKILL, if at all, second; there are
    at most 30 naps of one second, and a nap of two seconds only after
    SIGKILL.  It ends normally or with [ProcessLookupError] unless a
    signalling step failed in another way, and then with that error. *)
Lemma graceful_shutdown_run {W : Type} (h : handler W) pid s w :
  exists o w' tr (k : nat),
    run_M h (ProcessManager.graceful_shutdown pid) s w = (o, s, w', tr) /\
    (k <= 30)%nat /\
    (naps tr = repeat 1 k \/ naps tr = repeat 1 k ++ [2]) /\
    (signals tr).*2 `prefix_of` [SIGTERM; SIGKILL] /\
    spawned tr = [] /\
    (if lookup_errors_only tr
     then o = Return tt \/ o = Raise ProcessLookupError
     else exists e, o = Raise e /\ is_ProcessLookupError e = false).
Proof.
  unfold ProcessManager.graceful_shutdown.
  rewrite run_M_bind, run_M_os_try. cbn [fst snd]. cbn zeta.
  destruct (h _ (getpgid pid) w) as [[pgid | e] w1]; cbn [fst snd].
  2:{ exists (Raise e), w1, [Ev (getpgid pid) (Err e)], O.
      split; [done |]. split; [lia |]. split; [by left |].
      split; [by exists [SIGTERM; SIGKILL] |]. split; [done |].
      cbn. destruct e; cbn; eauto. }
  rewrite run_M_bind, run_M_os_try. cbn [fst snd]. cbn zeta.
  destruct (h _ (killpg pgid SIGTERM) w1) as [[[] | e] w2]; cbn [fst snd].
  2:{ exists (Raise e), w2,
        ([Ev (getpgid pid) (Ok pgid)] ++ [Ev (killpg pgid SIGTERM) (Err e)]), O.
      split; [done |]. split; [lia |]. split; [by left |].
      split; [by exists [SIGKILL] |]. split; [done |].
      cbn. destruct e; cbn; eauto. }
  rewrite run_M_bind.
  destruct (wait_for_exit_run h 30 pid s w2)
    as (w3 & trw & k & -> & Hk & Hn & Hs & Hp & Hl).
  cbn [fst snd]. cbn zeta.
  rewrite run_M_bind, run_M_os. cbn [fst snd]. cbn zeta.
  destruct (h _ (pid_exists pid) w3) as [[] w4]; cbn [fst snd].
  2:{ rewrite run_M_ret. cbn [fst snd].
      eexists (Return tt), w4, _, k. split; [done |]. split; [done |].
      observe_simpl. rewrite Hn, Hs, Hp, Hl. cbn. rewrite ?app_nil_r.
      split; [by left |]. split; [by exists [SIGKILL] |]. eauto. }
  rewrite run_M_bind, run_M_os_try. cbn [fst snd]. cbn zeta.
  destruct (h _ (getpgid pid) w4) as [[pgid' | e] w5]; cbn [fst snd].
  2:{ eexists (Raise e), w5, _, k. split; [done |]. split; [done |].
      observe_simpl. rewrite Hn, Hs, Hp, Hl. cbn. rewrite ?app_nil_r.
      split; [by left |]. split; [by exists [SIGKILL] |]. split; [done |].
      destruct e; cbn; eauto. }
  rewrite run_M_bind, run_M_os_try. cbn [fst snd]. cbn zeta.
  destruct (h _ (killpg pgid' SIGKILL) w5) as [[[] | e] w6]; cbn [fst snd].
  2:{ eexists (Raise e), w6, _, k. split; [done |]. split; [done |].
      observe_simpl. rewrite Hn, Hs, Hp, Hl. cbn. rewrite ?app_nil_r.
      split; [by left |]. split; [by exists [] |]. split; [done |].
      destruct e; cbn; eauto. }
  rewrite run_M_os. destruct (h _ (sleep 2) w6) as [[] w7]. cbn [fst snd].
  eexists (Return tt), w7, _, k. split; [done |]. split; [done |].
  observe_simpl. rewrite Hn, Hs, Hp, Hl. cbn.
  split; [by right |]. split; [by exists [] |]. eauto.
Qed.

(** [stop_tenant] on a record whose pid the host reports present. *)
Lemma stop_live_run {W : Type} (h : handler W) procs pod_id info w w1 :
  procs !! pod_id = Some info ->
  info_pid info <> 0 ->
  h _ (pid_exists (info_pid info)) w = (true, w1) ->
  exists o procs' w' tr (k : nat),
    run_M h (ProcessManager.stop_tenant pod_id) procs w = (o, procs', w', tr) /\
    (k <= 30)%nat /\
    (naps tr = repeat 1 k \/ naps tr = repeat 1 k ++ [2]) /\
    (signals tr).*2 `prefix_of` [SIGTERM; SIGKILL] /\
    spawned tr = [] /\
    (if lookup_errors_only tr
     then o = Return ProcessManager.stopped /\ procs' = delete pod_id procs
     else exists e, o = Raise e /\ is_ProcessLookupError e = false /\
                    procs' = procs).
Proof.
  intros Hinfo Hpid Halive. unfold ProcessManager.stop_tenant.
  rewrite run_M_bind, run_M_get. cbn [fst snd]. cbn zeta. rewrite Hinfo.
  assert (truthy (info_pid info) = true) as ->.
  { unfold truthy. by apply negb_true_iff, Z.eqb_neq. }
  rewrite run_M_bind, run_M_os, Halive. cbn [fst snd negb]. cbn zeta.
  rewrite run_M_bind, run_M_try.
  destruct (graceful_shutdown_run h (info_pid info) procs w1)
    as (o & w2 & trg & k & -> & Hk & Hn & Hs & Hp & Ho).
  cbn [fst snd]. cbn zeta.
  destruct (save_returns h (delete pod_id procs) w2)
    as (w3 & trs & Hsave & Hs1 & Hs2 & Hs3 & Hs4).
  assert (Hstopped :
    run_M h
      (ProcessManager.clean_up pod_id) procs w2
    = (Return ProcessManager.stopped, delete pod_id procs, w3, trs)).
  { unfold ProcessManager.clean_up.
    rewrite run_M_bind, run_M_get. cbn [fst snd]. cbn zeta.
    rewrite run_M_bind, run_M_set. cbn [fst snd]. cbn zeta.
    rewrite run_M_bind, Hsave. cbn [fst snd]. cbn zeta.
    rewrite run_M_ret. cbn [fst snd]. by rewrite app_nil_r. }
  destruct (lookup_errors_only trg) eqn:Hl.
  - exists (Return ProcessManager.stopped), (delete pod_id procs), w3.
    destruct Ho as [-> | ->]; cbn [fst snd is_ProcessLookupError].
    + fold (ProcessManager.clean_up pod_id).
      rewrite Hstopped. cbn [fst snd].
      eexists _, k. split; [done |]. split; [done |].
      observe_simpl. rewrite Hl, Hs1, Hs2, Hs3, Hs4, ?app_nil_r. by cbn.
    + rewrite run_M_ret. cbn [fst snd].
      fold (ProcessManager.clean_up pod_id).
      rewrite Hstopped. cbn [fst snd].
      eexists _, k. split; [done |]. split; [done |].
      observe_simpl. rewrite Hl, Hs1, Hs2, Hs3, Hs4, ?app_nil_r. by cbn.
  - destruct Ho as (e & -> & He). cbn [fst snd]. rewrite He. cbn [fst snd].
    exists (Raise e), procs, w2. eexists _, k.
    split; [done |]. split; [done |].
    observe_simpl. rewrite Hl. cbn. eauto 10.
Qed.








(** C7, as stated, does not hold: SIGTERM is delivered, the pid is still
    reported after the 30 polls, and the SIGKILL step fails with
    [PermissionError].  Only [ProcessLookupError] is swallowed: the error
    leaves [stop_tenant] and the record is still in the registry. *)
Lemma stop_keeps_record_when_sigkill_refused :
  let r := run_M Script.step (ProcessManager.stop_tenant "t1")
             Examples.registry Script.sigkill_refused in
  signals r.2 = [(4242, SIGTERM); (4242, SIGKILL)] /\
  r.1.1.1 = Raise PermissionError /\
  r.1.1.2 !! "t1" = Some Examples.alice.
Proof. vm_compute. by repeat split. Qed.

(** C7, amended: on a record whose pid is alive, once signalling has begun
    the record is removed and [stopped] is returned whenever the
    signalling steps succeed or fail with [ProcessLookupError], whatever
    the host reports about the pid afterwards (the kill may be
    unconfirmed).  When a signalling step fails with another error, that
    error leaves [stop_tenant] and the registry is as it was.  So
    [stop_tenant] never returns and leaves the record behind. *)
Theorem stop_removes_record_unless_signalling_is_refused :
  forall (W : Type) (h : handler W) (w w1 : W)
         (procs : gmap string process_info) (pod_id : string)
         (info : process_info),
    procs !! pod_id = Some info ->
    info_pid info <> 0 ->
    h _ (pid_exists (info_pid info)) w = (true, w1) ->
    let r := run_M h (ProcessManager.stop_tenant pod_id) procs w in
    (if lookup_errors_only r.2
     then r.1.1.1 = Return ProcessManager.stopped /\
          r.1.1.2 = delete pod_id procs
     else exists e, r.1.1.1 = Raise e /\ is_ProcessLookupError e = false /\
                    r.1.1.2 = procs) /\
    (forall res, r.1.1.1 = Return res -> r.1.1.2 !! pod_id = None).
Proof.
  intros W h w w1 procs pod_id info Hinfo Hpid Halive r.
  destruct (stop_live_run h procs pod_id info w w1 Hinfo Hpid Halive)
    as (o & s1 & w2 & tr & k & Hrun & _ & _ & _ & _ & Ho).
  subst r. rewrite Hrun. cbn [fst snd]. split; [exact Ho |].
  intros res ->. destruct (lookup_errors_only tr).
  - destruct Ho as [_ ->]. apply lookup_delete_eq.
  - by destruct Ho as (e & ? & _).
Qed.

(** C7 on the scripted hosts: the pid vanishes between the check and the
    lookup of its group, and the pid is still reported after SIGKILL; in
    both cases the record is removed and [stopped] is returned. *)
Lemma stop_removes_record_witness :
  (let r := run_M Script.step (ProcessManager.stop_tenant "t1")
              Examples.registry Script.vanishes in
   r.1.1.1 = Return ProcessManager.stopped /\ r.1.1.2 = ∅ /\
   signals r.2 = []) /\
  (let r := run_M Script.step (ProcessManager.stop_tenant "t1")
              Examples.registry Script.unkillable in
   r.1.1.1 = Return ProcessManager.stopped /\ r.1.1.2 = ∅ /\
   signals r.2 = [(4242, SIGTERM); (4242, SIGKILL)] /\
   length (filter (fun a => a = true) (pid_answers 4242 r.2)) = 32%nat).
Proof.
  split.
  - intros r.
    destruct (stop_removes_record_unless_signalling_is_refused
                (list Script.answer) Script.step Script.vanishes
                [Script.fails ProcessLookupError] Examples.registry "t1"
                Examples.alice eq_refl) as [H _];
      [discriminate | reflexivity |].
    change (lookup_errors_only
              (run_M Script.step (ProcessManager.stop_tenant "t1")
                 Examples.registry Script.vanishes).2) with true in H.
    destruct H as [Ho Hs]. split; [exact Ho |]. split; [exact Hs |].
    vm_compute. reflexivity.
  - intros r.
    destruct (stop_removes_record_unless_signalling_is_refused
                (list Script.answer) Script.step Script.unkillable
                (tail Script.unkillable) Examples.registry "t1"
                Examples.alice eq_refl) as [H _];
      [discriminate | reflexivity |].
    change (lookup_errors_only
              (run_M Script.step (ProcessManager.stop_tenant "t1")
                 Examples.registry Script.unkillable).2) with true in H.
    destruct H as [Ho Hs]. split; [exact Ho |]. split; [exact Hs |].
    split; vm_compute; reflexivity.
Defined.

(** ** Forced cleanup *)

(** The signalling of [_force_cleanup_tenant] on every host. *)
Lemma force_kill_run {W : Type} (h : handler W) pid s w :
  exists o w' tr,
    run_M h (ProcessManager.force_kill pid) s w = (o, s, w', tr) /\
    naps tr `prefix_of` [2; 1] /\
    (signals tr).*2 `prefix_of` [SIGTERM; SIGKILL] /\
    spawned tr = [] /\
    (forall g w1, h _ (getpgid pid) w = (Ok g, w1) ->
                  head (signals tr) = Some (g, SIGTERM)) /\
    (if lookup_errors_only tr
     then o = Return tt \/ o = Raise ProcessLookupError
     else exists e, o = Raise e /\ is_ProcessLookupError e = false).
Proof.
  unfold ProcessManager.force_kill.
  rewrite run_M_bind, run_M_os_try. cbn [fst snd]. cbn zeta.
  destruct (h _ (getpgid pid) w) as [[pgid | e] w1]; cbn [fst snd].
  2:{ exists (Raise e), w1, [Ev (getpgid pid) (Err e)].
      split; [done |]. split; [by exists [2; 1] |].
      split; [by exists [SIGTERM; SIGKILL] |]. split; [done |].
      split; [discriminate |]. cbn. destruct e; cbn; eauto. }
  rewrite run_M_bind, run_M_os_try. cbn [fst snd]. cbn zeta.
  destruct (h _ (killpg pgid SIGTERM) w1) as [[[] | e] w2]; cbn [fst snd].
  2:{ eexists (Raise e), w2, _. split; [done |]. observe_simpl.
      split; [by exists [2; 1] |]. split; [by exists [SIGKILL] |].
      split; [done |]. split; [by intros ? ? [= <- _] |].
      destruct e; cbn; eauto. }
  rewrite run_M_bind, run_M_os. cbn [fst snd]. cbn zeta.
  destruct (h _ (sleep 2) w2) as [[] w3]; cbn [fst snd].
  rewrite run_M_bind, run_M_os. cbn [fst snd]. cbn zeta.
  destruct (h _ (pid_exists pid) w3) as [[] w4]; cbn [fst snd].
  2:{ rewrite run_M_ret. cbn [fst snd].
      eexists (Return tt), w4, _. split; [done |]. observe_simpl.
      split; [by exists [1] |]. split; [by exists [SIGKILL] |].
      split; [done |]. split; [by intros ? ? [= <- _] |]. eauto. }
  rewrite run_M_bind, run_M_os_try. cbn [fst snd]. cbn zeta.
  destruct (h _ (getpgid pid) w4) as [[pgid' | e] w5]; cbn [fst snd].
  2:{ eexists (Raise e), w5, _. split; [done |]. observe_simpl.
      split; [by exists [1] |]. split; [by exists [SIGKILL] |].
      split; [done |]. split; [by intros ? ? [= <- _] |].
      destruct e; cbn; eauto. }
  rewrite run_M_bind, run_M_os_try. cbn [fst snd]. cbn zeta.
  destruct (h _ (killpg pgid' SIGKILL) w5) as [[[] | e] w6]; cbn [fst snd].
  2:{ eexists (Raise e), w6, _. split; [done |]. observe_simpl.
      split; [by exists [1] |]. split; [by exists [] |].
      split; [done |]. split; [by intros ? ? [= <- _] |].
      destruct e; cbn; eauto. }
  rewrite run_M_os. destruct (h _ (sleep 1) w6) as [[] w7]. cbn [fst snd].
  eexists (Return tt), w7, _. split; [done |]. observe_simpl.
  split; [by exists [] |]. split; [by exists [] |].
  split; [done |]. split; [by intros ? ? [= <- _] |]. eauto.
Qed.


(** * Further properties of the code *)

(** ** The sweep of dead processes, on every host *)

Lemma pid_checks_observed (tr : list event) :
  forallb is_pid_check tr = true ->
  signals tr = [] /\ naps tr = [] /\ spawned tr = [] /\ dumps tr = [] /\
  lookup_errors_only tr = true.
Proof.
  unfold signals, naps, spawned, dumps, lookup_errors_only.
  induction tr as [| e tr IH]; [done |]. cbn [forallb observe].
  intros [He Htr]%andb_prop. destruct (IH Htr) as (-> & -> & -> & -> & ->).
  destruct e as [X c x]. by destruct c.
Qed.

(** What the first loop of the sweep collects: an id is collected only for
    a record with a real pid about which the host answered [False], and it
    is collected when the host never answered [True] about that pid.  The
    loop asks about pids and does nothing else. *)
Lemma collect_dead_run {W : Type} (h : handler W)
  (items : list (string * process_info)) (w : W) :
  let r := run h (ProcessManager.collect_dead items) w in
  (forall k, k ∈ r.1.1 ->
     exists info, (k, info) ∈ items /\ info_pid info <> 0 /\
                  false ∈ pid_answers (info_pid info) r.2) /\
  (forall k info, (k, info) ∈ items -> info_pid info <> 0 ->
     true ∉ pid_answers (info_pid info) r.2 -> k ∈ r.1.1) /\
  forallb is_pid_check r.2 = true.
Proof.
  revert w. induction items as [| [k0 info0] items IH]; intros w; cbn zeta.
  - cbn. split; [intros k Hk; by apply elem_of_nil in Hk |].
    split; [intros k info Hk; by apply elem_of_nil in Hk | done].
  - cbn [ProcessManager.collect_dead].
    destruct (truthy (info_pid info0)) eqn:Hpid.
    + cbn [run]. rewrite run_bind. cbn zeta.
      destruct (h _ (pid_exists (info_pid info0)) w) as [b w1]. cbn [fst snd].
      specialize (IH w1). cbn zeta in IH.
      destruct (run h (ProcessManager.collect_dead items) w1)
        as [[dead w2] tr]. cbn [fst snd run] in *.
      destruct IH as (IH1 & IH2 & IH3).
      assert (Hne : info_pid info0 <> 0)
        by (by apply Z.eqb_neq, negb_true_iff).
      rewrite app_nil_r. split; [| split].
      * intros k Hk.
        assert (k ∈ dead \/ (b = false /\ k = k0)) as [Hin | [-> ->]].
        { destruct b; [by left |].
          apply elem_of_cons in Hk as [-> | Hk]; [by right | by left]. }
        -- destruct (IH1 k Hin) as (info & Hi & Hn & Hf).
           exists info. split; [by apply list_elem_of_further |].
           split; [done |]. unfold pid_answers in *. cbn.
           destruct (info_pid info0 =? info_pid info);
             [by apply list_elem_of_further | done].
        -- exists info0. split; [apply list_elem_of_here |].
           split; [done |]. unfold pid_answers. cbn.
           rewrite Z.eqb_refl. apply list_elem_of_here.
      * intros k info Hk Hn Hnot.
        unfold pid_answers in Hnot. cbn in Hnot.
        apply elem_of_cons in Hk as [[= -> ->] | Hk].
        -- rewrite Z.eqb_refl in Hnot. destruct b.
           ++ exfalso. apply Hnot, list_elem_of_here.
           ++ apply list_elem_of_here.
        -- assert (k ∈ dead).
           { apply (IH2 k info Hk Hn). intros Ht. apply Hnot.
             destruct (info_pid info0 =? info_pid info);
               [by apply list_elem_of_further | done]. }
           destruct b; [done | by apply list_elem_of_further].
      * by cbn.
    + specialize (IH w). cbn zeta in IH. destruct IH as (IH1 & IH2 & IH3).
      assert (Hz : info_pid info0 = 0).
      { apply negb_false_iff in Hpid. by apply Z.eqb_eq in Hpid. }
      split; [| split; [| done]].
      * intros k Hk. destruct (IH1 k Hk) as (info & Hi & Hn & Hf).
        exists info. split; [by apply list_elem_of_further | done].
      * intros k info Hk Hn Hnot.
        apply elem_of_cons in Hk as [[= -> ->] | Hk]; [done |].
        by apply (IH2 k info).
Qed.

Lemma save_asks_no_pid {W : Type} (h : handler W) s w pid :
  pid_answers pid (run_M h ProcessManager.save_processes s w).2 = [] /\
  (run_M h ProcessManager.save_processes s w).1.1.1 = Return tt /\
  (run_M h ProcessManager.save_processes s w).1.1.2 = s /\
  forallb housekeeping (run_M h ProcessManager.save_processes s w).2 = true.
Proof.
  unfold ProcessManager.save_processes. unfold_M.
  destruct (h _ (open_w ProcessManager.processes_file) w) as [[[] | e] w1];
    cbn; [| done].
  by destruct (h _ (json_dump ProcessManager.processes_file s) w1)
    as [[[] | e] w2].
Qed.

Lemma cleanup_run :
  forall (W : Type) (h : handler W) (w : W)
         (procs : gmap string process_info),
    let r := run_M h ProcessManager._cleanup_dead_processes procs w in
    r.1.1.1 = Return tt /\
    r.1.1.2 ⊆ procs /\
    (forall pod_id info,
        procs !! pod_id = Some info ->
        info_pid info = 0 \/ false ∉ pid_answers (info_pid info) r.2 ->
        r.1.1.2 !! pod_id = Some info) /\
    (forall pod_id info,
        procs !! pod_id = Some info ->
        info_pid info <> 0 ->
        true ∉ pid_answers (info_pid info) r.2 ->
        r.1.1.2 !! pod_id = None) /\
    signals r.2 = [] /\ naps r.2 = [] /\ spawned r.2 = [] /\
    (r.1.1.2 = procs -> dumps r.2 = []).
Proof.
  intros W h w procs. cbn zeta.
  unfold ProcessManager._cleanup_dead_processes.
  rewrite run_M_bind, run_M_get. cbn [fst snd]. cbn zeta.
  rewrite run_M_bind, run_M_lift. cbn [fst snd]. cbn zeta.
  pose proof (collect_dead_run h (map_to_list procs) w) as Hc.
  cbn zeta in Hc.
  destruct (run h (ProcessManager.collect_dead (map_to_list procs)) w)
    as [[dead w1] trc]. cbn [fst snd] in *.
  destruct Hc as (Hc1 & Hc2 & Hc3).
  rewrite run_M_bind, run_M_set. cbn [fst snd]. cbn zeta.
  set (procs' := foldl (fun d pod_id => delete pod_id d) procs dead).
  assert (Hlook : forall k, procs' !! k
                            = if decide (k ∈ dead) then None else procs !! k)
    by (intros k; apply lookup_foldl_delete).
  assert (Htail : exists w2 trs,
    run_M h (match dead with [] => mret tt
             | _ => ProcessManager.save_processes end) procs' w1
    = (Return tt, procs', w2, trs) /\
    forallb housekeeping trs = true /\
    (forall pid, pid_answers pid trs = []) /\
    (dead = [] -> trs = [])).
  { destruct dead as [| d dead'].
    - exists w1, []. by rewrite run_M_ret.
    - destruct (run_M h ProcessManager.save_processes procs' w1)
        as [[[o s] w2] trs] eqn:Hs.
      exists w2, trs.
      pose proof (fun pid => save_asks_no_pid h procs' w1 pid) as Hp.
      rewrite Hs in Hp. cbn [fst snd] in Hp.
      destruct (Hp 0) as (_ & -> & -> & Hk).
      split; [done |]. split; [done |]. split; [| done].
      intros pid. by destruct (Hp pid). }
  destruct Htail as (w2 & trs & -> & Hk & Hnop & Hnil). cbn [fst snd].
  rewrite app_nil_l.
  assert (Hans : forall pid,
    pid_answers pid (trc ++ trs) = pid_answers pid trc).
  { intros pid. unfold pid_answers. rewrite observe_app.
    fold (pid_answers pid trs). by rewrite Hnop, app_nil_r. }
  split; [done |]. split; [| split; [| split]].
  - apply map_subseteq_spec. intros k x. rewrite Hlook.
    by case_decide.
  - intros pod_id info Hinfo Hkeep. rewrite Hlook.
    case_decide as Hin; [| done]. exfalso.
    destruct (Hc1 _ Hin) as (info' & Hi & Hn & Hf).
    apply elem_of_map_to_list in Hi. rewrite Hinfo in Hi.
    injection Hi as <-. destruct Hkeep as [Hz | Hnf]; [done |].
    apply Hnf. by rewrite Hans.
  - intros pod_id info Hinfo Hn Hnt. rewrite Hlook.
    rewrite decide_True; [done |].
    apply (Hc2 pod_id info); [by apply elem_of_map_to_list | done |].
    by rewrite <- Hans.
  - apply pid_checks_observed in Hc3 as (Hs1 & Hn1 & Hs2 & Hs5 & _).
    apply housekeeping_observed in Hk as (Hs3 & Hn2 & Hs4 & _).
    unfold signals, naps, spawned, dumps in *.
    rewrite !observe_app, Hs1, Hs2, Hs3, Hs4, Hs5, Hn1, Hn2.
    split; [done |]. split; [done |]. split; [done |].
    intros Heq. destruct dead as [| d dead'].
    + by rewrite (Hnil eq_refl).
    + exfalso. destruct (Hc1 d (list_elem_of_here _ _)) as (info & Hi & _).
      apply elem_of_map_to_list in Hi.
      pose proof (Hlook d) as Hd.
      rewrite decide_True in Hd by apply list_elem_of_here.
      rewrite Heq in Hd. by rewrite Hi in Hd.
Qed.

Lemma example_pids_in_range : pids_in_range Examples.registry_with_stale.
Proof.
  unfold pids_in_range, Examples.registry_with_stale, Examples.registry.
  apply map_Forall_insert_2; [reflexivity |].
  by apply map_Forall_singleton.
Qed.



(** ** get_tenant_info *)

Lemma probe_observed {W : Type} (h : handler W) port timeout w :
  let tr := (run h (ProcessManager._is_comfyui_healthy port timeout) w).2 in
  signals tr = [] /\ naps tr = [] /\ spawned tr = [] /\ dumps tr = [] /\
  lookup_errors_only tr = true /\ (forall pid, pid_answers pid tr = []).
Proof.
  cbn.
  destruct (h _ (connect_ex "localhost" port 2) w) as [[errno | e] w1];
    cbn; [| done].
  by destruct (errno =? 0).
Qed.

(** The classification loop: one entry per record, in order. *)
Lemma classify_run {W : Type} (h : handler W)
  (items : list (string * process_info)) (w : W) :
  let r := run h (ProcessManager.classify items) w in
  Forall2 (fun kv t => entry_of kv.1 kv.2 t) items r.1.1 /\
  signals r.2 = [] /\ naps r.2 = [] /\ spawned r.2 = [] /\ dumps r.2 = [].
Proof.
  revert w. induction items as [| [k info] items IH]; intros w; cbn zeta.
  - cbn. by repeat split.
  - cbn [ProcessManager.classify run]. rewrite run_bind. cbn zeta.
    destruct (h _ (pid_exists (info_pid info)) w) as [alive w1].
    cbn [fst snd].
    set (probe := if alive && truthy (info_port info)
                  then ProcessManager._is_comfyui_healthy (info_port info) 5
                  else Ret false).
    assert (Hprobe :
      (signals (run h probe w1).2 = [] /\ naps (run h probe w1).2 = [] /\
       spawned (run h probe w1).2 = [] /\ dumps (run h probe w1).2 = []) /\
      ((run h probe w1).1.1 = true -> alive = true /\ info_port info <> 0)).
    { subst probe. destruct alive; cbn [andb]; [| by split].
      destruct (truthy (info_port info)) eqn:Hp; [| by split].
      split.
      - destruct (probe_observed h (info_port info) 5 w1)
          as (? & ? & ? & ? & _). done.
      - intros _. split; [done |]. by apply Z.eqb_neq, negb_true_iff. }
    destruct (run h probe w1) as [[is_healthy w2] trp]. cbn [fst snd] in *.
    destruct Hprobe as [Hk Hh].
    cbn [run]. rewrite run_bind. cbn zeta.
    destruct (h _ time_time w2) as [now w3]. cbn [fst snd].
    specialize (IH w3). cbn zeta in IH.
    destruct (run h (ProcessManager.classify items) w3) as [[ts w4] trs].
    cbn [fst snd run] in *.
    destruct IH as (IH1 & IH2 & IH3 & IH4 & IH5).
    destruct Hk as (Hk1 & Hk2 & Hk3 & Hk4).
    split.
    + constructor; [| done]. unfold entry_of. cbn.
      repeat split; try done.
      all: try (intros ->; by destruct Hh).
      by destruct alive, is_healthy.
    + unfold signals, naps, spawned, dumps in *. cbn.
      rewrite !observe_app, Hk1, Hk2, Hk3, Hk4. cbn.
      by rewrite !observe_app, IH2, IH3, IH4, IH5.
Qed.

Lemma get_tenant_info_run :
  forall (W : Type) (h : handler W) (w : W)
         (procs : gmap string process_info),
    let r := run_M h ProcessManager.get_tenant_info procs w in
    exists tenants,
      r.1.1.1 = Return tenants /\
      r.1.1.2 ⊆ procs /\
      Forall2 (fun kv t => entry_of kv.1 kv.2 t)
        (map_to_list r.1.1.2) tenants /\
      signals r.2 = [] /\ naps r.2 = [] /\ spawned r.2 = [] /\
      (r.1.1.2 = procs -> dumps r.2 = []).
Proof.
  intros W h w procs. cbn zeta. unfold ProcessManager.get_tenant_info.
  rewrite run_M_bind. cbn zeta.
  pose proof (cleanup_run W h w procs) as Hc. cbn zeta in Hc.
  destruct (run_M h ProcessManager._cleanup_dead_processes procs w)
    as [[[o procs'] w1] trc]. cbn [fst snd] in *.
  destruct Hc as (-> & Hsub & _ & _ & Hs & Hn & Hp & Hd).
  rewrite run_M_bind, run_M_get. cbn [fst snd]. cbn zeta.
  rewrite run_M_lift. cbn [fst snd].
  pose proof (classify_run h (map_to_list procs') w1) as Hl. cbn zeta in Hl.
  destruct (run h (ProcessManager.classify (map_to_list procs')) w1)
    as [[tenants w2] trl]. cbn [fst snd] in *.
  destruct Hl as (Hall & Hs' & Hn' & Hp' & Hd').
  exists tenants. split; [done |]. split; [done |]. split; [done |].
  unfold signals, naps, spawned, dumps in *. cbn.
  rewrite !observe_app, Hs, Hn, Hp, Hs', Hn', Hp', Hd'.
  repeat split; try done. intros Heq. by rewrite (Hd Heq).
Qed.

(** ** What the entries of the list owe to the host *)

Lemma reported_from_mono (tr tr' : list event) t :
  (forall e, e ∈ tr -> e ∈ tr') -> reported_from tr t -> reported_from tr' t.
Proof.
  intros Hsub (Ha & Hh & Hu). split; [by apply Hsub |]. split.
  - intros E. destruct (Hh E). split; by apply Hsub.
  - intros E1 E2 E3.
    destruct (Hu E1 E2 E3) as [(r & Hr & Hne) | (r & Hr & Hne)];
      [left | right]; exists r; split; try done; by apply Hsub.
Qed.

(** The probe, from its answer back to the host: [True] comes from a
    connect that succeeded and a request answered 200, [False] from a
    connect or a request that did not. *)
Lemma probe_reported {W : Type} (h : handler W) port w :
  let r := run h (ProcessManager._is_comfyui_healthy port 5) w in
  let url := "http://localhost:" +:+ pretty port in
  if r.1.1 then
    r.2 = [Ev (connect_ex "localhost" port 2) (Ok 0);
           Ev (requests_get url 5) (Ok 200)]
  else
    (exists a, Ev (connect_ex "localhost" port 2) a ∈ r.2 /\ a <> Ok 0) \/
    (exists a, Ev (requests_get url 5) a ∈ r.2 /\ a <> Ok 200).
Proof.
  cbn.
  destruct (h _ (connect_ex "localhost" port 2) w) as [[errno | e] w1]; cbn.
  2:{ left. eexists. split; [apply list_elem_of_here | done]. }
  destruct (errno =? 0) eqn:E0; cbn.
  2:{ left. eexists. split; [apply list_elem_of_here |].
      intros [= ->]. done. }
  apply Z.eqb_eq in E0 as ->.
  destruct (h _ (requests_get ("http://localhost:" +:+ pretty port) 5) w1)
    as [[code | e] w2]; cbn.
  2:{ right. eexists.
      split; [apply list_elem_of_further, list_elem_of_here | done]. }
  destruct (code =? 200) eqn:E2; cbn.
  - by apply Z.eqb_eq in E2 as ->.
  - right. eexists.
    split; [apply list_elem_of_further, list_elem_of_here |].
    intros [= ->]. done.
Qed.

Lemma classify_reported {W : Type} (h : handler W)
  (items : list (string * process_info)) (w : W) :
  let r := run h (ProcessManager.classify items) w in
  Forall (reported_from r.2) r.1.1 /\
  Forall2 (fun kv t => exists now,
             Ev time_time now ∈ r.2 /\
             ProcessManager.t_uptime t = now - info_started_at kv.2)
    items r.1.1.
Proof.
  revert w. induction items as [| [k info] items IH]; intros w; cbn zeta.
  - cbn. by split.
  - cbn [ProcessManager.classify run]. rewrite run_bind. cbn zeta.
    destruct (h _ (pid_exists (info_pid info)) w) as [alive w1].
    cbn [fst snd].
    set (probe := if alive && truthy (info_port info)
                  then ProcessManager._is_comfyui_healthy (info_port info) 5
                  else Ret false).
    assert (Hprobe :
      let url := "http://localhost:" +:+ pretty (info_port info) in
      ((run h probe w1).1.1 = true ->
       Ev (connect_ex "localhost" (info_port info) 2) (Ok 0)
         ∈ (run h probe w1).2 /\
       Ev (requests_get url 5) (Ok 200) ∈ (run h probe w1).2) /\
      (alive = true -> info_port info <> 0 ->
       (run h probe w1).1.1 = false ->
       (exists a, Ev (connect_ex "localhost" (info_port info) 2) a
                    ∈ (run h probe w1).2 /\ a <> Ok 0) \/
       (exists a, Ev (requests_get url 5) a ∈ (run h probe w1).2 /\
                  a <> Ok 200))).
    { cbn zeta. subst probe.
      destruct alive; cbn [andb]; [| by split].
      destruct (truthy (info_port info)) eqn:Hp.
      - pose proof (probe_reported h (info_port info) w1) as Hr.
        cbn zeta in Hr.
        destruct (run h (ProcessManager._is_comfyui_healthy
                           (info_port info) 5) w1) as [[b w2] trp].
        cbn [fst snd] in *. destruct b.
        + split; [| done]. intros _. rewrite Hr.
          split; [apply list_elem_of_here |].
          apply list_elem_of_further, list_elem_of_here.
        + split; [done |]. by intros _ _ _.
      - split; [done |]. intros _ Hne.
        apply negb_false_iff, Z.eqb_eq in Hp. done. }
    destruct (run h probe w1) as [[is_healthy w2] trp]. cbn [fst snd] in *.
    cbn zeta in Hprobe. destruct Hprobe as [Hyes Hno].
    cbn [run]. rewrite run_bind. cbn zeta.
    destruct (h _ time_time w2) as [now w3]. cbn [fst snd].
    specialize (IH w3). cbn zeta in IH.
    destruct (run h (ProcessManager.classify items) w3) as [[ts w4] trs].
    cbn [fst snd run] in *. destruct IH as [IH1 IH2].
    split.
    + constructor.
      * unfold reported_from. cbn.
        split; [apply list_elem_of_here |]. split.
        -- intros ->. destruct (Hyes eq_refl) as [H1 H2].
           split; apply list_elem_of_further, elem_of_app; by left.
        -- intros -> Hport ->.
           destruct (Hno eq_refl Hport eq_refl)
             as [(a & Ha & Hne) | (a & Ha & Hne)]; [left | right];
             exists a; (split; [| done]);
             apply list_elem_of_further, elem_of_app; by left.
      * eapply Forall_impl; [exact IH1 |]. intros t Ht.
        eapply reported_from_mono; [| exact Ht].
        intros e He. apply list_elem_of_further, elem_of_app. right.
        rewrite app_nil_r. by apply list_elem_of_further.
    + constructor.
      * exists now. cbn. split; [| done].
        apply list_elem_of_further, elem_of_app. right.
        apply list_elem_of_here.
      * eapply Forall2_impl; [exact IH2 |]. intros kv t (now' & Hin & Hu).
        exists now'. split; [| done].
        apply list_elem_of_further, elem_of_app. right.
        rewrite app_nil_r. by apply list_elem_of_further.
Qed.

Lemma get_tenant_info_reported {W : Type} (h : handler W) (w : W)
  (procs : gmap string process_info) :
  let r := run_M h ProcessManager.get_tenant_info procs w in
  forall tenants, r.1.1.1 = Return tenants ->
    Forall (reported_from r.2) tenants /\
    Forall2 (fun kv t => exists now,
               Ev time_time now ∈ r.2 /\
               ProcessManager.t_uptime t = now - info_started_at kv.2)
      (map_to_list r.1.1.2) tenants.
Proof.
  cbn zeta. unfold ProcessManager.get_tenant_info.
  rewrite run_M_bind. cbn zeta.
  pose proof (cleanup_run W h w procs) as Hc. cbn zeta in Hc.
  destruct (run_M h ProcessManager._cleanup_dead_processes procs w)
    as [[[o procs'] w1] trc]. cbn [fst snd] in *.
  destruct Hc as (-> & _).
  rewrite run_M_bind, run_M_get. cbn [fst snd]. cbn zeta.
  rewrite run_M_lift. cbn [fst snd].
  pose proof (classify_reported h (map_to_list procs') w1) as Hl.
  cbn zeta in Hl.
  destruct (run h (ProcessManager.classify (map_to_list procs')) w1)
    as [[ts w2] trl]. cbn [fst snd] in *.
  destruct Hl as [H1 H2]. intros tenants [= <-]. split.
  - eapply Forall_impl; [exact H1 |]. intros t Ht.
    eapply reported_from_mono; [| exact Ht].
    intros e He. apply elem_of_app. right. by rewrite app_nil_l.
  - eapply Forall2_impl; [exact H2 |]. intros kv t (now & Hin & Hu).
    exists now. split; [| done]. apply elem_of_app. right.
    by rewrite app_nil_l.
Qed.



(** ** get_tenant_info on the concrete host *)

Lemma save_on_host_keeps_processes (w : Host.t) s :
  Host.procs (run_M Host.step ProcessManager.save_processes s w).1.2
  = Host.procs w.
Proof.
  unfold ProcessManager.save_processes. unfold_M.
  destruct (Host.read_only w) eqn:Hro; cbn; by rewrite ?Hro.
Qed.

Lemma cleanup_on_host_keeps_processes (w : Host.t) procs :
  Host.procs
    (run_M Host.step ProcessManager._cleanup_dead_processes procs w).1.2
  = Host.procs w.
Proof.
  unfold ProcessManager._cleanup_dead_processes.
  rewrite run_M_bind, run_M_get. cbn [fst snd]. cbn zeta.
  rewrite run_M_bind, run_M_lift. cbn [fst snd]. cbn zeta.
  pose proof (collect_dead_on_host w (map_to_list procs)) as Hdead.
  destruct (run Host.step (ProcessManager.collect_dead (map_to_list procs)) w)
    as [[dead w'] tr]. cbn [fst snd] in *. injection Hdead as -> ->.
  rewrite run_M_bind, run_M_set. cbn [fst snd]. cbn zeta.
  destruct ((List.filter (fun kv => Host.gone w kv.2) (map_to_list procs)).*1).
  - by rewrite run_M_ret.
  - apply save_on_host_keeps_processes.
Qed.

Lemma probe_on_host (w : Host.t) port timeout :
  (run Host.step (ProcessManager._is_comfyui_healthy port timeout) w).1.2 = w.
Proof.
  cbn. repeat (case_match; cbn; try done).
Qed.

(** The classification on the concrete host: the host does not change, and
    a process is reported alive exactly when its pid is on the host. *)
Lemma classify_on_host (w : Host.t) (items : list (string * process_info)) :
  let r := run Host.step (ProcessManager.classify items) w in
  r.1.2 = w /\
  Forall (fun t => ProcessManager.t_process_alive t
                   = Host.has_pid w (ProcessManager.t_pid t)) r.1.1.
Proof.
  induction items as [| [k info] items IH]; cbn zeta; [by split |].
  cbn [ProcessManager.classify run]. cbn [Host.step fst snd].
  rewrite run_bind. cbn zeta.
  set (probe := if Host.has_pid w (info_pid info) && truthy (info_port info)
                then ProcessManager._is_comfyui_healthy (info_port info) 5
                else Ret false).
  assert (Hp : (run Host.step probe w).1.2 = w).
  { subst probe. destruct (_ && _); [apply probe_on_host | done]. }
  destruct (run Host.step probe w) as [[is_healthy w2] trp].
  cbn [fst snd] in *. subst w2. cbn [run Host.step fst snd]. rewrite run_bind. cbn zeta.
  cbn zeta in IH.
  destruct (run Host.step (ProcessManager.classify items) w)
    as [[ts w4] trs]. cbn [fst snd run] in *.
  destruct IH as [-> IH]. split; [done |]. by constructor.
Qed.

(** X3.  [get_tenant_info] on the concrete host, which does not change
    during the call: the registry left is the registry given without the
    records that are [gone] (a real pid that is not on the host); such a
    record is pruned by the sweep that opens the call and is not reported;
    so the only entries reported [dead] are those of records without a
    pid. *)
Theorem list_on_host_prunes_before_it_reports :
  forall (w : Host.t) (procs : gmap string process_info),
    let r := run_M Host.step ProcessManager.get_tenant_info procs w in
    r.1.1.2 = filter (fun kv => Host.gone w kv.2 = false) procs /\
    exists tenants,
      r.1.1.1 = Return tenants /\
      (forall pod_id info,
          procs !! pod_id = Some info -> Host.gone w info = true ->
          r.1.1.2 !! pod_id = None /\
          pod_id ∉ ProcessManager.t_pod_id <$> tenants) /\
      (forall t, t ∈ tenants ->
                 ProcessManager.t_status t = ProcessManager.dead ->
                 ProcessManager.t_pid t = 0).
Proof.
  intros w procs. cbn zeta.
  destruct (get_tenant_info_run Host.t Host.step w procs)
    as (tenants & Ho & _ & Hall & _).
  assert (Hreg : (run_M Host.step ProcessManager.get_tenant_info procs w).1.1.2
                 = filter (fun kv => Host.gone w kv.2 = false) procs /\
                 Forall (fun t => ProcessManager.t_process_alive t
                                  = Host.has_pid w (ProcessManager.t_pid t))
                   tenants).
  { revert Ho. unfold ProcessManager.get_tenant_info.
    rewrite run_M_bind. cbn zeta.
    pose proof (cleanup_on_host w procs) as Hc. cbn zeta in Hc.
    pose proof (cleanup_on_host_keeps_processes w procs) as Hw.
    destruct (run_M Host.step ProcessManager._cleanup_dead_processes procs w)
      as [[[o procs'] w1] trc]. cbn [fst snd] in *.
    destruct Hc as [-> ->].
    rewrite run_M_bind, run_M_get. cbn [fst snd]. cbn zeta.
    rewrite run_M_lift. cbn [fst snd].
    pose proof (classify_on_host w1
                  (map_to_list (filter (fun kv => Host.gone w kv.2 = false)
                                  procs))) as Hl.
    cbn zeta in Hl.
    destruct (run Host.step (ProcessManager.classify _) w1)
      as [[ts w2] trl]. cbn [fst snd] in *.
    destruct Hl as [_ Hl]. intros [= ->]. split; [done |].
    eapply Forall_impl; [exact Hl |]. intros t ->.
    unfold Host.has_pid. by rewrite Hw. }
  destruct Hreg as [Hreg Halive]. rewrite Hreg in Hall |- *.
  split; [done |]. exists tenants. split; [done |]. split.
  - intros pod_id info Hinfo Hgone.
    assert (Hnone : filter (fun kv => Host.gone w kv.2 = false) procs
                    !! pod_id = None).
    { apply map_lookup_filter_None. right. intros x Hx. cbn.
      rewrite Hinfo in Hx. injection Hx as <-. by rewrite Hgone. }
    split; [done |]. intros Hin.
    apply list_elem_of_fmap in Hin as (t & -> & Hin).
    apply list_elem_of_lookup in Hin as [i Hi].
    destruct (Forall2_lookup_r _ _ _ _ _ Hall Hi) as ([k info'] & Hk & He).
    apply list_elem_of_lookup_2, elem_of_map_to_list in Hk.
    destruct He as (Hid & _). cbn in Hid. rewrite Hid in Hnone.
    by rewrite Hk in Hnone.
  - intros t Hin Hdead.
    pose proof (proj1 (Forall_forall _ _) Halive t Hin) as Ha. cbn in Ha.
    apply list_elem_of_lookup in Hin as [i Hi].
    destruct (Forall2_lookup_r _ _ _ _ _ Hall Hi) as ([k info] & Hk & He).
    apply list_elem_of_lookup_2, elem_of_map_to_list in Hk.
    apply map_lookup_filter_Some in Hk as [_ Hkeep]. cbn in Hkeep.
    destruct He as (_ & _ & _ & Hpid & _ & Hstatus & _). cbn in Hpid.
    rewrite Hdead in Hstatus.
    destruct (ProcessManager.t_process_alive t) eqn:Halv.
    { by destruct (ProcessManager.t_service_healthy t). }
    unfold Host.gone in Hkeep. rewrite <- Hpid, <- Ha in Hkeep.
    cbn in Hkeep. rewrite andb_true_r in Hkeep.
    apply negb_false_iff, Z.eqb_eq in Hkeep. done.
Qed.

(** ** list() and the records whose pid is gone, on the concrete host *)







(** ** Forced cleanup, on every host *)

Lemma remove_from_tracking_run {W : Type} (h : handler W) pod_id procs w :
  exists w' tr,
    run_M h (ProcessManager.remove_from_tracking pod_id) procs w
    = (Return tt, delete pod_id procs, w', tr) /\
    forallb housekeeping tr = true.
Proof.
  unfold ProcessManager.remove_from_tracking.
  rewrite run_M_bind, run_M_get. cbn [fst snd]. cbn zeta.
  destruct (procs !! pod_id) as [info |] eqn:Hinfo.
  - rewrite run_M_bind, run_M_set. cbn [fst snd]. cbn zeta.
    destruct (save_asks_no_pid h (delete pod_id procs) w 0)
      as (_ & Ho & Hs & Hk).
    destruct (run_M h ProcessManager.save_processes (delete pod_id procs) w)
      as [[[o s] w1] tr]. cbn [fst snd] in *. subst. by exists w1, tr.
  - rewrite run_M_ret. cbn [fst snd]. exists w, [].
    by rewrite delete_id.
Qed.

(** [_force_cleanup_tenant] never raises; it removes no record but the
    tenant's, and removes that one unless a signalling step failed
    otherwise than by [ProcessLookupError]; SIGTERM comes first, SIGKILL
    second if at all, after 2 s, and 1 s follows it; nothing is started. *)
Lemma force_cleanup_total {W : Type} (h : handler W) pod_id info procs w :
  exists procs' w' tr,
    run_M h (ProcessManager._force_cleanup_tenant pod_id info) procs w
    = (Return tt, procs', w', tr) /\
    procs' = (if lookup_errors_only tr then delete pod_id procs else procs) /\
    (signals tr).*2 `prefix_of` [SIGTERM; SIGKILL] /\
    naps tr `prefix_of` [2; 1] /\
    spawned tr = [].
Proof.
  unfold ProcessManager._force_cleanup_tenant.
  rewrite run_M_try, run_M_bind. cbn zeta.
  assert (Halive : exists alive w1 tra,
    run_M h (if truthy (info_pid info)
             then os (pid_exists (info_pid info)) else mret false) procs w
    = (Return alive, procs, w1, tra) /\ forallb is_pid_check tra = true).
  { destruct (truthy (info_pid info)).
    - rewrite run_M_os. destruct (h _ (pid_exists (info_pid info)) w).
      by eexists _, _, _.
    - rewrite run_M_ret. by eexists _, _, _. }
  destruct Halive as (alive & w1 & tra & -> & Ha). cbn [fst snd].
  apply pid_checks_observed in Ha as (Ha1 & Ha2 & Ha3 & _ & Ha4).
  rewrite run_M_bind. cbn zeta.
  assert (Hkill : exists o w2 trk,
    run_M h (if alive
             then try_except (ProcessManager.force_kill (info_pid info))
                    is_ProcessLookupError (fun _ => mret tt)
             else mret tt) procs w1 = (o, procs, w2, trk) /\
    naps trk `prefix_of` [2; 1] /\
    (signals trk).*2 `prefix_of` [SIGTERM; SIGKILL] /\
    spawned trk = [] /\
    (if lookup_errors_only trk then o = Return tt
     else exists e, o = Raise e)).
  { destruct alive.
    - rewrite run_M_try.
      destruct (force_kill_run h (info_pid info) procs w1)
        as (o & w3 & trk & -> & Hn & Hs & Hp & _ & Ho).
      cbn [fst snd]. destruct (lookup_errors_only trk) eqn:Hl.
      + destruct Ho as [-> | ->]; cbn [is_ProcessLookupError].
        * eexists _, _, _. split; [reflexivity |]. by rewrite Hl.
        * rewrite run_M_ret. cbn [fst snd]. rewrite app_nil_r.
          eexists _, _, _. split; [reflexivity |]. by rewrite Hl.
      + destruct Ho as (e & -> & ->).
        eexists _, _, _. split; [reflexivity |]. rewrite Hl. eauto 10.
    - rewrite run_M_ret. exists (Return tt), w1, [].
      split; [done |]. split; [by exists [2; 1] |].
      split; [by exists [SIGTERM; SIGKILL] |]. done. }
  destruct Hkill as (o & w2 & trk & -> & Hn & Hs & Hp & Ho). cbn [fst snd].
  destruct (remove_from_tracking_run h pod_id procs w2)
    as (w3 & trr & Hr & Hk).
  apply housekeeping_observed in Hk as (Hk1 & Hk2 & Hk3 & Hk4 & _).
  unfold signals, naps, spawned in *.
  destruct (lookup_errors_only trk) eqn:Hl.
  - subst o. rewrite Hr. cbn [fst snd].
    eexists _, _, _. split; [reflexivity |].
    rewrite !lookup_errors_only_app, !observe_app, Ha1, Ha2, Ha3, Ha4, Hl,
      Hk1, Hk2, Hk3, Hk4, ?app_nil_r. by cbn.
  - destruct Ho as (e & ->). cbn [fst snd Exception].
    rewrite run_M_ret. cbn [fst snd].
    eexists _, _, _. split; [reflexivity |].
    rewrite !lookup_errors_only_app, !observe_app, Ha1, Ha2, Ha3, Ha4, Hl,
      ?app_nil_r, ?andb_false_r. by cbn.
Qed.


(** ** start_tenant over an unhealthy tenant *)




(** ** A start that fails *)

Lemma bind_raised {W A B : Type} (h : handler W) (m : M A) (f : A -> M B)
  s w e s' w' tr :
  run_M h (m ≫= f) s w = (Raise e, s', w', tr) ->
  run_M h m s w = (Raise e, s', w', tr) \/
  exists a s1 w1 t1 t2,
    run_M h m s w = (Return a, s1, w1, t1) /\
    run_M h (f a) s1 w1 = (Raise e, s', w', t2) /\
    tr = t1 ++ t2.
Proof.
  rewrite run_M_bind. cbn zeta.
  destruct (run_M h m s w) as [[[o s1] w1] t1]. cbn [fst snd].
  destruct o as [a | e']; [| intros [= -> -> -> ->]; by left].
  destruct (run_M h (f a) s1 w1) as [[[o2 s2] w2] t2] eqn:E2. cbn [fst snd].
  intros [= -> -> -> <-]. right. by exists a, s1, w1, t1, t2.
Qed.

Lemma os_try_raised {W X : Type} (h : handler W) (c : call (result X))
  s w e s' w' tr :
  run_M h (os_try c) s w = (Raise e, s', w', tr) ->
  s' = s /\ tr = [Ev c (Err e)].
Proof.
  rewrite run_M_os_try. destruct (h _ c w) as [[x | e'] w1]; cbn.
  - discriminate.
  - by intros [= -> -> -> <-].
Qed.

(** A [spawn_tenant] that raises has recorded nothing and started no
    tenant. *)
Lemma spawn_tenant_raised {W : Type} (h : handler W)
  pod_id username port env_vars s w e s' w' tr :
  run_M h (ProcessManager.spawn_tenant pod_id username port env_vars) s w
  = (Raise e, s', w', tr) ->
  s' = s /\ spawned tr = [] /\ signals tr = [].
Proof.
  unfold ProcessManager.spawn_tenant. intros H.
  apply bind_raised in H
    as [H | (? & s1 & w1 & t1 & ? & H1 & H & ->)].
  { by apply os_try_raised in H as [-> ->]. }
  apply os_try_returned in H1 as (_ & -> & ->).
  apply bind_raised in H
    as [H | (environ & s2 & w2 & t2 & ? & H1 & H & ->)].
  { by rewrite run_M_os in H. }
  apply os_returned in H1 as (_ & -> & ->).
  apply bind_raised in H
    as [H | (? & s3 & w3 & t3 & ? & H1 & H & ->)].
  { pose proof (preserved_run H (setup_scripts_preserves _)) as ->.
    pose proof (emitted_run H (setup_scripts_housekeeping _)) as Hk.
    apply housekeeping_observed in Hk as (Hk1 & _ & Hk2 & _).
    unfold spawned, signals in *. cbn. by rewrite Hk1, Hk2. }
  pose proof (preserved_run H1 (setup_scripts_preserves _)) as ->.
  pose proof (emitted_run H1 (setup_scripts_housekeeping _)) as Hk.
  apply housekeeping_observed in Hk as (Hk1 & _ & Hk2 & _).
  apply bind_raised in H
    as [H | (pid & s4 & w4 & t4 & ? & H1' & H & ->)].
  { apply os_try_raised in H as [-> ->].
    unfold spawned, signals in *. cbn. rewrite !observe_app, Hk1, Hk2.
    by cbn. }
  exfalso.
  apply os_try_returned in H1' as (_ & -> & ->).
  apply bind_raised in H
    as [H | (now & s5 & w5 & t5 & ? & H1' & H & ->)].
  { by rewrite run_M_os in H. }
  apply os_returned in H1' as (_ & -> & ->).
  apply bind_raised in H
    as [H | (? & s6 & w6 & t6 & ? & H1' & H & ->)].
  { by rewrite run_M_get in H. }
  rewrite run_M_get in H1'. injection H1' as <- <- <- <-.
  apply bind_raised in H
    as [H | (? & s7 & w7 & t7 & ? & H1' & H & ->)].
  { by rewrite run_M_set in H. }
  rewrite run_M_set in H1'. injection H1' as _ <- <- <-.
  apply bind_raised in H
    as [H | (? & s8 & w8 & t8 & ? & H2 & H & ->)].
  { destruct (save_returns h
      (<[pod_id := ProcessInfo pid port username
          (default ("/workspace/" +:+ pod_id) (env_vars !! "NETWORK_VOLUME"))
          now env_vars]> s) w5) as (? & ? & Hs & _).
    by rewrite Hs in H. }
  apply bind_raised in H
    as [H | (? & s9 & w9 & t9 & ? & H3 & H & ->)].
  { destruct (cloudwatch_returns h pod_id
      (default ("/workspace/" +:+ pod_id) (env_vars !! "NETWORK_VOLUME"))
      s8 w8) as (? & ? & Hc).
    by rewrite Hc in H. }
  by rewrite run_M_ret in H.
Qed.

(** [check_existing] never raises; it leaves the registry as it was or
    without the tenant's record, and starts nothing. *)
Lemma check_existing_total {W : Type} (h : handler W) pod_id procs w :
  exists early procs' w' tr,
    run_M h (ProcessManager.check_existing pod_id) procs w
    = (Return early, procs', w', tr) /\
    (procs' = procs \/ procs' = delete pod_id procs) /\
    (is_Some early -> procs' = procs /\ signals tr = []) /\
    spawned tr = [] /\
    (signals tr).*2 `prefix_of` [SIGTERM; SIGKILL].
Proof.
  unfold ProcessManager.check_existing.
  rewrite run_M_bind, run_M_get. cbn [fst snd]. cbn zeta.
  destruct (procs !! pod_id) as [info |] eqn:Hinfo.
  2:{ rewrite run_M_ret. cbn [fst snd]. exists None, procs, w, [].
      split; [done |]. split; [by left |]. split; [by intros [? [=]] |].
      split; [done |]. by exists [SIGTERM; SIGKILL]. }
  rewrite run_M_bind, run_M_os. cbn [fst snd]. cbn zeta.
  destruct (h _ (pid_exists (info_pid info)) w) as [alive w1]. cbn [fst snd].
  rewrite run_M_bind. cbn zeta.
  assert (Hp : exists b w2 trp,
    run_M h (if alive && truthy (info_port info)
             then lift (ProcessManager._is_comfyui_healthy (info_port info) 5)
             else mret false) procs w1 = (Return b, procs, w2, trp) /\
    signals trp = [] /\ spawned trp = [] /\ lookup_errors_only trp = true).
  { destruct (alive && truthy (info_port info)).
    - rewrite run_M_lift.
      destruct (probe_observed h (info_port info) 5 w1)
        as (? & _ & ? & _ & ? & _).
      by eexists _, _, _.
    - rewrite run_M_ret. by eexists _, _, _. }
  destruct Hp as (b & w2 & trp & -> & Hp1 & Hp2 & Hp3). cbn [fst snd].
  unfold signals, spawned in *.
  destruct b.
  - rewrite run_M_ret. cbn [fst snd].
    eexists _, _, _, _. split; [reflexivity |]. cbn.
    rewrite !observe_app, Hp1, Hp2. cbn.
    split; [by left |]. split; [done |]. split; [done |].
    by exists [SIGTERM; SIGKILL].
  - rewrite run_M_bind.
    destruct (force_cleanup_total h pod_id info procs w2)
      as (procs' & w3 & trc & -> & Hreg & Hs & _ & Hsp).
    cbn [fst snd]. rewrite run_M_ret. cbn [fst snd].
    eexists _, _, _, _. split; [reflexivity |]. cbn.
    unfold signals, spawned in *.
    rewrite !observe_app, Hp1, Hp2, Hsp, ?app_nil_r. cbn.
    rewrite ?app_nil_r.
    split; [destruct (lookup_errors_only trc); auto |].
    split; [by intros [? [=]] |]. done.
Qed.

(** The outcomes of [start_tenant] and of [stop_tenant], on every host. *)
Lemma start_outcome {W : Type} (h : handler W)
  pod_id username port env_vars procs w :
  let r := run_M h (ProcessManager.start_tenant pod_id username port env_vars)
             procs w in
  (exists e, r.1.1.1 = Raise e /\ spawned r.2 = [] /\
             (r.1.1.2 = procs \/ r.1.1.2 = delete pod_id procs)) \/
  (exists p pid, r.1.1.1 = Return (ProcessManager.already_running p pid) /\
                 spawned r.2 = [] /\ signals r.2 = [] /\ r.1.1.2 = procs /\
                 is_Some (procs !! pod_id)) \/
  (exists pid now,
      let network_volume :=
        default ("/workspace/" +:+ pod_id) (env_vars !! "NETWORK_VOLUME") in
      r.1.1.1 = Return (ProcessManager.started port pid network_volume) /\
      spawned r.2 = [pid] /\
      r.1.1.2 = <[pod_id := ProcessInfo pid port username network_volume
                               now env_vars]> procs).
Proof.
  cbn zeta. unfold ProcessManager.start_tenant. rewrite run_M_bind. cbn zeta.
  destruct (check_existing_total h pod_id procs w)
    as (early & procs1 & w1 & tr1 & Hcheck & Hreg & Hearly & Hsp & _).
  rewrite Hcheck. cbn [fst snd].
  destruct early as [r |].
  - rewrite run_M_ret. cbn [fst snd]. rewrite app_nil_r.
    destruct (check_existing_early h _ _ _ _ _ _ _ Hcheck) as (p & pid & ->).
    destruct Hearly as [-> Hsig]; [by eexists |].
    right. left. exists p, pid. repeat split; try done.
    revert Hcheck. unfold ProcessManager.check_existing.
    rewrite run_M_bind, run_M_get. cbn [fst snd]. cbn zeta.
    destruct (procs !! pod_id); [by eexists | by rewrite run_M_ret].
  - destruct (run_M h (ProcessManager.spawn_tenant pod_id username port
                         env_vars) procs1 w1)
      as [[[o s2] w2] tr2] eqn:Hspawn. cbn [fst snd].
    unfold spawned in *. rewrite observe_app, Hsp. cbn [app].
    destruct o as [r | e].
    + destruct (spawn_tenant_returned h _ _ _ _ _ _ _ _ _ _ Hspawn)
        as (pid & now & Hr & Hs2 & Hsp2 & _).
      cbn zeta in Hr, Hs2. right. right. exists pid, now. cbn zeta.
      split; [by rewrite Hr |]. split; [done |]. rewrite Hs2.
      destruct Hreg as [-> | ->]; [done | apply insert_delete_eq].
    + destruct (spawn_tenant_raised h _ _ _ _ _ _ _ _ _ _ Hspawn)
        as (-> & Hsp2 & _).
      left. exists e. by repeat split.
Qed.

Lemma stop_outcome {W : Type} (h : handler W) pod_id procs w :
  let r := run_M h (ProcessManager.stop_tenant pod_id) procs w in
  match procs !! pod_id with
  | None => r = (Return ProcessManager.not_found, procs, w, [])
  | Some _ =>
      ((r.1.1.1 = Return ProcessManager.stopped \/
        r.1.1.1 = Return ProcessManager.not_running) /\
       r.1.1.2 = delete pod_id procs) \/
      (exists e, r.1.1.1 = Raise e /\ is_ProcessLookupError e = false /\
                 r.1.1.2 = procs)
  end /\ spawned r.2 = [].
Proof.
  cbn zeta. destruct (procs !! pod_id) as [info |] eqn:Hinfo.
  - destruct (truthy (info_pid info)) eqn:Hpid.
    + destruct (h _ (pid_exists (info_pid info)) w) as [alive w1] eqn:Halive.
      destruct alive.
      * destruct (stop_live_run h procs pod_id info w w1 Hinfo)
          as (o1 & s1 & w2 & tr1 & k & -> & _ & _ & _ & Hp & Ho);
          [by apply Z.eqb_neq, negb_true_iff | done |].
        cbn [fst snd]. split; [| done].
        destruct (lookup_errors_only tr1).
        -- destruct Ho as [-> ->]. left. by split; [left |].
        -- right. destruct Ho as (e & -> & ? & ->). by exists e.
      * unfold ProcessManager.stop_tenant.
        rewrite run_M_bind, run_M_get. cbn [fst snd]. cbn zeta.
        rewrite Hinfo, Hpid.
        rewrite run_M_bind, run_M_os, Halive. cbn [fst snd negb]. cbn zeta.
        rewrite run_M_bind, run_M_set. cbn [fst snd]. cbn zeta.
        rewrite run_M_bind.
        destruct (save_returns h (delete pod_id procs) w1)
          as (w3 & trs & -> & _ & _ & Hs3 & _).
        cbn [fst snd]. cbn zeta. rewrite run_M_ret. cbn [fst snd].
        split; [left; by split; [right |] |].
        unfold spawned in *. cbn. by rewrite observe_app, Hs3.
    + unfold ProcessManager.stop_tenant.
      rewrite run_M_bind, run_M_get. cbn [fst snd]. cbn zeta.
      rewrite Hinfo, Hpid.
      rewrite run_M_bind, run_M_ret. cbn [fst snd negb]. cbn zeta.
      rewrite run_M_bind, run_M_set. cbn [fst snd]. cbn zeta.
      rewrite run_M_bind.
      destruct (save_returns h (delete pod_id procs) w)
        as (w3 & trs & -> & _ & _ & Hs3 & _).
      cbn [fst snd]. cbn zeta. rewrite run_M_ret. cbn [fst snd].
      split; [left; by split; [right |] |].
      unfold spawned in *. cbn. by rewrite observe_app, Hs3.
  - unfold ProcessManager.stop_tenant.
    rewrite run_M_bind, run_M_get. cbn [fst snd]. cbn zeta.
    by rewrite Hinfo, run_M_ret.
Qed.

(** X6.  A [start_tenant] that raises has started no tenant and has
    recorded none: the registry is as it was, or as it was without the
    record of the tenant (when the forced cleanup removed it), and the
    records of the other tenants are untouched. *)
Theorem failed_start_records_nothing :
  forall (W : Type) (h : handler W) (w w' : W) (tr : list event)
         (procs procs' : gmap string process_info)
         (pod_id username : string) (port : Z)
         (env_vars : gmap string string) (e : exn),
    run_M h (ProcessManager.start_tenant pod_id username port env_vars)
      procs w = (Raise e, procs', w', tr) ->
    spawned tr = [] /\
    (procs' = procs \/ procs' = delete pod_id procs) /\
    procs' ⊆ procs.
Proof.
  intros W h w w' tr procs procs' pod_id username port env_vars e Hrun.
  pose proof (start_outcome h pod_id username port env_vars procs w) as Ho.
  cbn zeta in Ho. rewrite Hrun in Ho. cbn [fst snd] in Ho.
  destruct Ho as [(e' & _ & Hsp & Hreg) | [(? & ? & [=] & _) | (? & ? & [=] & _)]].
  split; [done |]. split; [done |].
  destruct Hreg as [-> | ->]; [done | apply delete_subseteq].
Qed.

(** X6 on a scripted host that refuses to create the workspace
    directory. *)
Lemma failed_start_witness :
  let r := run_M Script.step
             (ProcessManager.start_tenant "t2" "bob" 8189 ∅)
             Examples.registry [Script.fails PermissionError] in
  r.1.1.1 = Raise PermissionError /\ r.1.1.2 = Examples.registry /\
  spawned r.2 = [].
Proof.
  intros r.
  destruct (failed_start_records_nothing _ Script.step
              [Script.fails PermissionError] r.1.2 r.2
              Examples.registry r.1.1.2 "t2" "bob" 8189 ∅ PermissionError)
    as (Hsp & _ & _); [vm_compute; reflexivity |].
  split; [vm_compute; reflexivity |]. split; [vm_compute; reflexivity |].
  exact Hsp.
Defined.

(** X7.  [start_tenant] and [stop_tenant] touch no record but that of the
    tenant they are called for, whatever the host does and however they
    end; and [stop_tenant] starts no process. *)
Theorem other_tenants_are_untouched :
  forall (W : Type) (h : handler W) (w : W)
         (procs : gmap string process_info) (pod_id other : string),
    other <> pod_id ->
    (forall (username : string) (port : Z) (env_vars : gmap string string),
        (run_M h (ProcessManager.start_tenant pod_id username port env_vars)
           procs w).1.1.2 !! other = procs !! other) /\
    (run_M h (ProcessManager.stop_tenant pod_id) procs w).1.1.2 !! other
    = procs !! other /\
    spawned (run_M h (ProcessManager.stop_tenant pod_id) procs w).2 = [].
Proof.
  intros W h w procs pod_id other Hne. split; [| split].
  - intros username port env_vars.
    pose proof (start_outcome h pod_id username port env_vars procs w) as Ho.
    cbn zeta in Ho.
    destruct Ho as [(e & _ & _ & [-> | ->])
                   | [(? & ? & _ & _ & _ & -> & _) | (? & ? & _ & _ & ->)]];
      try done.
    + by apply lookup_delete_ne.
    + by apply lookup_insert_ne.
  - pose proof (stop_outcome h pod_id procs w) as [Ho _]. cbn zeta in Ho.
    destruct (procs !! pod_id); [| by rewrite Ho].
    destruct Ho as [[_ ->] | (e & _ & _ & ->)]; [| done].
    by apply lookup_delete_ne.
  - by destruct (stop_outcome h pod_id procs w) as [_ Hs].
Qed.

(** X7 on the host of [Crash]: stopping [t2] leaves the record of [t1]. *)
Lemma other_tenants_witness :
  (run_M Host.step (ProcessManager.stop_tenant "t2")
     Crash.registry' Crash.host).1.1.2 !! "t1" = Some Examples.alice.
Proof.
  destruct (other_tenants_are_untouched _ Host.step Crash.host
              Crash.registry' "t2" "t1") as (_ & Hstop & _);
    [discriminate |].
  rewrite Hstop. reflexivity.
Defined.

(** X8.  Stop after start: when [start_tenant] has returned and a
    following [stop_tenant] of the same tenant returns, it returns
    [stopped] or [not_running], never [not_found], and the registry is the
    one from before the start without the record of the tenant; so a
    tenant that had no record leaves the registry exactly as it was. *)
Theorem stop_after_start_restores_the_registry :
  forall (W : Type) (h : handler W) (w0 w1 w2 : W) (tr1 tr2 : list event)
         (procs0 procs1 procs2 : gmap string process_info)
         (pod_id username : string) (port : Z)
         (env_vars : gmap string string)
         (r : ProcessManager.start_result) (res : ProcessManager.stop_result),
    run_M h (ProcessManager.start_tenant pod_id username port env_vars)
      procs0 w0 = (Return r, procs1, w1, tr1) ->
    run_M h (ProcessManager.stop_tenant pod_id) procs1 w1
    = (Return res, procs2, w2, tr2) ->
    res <> ProcessManager.not_found /\
    procs2 = delete pod_id procs0 /\
    (procs0 !! pod_id = None -> procs2 = procs0).
Proof.
  intros W h w0 w1 w2 tr1 tr2 procs0 procs1 procs2 pod_id username port
    env_vars r res Hstart Hstop.
  pose proof (start_outcome h pod_id username port env_vars procs0 w0) as Ho.
  cbn zeta in Ho. rewrite Hstart in Ho. cbn [fst snd] in Ho.
  assert (Hrec : is_Some (procs1 !! pod_id) /\
                 delete pod_id procs1 = delete pod_id procs0).
  { destruct Ho as [(e & [=] & _)
                   | [(? & ? & _ & _ & _ & -> & Hsome) | (? & ? & _ & _ & ->)]].
    - done.
    - split; [rewrite lookup_insert_eq; by eexists |].
      apply delete_insert_eq. }
  destruct Hrec as [[info Hinfo] Hdel].
  pose proof (stop_outcome h pod_id procs1 w1) as [Hs _]. cbn zeta in Hs.
  rewrite Hinfo, Hstop in Hs. cbn [fst snd] in Hs.
  destruct Hs as [[Hres ->] | (e & [=] & _)].
  split; [by destruct Hres as [[= ->] | [= ->]] |].
  split; [done |]. intros Hnone. rewrite Hdel. by apply delete_id.
Qed.

(** X8 on the host of [Examples] with an empty registry: tenant [t1] is
    started as pid 5000 and stopped again. *)
Lemma stop_after_start_witness :
  let r1 := run_M Host.step
              (ProcessManager.start_tenant "t1" "alice" 8188 ∅)
              ∅ (Examples.serving 200) in
  let r2 := run_M Host.step (ProcessManager.stop_tenant "t1")
              r1.1.1.2 r1.1.2 in
  r1.1.1.1 = Return (ProcessManager.started 8188 5000 "/workspace/t1") /\
  r2.1.1.1 = Return ProcessManager.stopped /\
  r2.1.1.2 = ∅.
Proof.
  intros r1 r2.
  destruct (stop_after_start_restores_the_registry _ Host.step
              (Examples.serving 200) r1.1.2 r2.1.2 r1.2 r2.2
              ∅ r1.1.1.2 r2.1.1.2 "t1" "alice" 8188 ∅
              (ProcessManager.started 8188 5000 "/workspace/t1")
              ProcessManager.stopped)
    as (_ & _ & Hsame);
    [vm_compute; reflexivity | vm_compute; reflexivity |].
  split; [vm_compute; reflexivity |]. split; [vm_compute; reflexivity |].
  by apply Hsame.
Defined.

(** ** The POST handlers, on every request *)

(** X10.  [handle_stop_request] on a JSON object: when [POD_ID] is missing
    or falsy the answer is 400 and nothing at all is called; otherwise the
    handler does exactly what the stop operation does on that id, and
    answers 200 with its result, or 500 when it raised. *)
Theorem stop_request_forwards_or_rejects :
  forall (W : Type) (h : handler W) (w : W)
         (procs : gmap string process_info)
         (stop_op : json -> M ProcessManager.stop_result)
         (l : list (string * json)),
    let pod_id := default JNull (dict_lookup "POD_ID" l) in
    let request :=
      MetricsHandler.handle_stop_request stop_op (Some (JDict l)) in
    if json_truthy pod_id then
      let r := run_M h (stop_op pod_id) procs w in
      run_M h request procs w
      = (Return match r.1.1.1 with
                | Return res => send_json 200 (stop_body res)
                | Raise e => send_error 500 (str_exn e)
                end, r.1.1.2, r.1.2, r.2)
    else
      request procs = Ret (Return (send_error 400 "POD_ID required"), procs).
Proof.
  intros W h w procs stop_op l.
  cbn zeta. unfold MetricsHandler.handle_stop_request.
  destruct (json_truthy (default JNull (dict_lookup "POD_ID" l))) eqn:Ht.
  - rewrite run_M_try. cbn zeta. cbn [MetricsHandler.read_body].
    rewrite run_M_bind, run_M_ret. cbn [fst snd]. cbn zeta.
    rewrite run_M_bind. cbn [json_get]. rewrite run_M_ret.
    cbn [fst snd]. cbn zeta. rewrite Ht. cbn [negb].
    rewrite run_M_bind. cbn zeta.
    destruct (run_M h (stop_op (default JNull (dict_lookup "POD_ID" l)))
                procs w) as [[[o s1] w1] t1]. cbn [fst snd].
    destruct o as [res | e]; cbn [fst snd].
    + rewrite run_M_ret. cbn [fst snd]. by rewrite app_nil_r.
    + rewrite run_M_ret. cbn [fst snd]. by rewrite app_nil_r.
  - unfold_M. by rewrite Ht.
Qed.

(** In the embedding, where [send_error] is the call the handler ends
    with: the run of the handler is the run of the start operation, the
    outcome being the response asked for. *)
Lemma handle_start_request_run {W : Type} (h : handler W) (w : W)
  (procs : gmap string process_info)
  (start_op : json -> json -> json -> json -> M ProcessManager.start_result)
  (l : list (string * json)) (pod_id username port : json) :
  dict_lookup "POD_ID" l = Some pod_id ->
  dict_lookup "POD_USERNAME" l = Some username ->
  dict_lookup "PORT" l = Some port ->
  json_truthy pod_id = true ->
  json_truthy username = true ->
  json_truthy port = true ->
  let env_vars := default (JDict []) (dict_lookup "env" l) in
  let r := run_M h (start_op pod_id username port env_vars) procs w in
  run_M h (MetricsHandler.handle_start_request start_op (Some (JDict l)))
    procs w
  = (Return match r.1.1.1 with
            | Return res => send_json 200 (start_body res)
            | Raise e => send_error 500 (str_exn e)
            end, r.1.1.2, r.1.2, r.2).
Proof.
  intros Hid Hname Hport Tid Tname Tport. cbn zeta.
  unfold MetricsHandler.handle_start_request.
  rewrite run_M_try. cbn zeta. cbn [MetricsHandler.read_body].
  rewrite run_M_bind, run_M_ret. cbn [fst snd]. cbn zeta.
  cbn [json_get]. rewrite Hid, Hname, Hport.
  change (default JNull (Some pod_id)) with pod_id.
  change (default JNull (Some username)) with username.
  change (default JNull (Some port)) with port.
  rewrite run_M_bind, run_M_ret. cbn [fst snd]. cbn zeta.
  rewrite run_M_bind, run_M_ret. cbn [fst snd]. cbn zeta.
  rewrite run_M_bind, run_M_ret. cbn [fst snd]. cbn zeta.
  rewrite run_M_bind, run_M_ret. cbn [fst snd]. cbn zeta.
  cbn [forallb]. rewrite Tid, Tname, Tport. cbn [andb negb].
  rewrite run_M_bind. cbn zeta.
  destruct (run_M h (start_op pod_id username port
                       (default (JDict []) (dict_lookup "env" l))) procs w)
    as [[[o s1] w1] t1]. cbn [fst snd].
  destruct o as [res | e]; cbn [fst snd].
  - rewrite run_M_ret. cbn [fst snd]. by rewrite app_nil_r.
  - rewrite run_M_ret. cbn [fst snd]. by rewrite app_nil_r.
Qed.

(** X11.  [handle_start_request] on a request whose three required fields
    are present and truthy: the handler calls the start operation on the
    four values ([env] defaulting to the empty object) and asks nothing
    else of the host: calls, registry and state of the host are those of
    the start operation.  When the operation returns, the answer is 200
    with its result; when it raises, no result is sent (the handler turns
    to [send_error]). *)
Theorem start_request_forwards :
  forall (W : Type) (h : handler W) (w : W)
         (procs : gmap string process_info)
         (start_op : json -> json -> json -> json
                     -> M ProcessManager.start_result)
         (l : list (string * json)) (pod_id username port : json),
    dict_lookup "POD_ID" l = Some pod_id ->
    dict_lookup "POD_USERNAME" l = Some username ->
    dict_lookup "PORT" l = Some port ->
    json_truthy pod_id = true ->
    json_truthy username = true ->
    json_truthy port = true ->
    let env_vars := default (JDict []) (dict_lookup "env" l) in
    let r := run_M h (start_op pod_id username port env_vars) procs w in
    let answer :=
      run_M h (MetricsHandler.handle_start_request start_op (Some (JDict l)))
        procs w in
    answer.1.1.2 = r.1.1.2 /\ answer.1.2 = r.1.2 /\ answer.2 = r.2 /\
    (forall res, r.1.1.1 = Return res ->
                 answer.1.1.1 = Return (send_json 200 (start_body res))) /\
    (forall e, r.1.1.1 = Raise e ->
               forall code b, answer.1.1.1 <> Return (send_json code b)).
Proof.
  intros W h w procs start_op l pod_id username port Hid Hname Hport
    Tid Tname Tport. cbn zeta.
  rewrite (handle_start_request_run h w procs start_op l pod_id username
             port Hid Hname Hport Tid Tname Tport).
  cbn zeta. cbn [fst snd].
  split; [done |]. split; [done |]. split; [done |]. split.
  - by intros res ->.
  - by intros e -> code b.
Qed.

(** X11 on the host of [Examples]: a well-formed request for the healthy
    tenant [t1] is answered with the result of [start_tenant]. *)
Lemma start_request_forwards_witness :
  (run_M Host.step
     (MetricsHandler.handle_start_request MetricsHandler.start_tenant_json
        (Some (JDict [("POD_ID", JStr "t1"); ("POD_USERNAME", JStr "alice");
                      ("PORT", JInt 8188)])))
     Examples.registry (Examples.serving 200)).1.1.1
  = Return (send_json 200
              (start_body (ProcessManager.already_running 8188 4242))).
Proof.
  destruct (start_request_forwards _ Host.step (Examples.serving 200)
              Examples.registry MetricsHandler.start_tenant_json
              [("POD_ID", JStr "t1"); ("POD_USERNAME", JStr "alice");
               ("PORT", JInt 8188)]
              (JStr "t1") (JStr "alice") (JInt 8188)
              eq_refl eq_refl eq_refl eq_refl eq_refl eq_refl)
    as (_ & _ & _ & Hret & _).
  apply Hret. vm_compute. reflexivity.
Defined.

(** X12.  [handle_execute_request] is contained: whatever the request and
    the host, it answers (no exception leaves it), leaves the registry as
    it was, sends no signal, does not sleep, starts no tenant and starts
    at most one process; a JSON object without a truthy [command] is
    answered with 400 and a body that is no JSON object with 500, both
    without any call. *)
Theorem execute_request_is_contained :
  forall (W : Type) (h : handler W) (w : W)
         (procs : gmap string process_info) (post_data : option json),
    let request := MetricsHandler.handle_execute_request post_data in
    let r := run_M h request procs w in
    (exists resp, r.1.1.1 = Return resp) /\
    r.1.1.2 = procs /\
    signals r.2 = [] /\ naps r.2 = [] /\ spawned r.2 = [] /\
    (length (List.filter is_spawn r.2) <= 1)%nat /\
    match post_data with
    | Some (JDict l) =>
        if json_truthy (default JNull (dict_lookup "command" l)) then True
        else request procs
             = Ret (Return (send_error 400 "command required"), procs)
    | _ => exists message,
        request procs = Ret (Return (send_error 500 message), procs)
    end.
Proof.
  intros W h w procs post_data.
  cbn zeta. unfold MetricsHandler.handle_execute_request,
    ProcessManager.subprocess_run.
  destruct post_data as [data |]; [| unfold_M; by eauto 10].
  destruct data as [| b | n | s | l | l]; try (unfold_M; by eauto 10).
  destruct (json_truthy (default JNull (dict_lookup "command" l))) eqn:Ht;
    [| unfold_M; rewrite Ht; cbn; by eauto 10].
  unfold_M. rewrite Ht. cbn.
  destruct (MetricsHandler.shell_args (default JNull (dict_lookup "command" l)))
    as [args |]; cbn; [| by eauto 10].
  destruct (h _ (Popen args true None false) w) as [[child | e] w1]; cbn;
    [| destruct e; cbn; repeat split; eauto; cbn; lia].
  destruct (h _ (communicate child (Some 300)) w1) as [[result | e] w2]; cbn;
    [repeat split; eauto; cbn; lia |].
  destruct (h _ (kill child) w2) as [[] w3]; cbn.
  destruct (h _ (wait child) w3) as [[] w4]; cbn.
  destruct e; cbn; repeat split; eauto; cbn; lia.
Qed.

(** X13.  A body that is no JSON object (not decodable, or a list, a
    string, a number, ...) is answered with 500 by the start and by the
    stop handler, without any call to the process manager or to the
    host, and with the registry as it was. *)
Theorem body_that_is_no_object_is_answered_500 :
  forall (start_op : json -> json -> json -> json
                     -> M ProcessManager.start_result)
         (stop_op : json -> M ProcessManager.stop_result)
         (procs : gmap string process_info) (post_data : option json),
    (forall l, post_data <> Some (JDict l)) ->
    exists message,
      MetricsHandler.handle_start_request start_op post_data procs
      = Ret (Return (send_error 500 message), procs) /\
      MetricsHandler.handle_stop_request stop_op post_data procs
      = Ret (Return (send_error 500 message), procs).
Proof.
  intros start_op stop_op procs post_data Hno.
  unfold MetricsHandler.handle_start_request,
    MetricsHandler.handle_stop_request.
  destruct post_data as [data |]; [| unfold_M; by eauto].
  destruct data as [| b | n | s | l | l]; try (unfold_M; by eauto).
  by destruct (Hno l).
Qed.

(** X13 on a body that is a list. *)
Lemma body_that_is_no_object_witness :
  exists message,
    MetricsHandler.handle_start_request MetricsHandler.start_tenant_json
      (Some (JList [JStr "t1"])) Examples.registry
    = Ret (Return (send_error 500 message), Examples.registry) /\
    MetricsHandler.handle_stop_request MetricsHandler.stop_tenant_json
      (Some (JList [JStr "t1"])) Examples.registry
    = Ret (Return (send_error 500 message), Examples.registry).
Proof.
  apply (body_that_is_no_object_is_answered_500
           MetricsHandler.start_tenant_json MetricsHandler.stop_tenant_json
           Examples.registry (Some (JList [JStr "t1"]))).
  intros l. discriminate.
Defined.

(** ** load_processes, on every host *)



(** ** send_tenants_response *)

Lemma status_partition (l : list ProcessManager.tenant_info) :
  length l
  = (length (List.filter (MetricsHandler.has_status ProcessManager.healthy) l)
     + length (List.filter (MetricsHandler.has_status ProcessManager.unhealthy) l)
     + length (List.filter (MetricsHandler.has_status ProcessManager.dead) l))%nat.
Proof.
  induction l as [| t l IH]; [done |]. cbn [List.filter].
  unfold MetricsHandler.has_status in *.
  destruct (ProcessManager.t_status t); cbn [length]; lia.
Qed.

Lemma entries_status (items : list (string * process_info))
  (l : list ProcessManager.tenant_info) :
  Forall2 (fun kv t => entry_of kv.1 kv.2 t) items l ->
  List.filter (MetricsHandler.has_status ProcessManager.healthy) l
  = List.filter ProcessManager.t_service_healthy l /\
  List.filter (MetricsHandler.has_status ProcessManager.dead) l
  = List.filter (fun t => negb (ProcessManager.t_process_alive t)) l.
Proof.
  induction 1 as [| kv t items l Ht _ [IH1 IH2]]; [done |].
  cbn [List.filter]. rewrite IH1, IH2.
  destruct Ht as (_ & _ & _ & _ & _ & Hst & Hal & _).
  unfold MetricsHandler.has_status. rewrite Hst.
  destruct (ProcessManager.t_process_alive t),
    (ProcessManager.t_service_healthy t); try done.
  by specialize (Hal eq_refl).
Qed.

(** X15.  [send_tenants_response] on every host, for a registry whose pids
    are in the range of [psutil.pid_exists]: it produces its document from
    the list of [get_tenant_info], whose flags are the host's answers;
    [total_tenants] is the number of records in the registry as the call
    leaves it, and is the sum of the three other counts;
    [healthy_tenants] counts the entries whose service was found healthy
    and [dead_tenants] those whose process was not found. *)
Theorem tenants_summary_counts_the_registry :
  forall (W : Type) (h : handler W) (w : W)
         (procs : gmap string process_info),
    pids_in_range procs ->
    let r := run_M h MetricsHandler.send_tenants_response procs w in
    exists data,
      r.1.1.1 = Return data /\
      let s := MetricsHandler.tenants_summary data in
      let l := MetricsHandler.tenants data in
      MetricsHandler.total_tenants s = size r.1.1.2 /\
      MetricsHandler.total_tenants s
      = (MetricsHandler.healthy_tenants s
         + MetricsHandler.unhealthy_tenants s
         + MetricsHandler.dead_tenants s)%nat /\
      MetricsHandler.healthy_tenants s
      = length (List.filter ProcessManager.t_service_healthy l) /\
      MetricsHandler.dead_tenants s
      = length (List.filter
                  (fun t => negb (ProcessManager.t_process_alive t)) l) /\
      Forall2 (fun kv t => entry_of kv.1 kv.2 t) (map_to_list r.1.1.2) l /\
      Forall (reported_from r.2) l.
Proof.
  intros W h w procs _. cbn zeta.
  unfold MetricsHandler.send_tenants_response.
  rewrite run_M_bind. cbn zeta.
  pose proof (get_tenant_info_run W h w procs) as Hg. cbn zeta in Hg.
  pose proof (get_tenant_info_reported h w procs) as Hr. cbn zeta in Hr.
  destruct (run_M h ProcessManager.get_tenant_info procs w)
    as [[[o procs'] w1] tr1]. cbn [fst snd] in *.
  destruct Hg as (l & -> & _ & Hall & _).
  destruct (Hr l eq_refl) as [Hrep _].
  rewrite run_M_bind, run_M_os. cbn [fst snd]. cbn zeta.
  rewrite run_M_ret. cbn [fst snd].
  eexists. split; [reflexivity |].
  cbn [MetricsHandler.tenants_summary MetricsHandler.tenants
       MetricsHandler.total_tenants MetricsHandler.healthy_tenants
       MetricsHandler.unhealthy_tenants MetricsHandler.dead_tenants].
  destruct (entries_status _ _ Hall) as [-> ->].
  split.
  { rewrite <- (Forall2_length _ _ _ Hall). apply length_map_to_list. }
  split.
  { rewrite (status_partition l).
    by destruct (entries_status _ _ Hall) as [-> ->]. }
  split; [done |]. split; [done |]. split; [done |].
  eapply Forall_impl; [exact Hrep |]. intros t Ht.
  eapply reported_from_mono; [| exact Ht].
  intros e He. apply elem_of_app. by left.
Qed.

(** X15 on the host of [Examples]: one tenant is counted, the record of
    [t3] having been pruned. *)
Lemma tenants_summary_witness :
  let r := run_M Host.step MetricsHandler.send_tenants_response
             Examples.registry_with_stale (Examples.serving 204) in
  exists data,
    r.1.1.1 = Return data /\
    MetricsHandler.total_tenants (MetricsHandler.tenants_summary data)
    = 1%nat /\
    Forall (reported_from r.2) (MetricsHandler.tenants data).
Proof.
  intros r.
  destruct (tenants_summary_counts_the_registry _ Host.step
              (Examples.serving 204) Examples.registry_with_stale
              example_pids_in_range)
    as (data & Hret & Htotal & _ & _ & _ & _ & Hrep).
  exists data. split; [exact Hret |]. split; [| exact Hrep].
  rewrite Htotal. vm_compute. reflexivity.
Defined.

(** ** The environment of a tenant *)

Lemma no_spawn_no_env (tr : list event) :
  forallb (fun e => negb (is_spawn e)) tr = true -> tenant_envs tr = [].
Proof.
  unfold tenant_envs. induction tr as [| e tr IH]; [done |]. cbn.
  intros [He Htr]%andb_prop. rewrite (IH Htr).
  destruct e as [X c x]. by destruct c.
Qed.

Lemma housekeeping_no_env (tr : list event) :
  forallb housekeeping tr = true -> tenant_envs tr = [].
Proof.
  unfold tenant_envs. induction tr as [| e tr IH]; [done |]. cbn.
  intros [He Htr]%andb_prop. rewrite (IH Htr).
  unfold housekeeping in He.
  destruct (signal_of e), (nap_of e), (spawn_of e); try discriminate.
  apply andb_prop in He as [_ He].
  destruct e as [X c x]. destruct c; try done.
  cbn in He. destruct setsid; [done |]. by destruct env.
Qed.

(** A [spawn_tenant] that returns has started the start script once, with
    the overlay of the caller's variables over the four of the tenant over
    the environment of the supervisor. *)
Lemma spawn_tenant_env {W : Type} (h : handler W)
  pod_id username port env_vars s w r s' w' tr :
  run_M h (ProcessManager.spawn_tenant pod_id username port env_vars) s w
  = (Return r, s', w', tr) ->
  exists environ,
    let network_volume :=
      default ("/workspace/" +:+ pod_id) (env_vars !! "NETWORK_VOLUME") in
    Ev environ_copy environ ∈ tr /\
    tenant_envs tr
    = [(["/bin/bash"; "/scripts/start_tenant.sh"],
        env_vars ∪
        (<["POD_ID" := pod_id]> (<["POD_USER_NAME" := username]>
          (<["NETWORK_VOLUME" := network_volume]>
            (<["COMFYUI_PORT" := pretty port]> environ)))))].
Proof.
  unfold ProcessManager.spawn_tenant. intros H.
  apply bind_returned in H as (? & s1 & w1 & t1 & ? & H1 & H & ->).
  apply os_try_returned in H1 as (_ & -> & ->).
  apply bind_returned in H as (environ & s2 & w2 & t2 & ? & H1 & H & ->).
  apply os_returned in H1 as (_ & -> & ->).
  apply bind_returned in H as (? & s3 & w3 & t3 & ? & H1 & H & ->).
  pose proof (emitted_run H1 (setup_scripts_housekeeping _)) as Hk.
  apply housekeeping_no_env in Hk as Hk1.
  apply bind_returned in H as (pid & s4 & w4 & t4 & ? & H1' & H & ->).
  apply os_try_returned in H1' as (_ & -> & ->).
  apply bind_returned in H as (now & s5 & w5 & t5 & ? & H1' & H & ->).
  apply os_returned in H1' as (_ & -> & ->).
  apply bind_returned in H as (? & s6 & w6 & t6 & ? & H1' & H & ->).
  rewrite run_M_get in H1'. injection H1' as <- <- <- <-.
  apply bind_returned in H as (? & s7 & w7 & t7 & ? & H1' & H & ->).
  rewrite run_M_set in H1'. injection H1' as _ <- <- <-.
  apply bind_returned in H as (? & s8 & w8 & t8 & ? & H2 & H & ->).
  pose proof (emitted_run H2 save_housekeeping) as Hk2.
  apply housekeeping_no_env in Hk2.
  apply bind_returned in H as (? & s9 & w9 & t9 & ? & H3 & H & ->).
  pose proof (emitted_run H3 (cloudwatch_housekeeping _ _)) as Hk3.
  apply housekeeping_no_env in Hk3.
  rewrite run_M_ret in H. injection H as <- <- <- <-.
  exists environ. cbn zeta. split.
  - apply elem_of_app. right. apply elem_of_app. left. apply list_elem_of_here.
  - unfold tenant_envs in *.
    rewrite !observe_app, Hk1, Hk2, Hk3. by cbn.
Qed.

(** X16.  The environment of a started tenant.  When [start_tenant] returns
    [started], the start script was started exactly once as a new group
    leader, and its environment is the supervisor's environment (as
    [os.environ.copy] gave it) under the four variables of the tenant under
    the variables of the caller: every variable of the caller has the
    caller's value, also [POD_ID], [POD_USER_NAME] and [COMFYUI_PORT];
    [NETWORK_VOLUME] is the workspace that is returned; the three others
    have the values of the call unless the caller set them; and all other
    variables are those of the supervisor. *)
Theorem tenant_is_started_with_its_environment :
  forall (W : Type) (h : handler W) (w w' : W) (tr : list event)
         (procs procs' : gmap string process_info)
         (pod_id username : string) (port : Z)
         (env_vars : gmap string string) (pid : Z) (network_volume : string),
    run_M h (ProcessManager.start_tenant pod_id username port env_vars)
      procs w
    = (Return (ProcessManager.started port pid network_volume),
       procs', w', tr) ->
    exists environ env,
      Ev environ_copy environ ∈ tr /\
      tenant_envs tr = [(["/bin/bash"; "/scripts/start_tenant.sh"], env)] /\
      (forall k v, env_vars !! k = Some v -> env !! k = Some v) /\
      env !! "NETWORK_VOLUME" = Some network_volume /\
      (env_vars !! "POD_ID" = None -> env !! "POD_ID" = Some pod_id) /\
      (env_vars !! "POD_USER_NAME" = None ->
       env !! "POD_USER_NAME" = Some username) /\
      (env_vars !! "COMFYUI_PORT" = None ->
       env !! "COMFYUI_PORT" = Some (pretty port)) /\
      (forall k,
          k ∉ ["POD_ID"; "POD_USER_NAME"; "NETWORK_VOLUME"; "COMFYUI_PORT"] ->
          env_vars !! k = None -> env !! k = environ !! k).
Proof.
  intros W h w w' tr procs procs' pod_id username port env_vars pid
    network_volume Hrun.
  unfold ProcessManager.start_tenant in Hrun.
  apply bind_returned in Hrun as (early & s1 & w1 & t1 & t2 & Hc & Hrun & ->).
  pose proof (emitted_run Hc (check_existing_spawns_nothing _)) as Hno.
  apply no_spawn_no_env in Hno.
  destruct early as [r |].
  { destruct (check_existing_early h _ _ _ _ _ _ _ Hc) as (p & pid' & ->).
    by rewrite run_M_ret in Hrun. }
  pose proof (spawn_tenant_returned h _ _ _ _ _ _ _ _ _ _ Hrun)
    as (pid' & now & Hr & _). cbn zeta in Hr. injection Hr as <- Hnv.
  destruct (spawn_tenant_env h _ _ _ _ _ _ _ _ _ _ Hrun)
    as (environ & Hin & Henv). cbn zeta in Henv. rewrite <- Hnv in Henv.
  eexists environ, _. split; [apply elem_of_app; by right |].
  split.
  { unfold tenant_envs in *. rewrite observe_app, Hno. exact Henv. }
  split.
  { intros k v Hk. by apply lookup_union_Some_l. }
  split.
  { rewrite Hnv. destruct (env_vars !! "NETWORK_VOLUME") as [nv |] eqn:E.
    - by apply lookup_union_Some_l.
    - rewrite lookup_union_r by done. by simplify_map_eq. }
  split; [intros E; rewrite lookup_union_r by done; by simplify_map_eq |].
  split; [intros E; rewrite lookup_union_r by done; by simplify_map_eq |].
  split; [intros E; rewrite lookup_union_r by done; by simplify_map_eq |].
  intros k Hk E. rewrite lookup_union_r by done.
  rewrite !elem_of_cons, elem_of_nil in Hk.
  rewrite !lookup_insert_ne by naive_solver. done.
Qed.

(** X16 on the host of [Examples]: tenant [t2] is started for [bob] with
    the caller's [COMFYUI_PORT], not the port of the call. *)
Lemma tenant_environment_witness :
  let env_vars : gmap string string := {[ "COMFYUI_PORT" := "9000" ]} in
  let r := run_M Host.step
             (ProcessManager.start_tenant "t2" "bob" 8189 env_vars)
             Examples.registry (Examples.serving 200) in
  exists env,
    tenant_envs r.2 = [(["/bin/bash"; "/scripts/start_tenant.sh"], env)] /\
    env !! "COMFYUI_PORT" = Some "9000" /\
    env !! "POD_ID" = Some "t2" /\
    env !! "NETWORK_VOLUME" = Some "/workspace/t2".
Proof.
  intros env_vars r.
  destruct (tenant_is_started_with_its_environment _ Host.step
              (Examples.serving 200) r.1.2 r.2 Examples.registry r.1.1.2
              "t2" "bob" 8189 env_vars 5000 "/workspace/t2")
    as (environ & env & _ & Henv & Hcaller & Hnv & Hid & _);
    [vm_compute; reflexivity |].
  exists env. split; [exact Henv |].
  split; [by apply Hcaller |]. split; [by apply Hid | exact Hnv].
Defined.

(** ** The scripts of a tenant *)

Lemma subprocess_run_no_links {W : Type} (h : handler W)
  args shell timeout s w :
  links (run_M h (ProcessManager.subprocess_run args shell timeout) s w).2
  = [].
Proof.
  unfold ProcessManager.subprocess_run. unfold_M.
  destruct (h _ (Popen args shell None false) w) as [[child | e] w1]; cbn;
    [| done].
  destruct (h _ (communicate child timeout) w1) as [[res | e] w2]; cbn;
    [done |].
  destruct (h _ (kill child) w2) as [[] w3]; cbn.
  by destruct (h _ (wait child) w3) as [[] w4].
Qed.

(** The loop over the shared scripts: whatever is linked is a file of the
    list whose name ends in [.sh], linked from the source directory to the
    same name in the target directory, after [os.path.exists] answered
    [False] for the target. *)
Lemma link_scripts_run {W : Type} (h : handler W)
  (source_scripts_dir scripts_dir : string) (files : list string) s w :
  let r := run_M h (ProcessManager.link_scripts source_scripts_dir
                      scripts_dir files) s w in
  forall src dst, (src, dst) ∈ links r.2 ->
    exists f, f ∈ files /\ ProcessManager.endswith f ".sh" = true /\
              src = ProcessManager.path_join source_scripts_dir f /\
              dst = ProcessManager.path_join scripts_dir f /\
              Ev (path_exists dst) false ∈ r.2.
Proof.
  cbn zeta. revert s w. induction files as [| f files IH]; intros s w.
  { cbn. intros src dst Hin. by apply elem_of_nil in Hin. }
  cbn [ProcessManager.link_scripts]. rewrite run_M_bind. cbn zeta.
  set (block := if ProcessManager.endswith f ".sh" then _ else _).
  assert (Hblock :
    links (run_M h block s w).2 = [] \/
    (ProcessManager.endswith f ".sh" = true /\
     links (run_M h block s w).2
     = [(ProcessManager.path_join source_scripts_dir f,
         ProcessManager.path_join scripts_dir f)] /\
     Ev (path_exists (ProcessManager.path_join scripts_dir f)) false
       ∈ (run_M h block s w).2)).
  { subst block. destruct (ProcessManager.endswith f ".sh"); [| by left].
    rewrite run_M_bind, run_M_os. cbn [fst snd]. cbn zeta.
    destruct (h _ (path_exists (ProcessManager.path_join scripts_dir f)) w)
      as [[] w1]; cbn [fst snd].
    { rewrite run_M_ret. by left. }
    right. split; [done |]. split; [| apply list_elem_of_here].
    rewrite run_M_try. cbn zeta. rewrite run_M_os_try.
    destruct (h _ (symlink (ProcessManager.path_join source_scripts_dir f)
                     (ProcessManager.path_join scripts_dir f)) w1)
      as [[[] | e] w2]; cbn [fst snd]; [done |].
    destruct (is_OSError e); [| done].
    rewrite run_M_bind. cbn zeta.
    pose proof (subprocess_run_no_links h
      ["cp"; ProcessManager.path_join source_scripts_dir f;
       ProcessManager.path_join scripts_dir f] false None s w2) as Hcp.
    destruct (run_M h (ProcessManager.subprocess_run _ false None) s w2)
      as [[[o s3] w3] t3]. cbn [fst snd] in *.
    unfold links in *. destruct o; cbn [fst snd].
    - rewrite run_M_ret. cbn. by rewrite !observe_app, Hcp.
    - cbn. by rewrite Hcp. }
  destruct (run_M h block s w) as [[[o s1] w1] t1]. cbn [fst snd] in *.
  assert (Hhere : forall src dst, (src, dst) ∈ links t1 ->
    ProcessManager.endswith f ".sh" = true /\
    src = ProcessManager.path_join source_scripts_dir f /\
    dst = ProcessManager.path_join scripts_dir f /\
    Ev (path_exists dst) false ∈ t1).
  { intros src dst Hin. destruct Hblock as [E | (He & E & Hex)];
      rewrite E in Hin; [by apply elem_of_nil in Hin |].
    apply list_elem_of_singleton in Hin as [= -> ->]. done. }
  destruct o as [[] | e]; cbn [fst snd].
  - intros src dst Hin. unfold links in Hin. rewrite observe_app in Hin.
    apply elem_of_app in Hin as [Hin | Hin].
    + destruct (Hhere src dst Hin) as (He & -> & -> & Hex).
      exists f. split; [apply list_elem_of_here |].
      repeat split; try done. apply elem_of_app. by left.
    + destruct (IH s1 w1 src dst Hin) as (f' & Hf & He & -> & -> & Hex).
      exists f'. split; [by apply list_elem_of_further |].
      repeat split; try done. apply elem_of_app. by right.
  - intros src dst Hin.
    destruct (Hhere src dst Hin) as (He & -> & -> & Hex).
    exists f. split; [apply list_elem_of_here |]. done.
Qed.

Lemma observe_elem_of {A : Type} (f : event -> option A) (tr : list event)
  (e : event) (a : A) :
  e ∈ tr -> f e = Some a -> a ∈ observe f tr.
Proof.
  induction tr as [| e0 tr IH]; intros He Hf.
  - by apply elem_of_nil in He.
  - apply elem_of_cons in He as [<- | He]; cbn.
    + rewrite Hf. apply list_elem_of_here.
    + destruct (f e0); [apply list_elem_of_further |]; by apply IH.
Qed.

(** [subprocess.run] starts one process, the one it is asked for. *)
Lemma subprocess_run_spawns {W : Type} (h : handler W)
  args shell timeout s w :
  forall e,
    e ∈ (run_M h (ProcessManager.subprocess_run args shell timeout) s w).2 ->
    is_spawn e = true ->
    exists x, e = Ev (Popen args shell None false) x.
Proof.
  unfold ProcessManager.subprocess_run. unfold_M.
  destruct (h _ (Popen args shell None false) w) as [[child | err] w1]; cbn.
  2:{ intros e ->%list_elem_of_singleton _. by eexists. }
  destruct (h _ (communicate child timeout) w1) as [[res | err] w2]; cbn.
  { intros e He Hs. rewrite !elem_of_cons, elem_of_nil in He.
    destruct He as [-> | [-> | []]]; [by eexists | done]. }
  destruct (h _ (kill child) w2) as [[] w3]; cbn.
  destruct (h _ (wait child) w3) as [[] w4]; cbn.
  intros e He Hs. rewrite !elem_of_cons, elem_of_nil in He.
  destruct He as [-> | [-> | [-> | [-> | []]]]]; try done. by eexists.
Qed.

(** The loop over the shared scripts starts no process but [cp], from the
    source to the target of a link that was asked for and failed with an
    [OSError]. *)
Lemma link_scripts_copies {W : Type} (h : handler W)
  (source_scripts_dir scripts_dir : string) (files : list string) s w :
  let r := run_M h (ProcessManager.link_scripts source_scripts_dir
                      scripts_dir files) s w in
  forall e, e ∈ r.2 -> is_spawn e = true ->
    exists src dst x err,
      e = Ev (Popen ["cp"; src; dst] false None false) x /\
      Ev (symlink src dst) (Err err) ∈ r.2 /\ is_OSError err = true.
Proof.
  cbn zeta. revert s w. induction files as [| f files IH]; intros s w.
  { cbn. intros e He. by apply elem_of_nil in He. }
  cbn [ProcessManager.link_scripts]. rewrite run_M_bind. cbn zeta.
  set (block := if ProcessManager.endswith f ".sh" then _ else _).
  assert (Hblock : forall e, e ∈ (run_M h block s w).2 -> is_spawn e = true ->
    exists src dst x err,
      e = Ev (Popen ["cp"; src; dst] false None false) x /\
      Ev (symlink src dst) (Err err) ∈ (run_M h block s w).2 /\
      is_OSError err = true).
  { subst block. destruct (ProcessManager.endswith f ".sh").
    2:{ intros e He. by apply elem_of_nil in He. }
    rewrite run_M_bind, run_M_os. cbn [fst snd]. cbn zeta.
    destruct (h _ (path_exists (ProcessManager.path_join scripts_dir f)) w)
      as [[] w1]; cbn [fst snd].
    { rewrite run_M_ret. cbn.
      intros e ->%list_elem_of_singleton. done. }
    rewrite run_M_try. cbn zeta. rewrite run_M_os_try.
    destruct (h _ (symlink (ProcessManager.path_join source_scripts_dir f)
                     (ProcessManager.path_join scripts_dir f)) w1)
      as [[[] | err] w2]; cbn [fst snd].
    { intros e He Hs. cbn in He. rewrite !elem_of_cons, elem_of_nil in He.
      destruct He as [-> | [-> | []]]; done. }
    destruct (is_OSError err) eqn:Herr.
    2:{ intros e He Hs. cbn in He. rewrite !elem_of_cons, elem_of_nil in He.
        destruct He as [-> | [-> | []]]; done. }
    rewrite run_M_bind. cbn zeta.
    pose proof (subprocess_run_spawns h
      ["cp"; ProcessManager.path_join source_scripts_dir f;
       ProcessManager.path_join scripts_dir f] false None s w2) as Hcp.
    destruct (run_M h (ProcessManager.subprocess_run _ false None) s w2)
      as [[[o s3] w3] t3]. cbn [fst snd] in *.
    assert (Hin : forall e, e ∈ t3 -> is_spawn e = true ->
      exists src dst x err0,
        e = Ev (Popen ["cp"; src; dst] false None false) x /\
        Ev (symlink src dst) (Err err0)
          ∈ Ev (path_exists (ProcessManager.path_join scripts_dir f)) false
            :: Ev (symlink (ProcessManager.path_join source_scripts_dir f)
                     (ProcessManager.path_join scripts_dir f)) (Err err)
            :: t3 /\
        is_OSError err0 = true).
    { intros e He Hs. destruct (Hcp e He Hs) as [x ->].
      eexists _, _, x, err. split; [done |]. split; [| done].
      apply list_elem_of_further, list_elem_of_here. }
    destruct o as [r0 | err0]; cbn [fst snd].
    - rewrite run_M_ret. cbn [fst snd]. rewrite app_nil_r. cbn.
      intros e He Hs. rewrite !elem_of_cons in He.
      destruct He as [-> | [-> | He]]; try done. by apply Hin.
    - cbn. intros e He Hs. rewrite !elem_of_cons in He.
      destruct He as [-> | [-> | He]]; try done. by apply Hin. }
  destruct (run_M h block s w) as [[[o s1] w1] t1]. cbn [fst snd] in *.
  destruct o as [[] | err]; cbn [fst snd]; [| done].
  intros e He Hs. apply elem_of_app in He as [He | He].
  - destruct (Hblock e He Hs) as (src & dst & x & err & -> & Hl & Herr).
    exists src, dst, x, err. split; [done |]. split; [| done].
    apply elem_of_app. by left.
  - destruct (IH s1 w1 e He Hs) as (src & dst & x & err & -> & Hl & Herr).
    exists src, dst, x, err. split; [done |]. split; [| done].
    apply elem_of_app. by right.
Qed.

(** X17.  [_setup_tenant_scripts] leaves the registry as it was, and links
    nothing but shell scripts: every link it asks for is from a file of
    [/scripts] (as [os.listdir] gave them) whose name ends in [.sh] to the
    same name in the [scripts] directory of the workspace, and is asked
    for only after [os.path.exists] answered [False] for the target.  The
    only process it starts is [cp], from the source to the target of such
    a link that failed with an [OSError]; the copy writes the target,
    whatever is there by then. *)
Theorem only_missing_shell_scripts_are_linked :
  forall (W : Type) (h : handler W) (w : W)
         (procs : gmap string process_info) (network_volume : string),
    let r := run_M h (ProcessManager._setup_tenant_scripts network_volume)
               procs w in
    r.1.1.2 = procs /\
    (forall src dst, (src, dst) ∈ links r.2 ->
       exists files f,
         Ev (listdir "/scripts") (Ok files) ∈ r.2 /\
         f ∈ files /\ ProcessManager.endswith f ".sh" = true /\
         src = ProcessManager.path_join "/scripts" f /\
         dst = ProcessManager.path_join
                 (ProcessManager.path_join network_volume "scripts") f /\
         Ev (path_exists dst) false ∈ r.2) /\
    (forall e, e ∈ r.2 -> is_spawn e = true ->
       exists src dst x err,
         e = Ev (Popen ["cp"; src; dst] false None false) x /\
         (src, dst) ∈ links r.2 /\
         Ev (symlink src dst) (Err err) ∈ r.2 /\ is_OSError err = true).
Proof.
  intros W h w procs network_volume. cbn zeta.
  split; [apply setup_scripts_preserves |].
  unfold ProcessManager._setup_tenant_scripts.
  rewrite run_M_bind, run_M_os_try. cbn [fst snd]. cbn zeta.
  destruct (h _ (makedirs (ProcessManager.path_join network_volume "scripts"))
              w) as [[[] | e] w1]; cbn [fst snd].
  2:{ split.
      - intros src dst Hin. by apply elem_of_nil in Hin.
      - by intros e0 ->%list_elem_of_singleton. }
  rewrite run_M_bind, run_M_os_try. cbn [fst snd]. cbn zeta.
  destruct (h _ (listdir "/scripts") w1) as [[files | e] w2]; cbn [fst snd].
  2:{ split.
      - intros src dst Hin. by apply elem_of_nil in Hin.
      - intros e0 He. cbn in He. rewrite !elem_of_cons, elem_of_nil in He.
        by destruct He as [-> | [-> | []]]. }
  pose proof (link_scripts_run h "/scripts"
                (ProcessManager.path_join network_volume "scripts")
                files procs w2) as Hl. cbn zeta in Hl.
  pose proof (link_scripts_copies h "/scripts"
                (ProcessManager.path_join network_volume "scripts")
                files procs w2) as Hc. cbn zeta in Hc.
  destruct (run_M h (ProcessManager.link_scripts _ _ files) procs w2)
    as [[[o s3] w3] t3]. cbn [fst snd] in *.
  split.
  - intros src dst Hin. unfold links in Hin.
    rewrite !observe_app in Hin. cbn in Hin.
    destruct (Hl src dst Hin) as (f & Hf & He & -> & -> & Hex).
    exists files, f. split.
    { apply elem_of_app. right. apply elem_of_app. left.
      apply list_elem_of_here. }
    repeat split; try done.
    apply elem_of_app. right. apply elem_of_app. by right.
  - intros e He Hs. cbn in He. rewrite !elem_of_cons in He.
    destruct He as [-> | [-> | He]]; try done.
    destruct (Hc e He Hs) as (src & dst & x & err & -> & Hin & Herr).
    exists src, dst, x, err. split; [done |]. split; [| split; [| done]].
    + apply (observe_elem_of link_of _ (Ev (symlink src dst) (Err err)));
        [| done].
      by do 2 apply list_elem_of_further.
    + by do 2 apply list_elem_of_further.
Qed.

(** ** The registry file mirrors the registry in memory *)

(** On the concrete host, a call that writes no file leaves the registry
    file alone. *)
Lemma host_step_frame {X : Type} (c : call X) (w : Host.t) :
  keeps_files (Ev c (Host.step X c w).1) = true ->
  Host.read_only (Host.step X c w).2 = Host.read_only w /\
  Host.registry_file (Host.step X c w).2 = Host.registry_file w.
Proof.
  destruct c; cbn; try done; intros _; repeat case_match; by cbn.
Qed.

Lemma host_frame {R : Type} (p : prog R) (w : Host.t) :
  forallb keeps_files (run Host.step p w).2 = true ->
  Host.read_only (run Host.step p w).1.2 = Host.read_only w /\
  Host.registry_file (run Host.step p w).1.2 = Host.registry_file w.
Proof.
  revert w. induction p as [r | X c k IH]; intros w; [done |].
  cbn [run]. cbn zeta. cbn [fst snd forallb].
  intros [Hc Hk]%andb_prop.
  destruct (host_step_frame c w Hc) as [<- <-]. by apply IH.
Qed.

(** Methods after which the file holds the registry again, if it did
    before; and methods after which it does in any case. *)
Definition keeps_mirror {R : Type} (m : M R) : Prop :=
  forall s w, mirrored s w ->
    mirrored (run_M Host.step m s w).1.1.2 (run_M Host.step m s w).1.2.

Definition restores_mirror {R : Type} (m : M R) : Prop :=
  forall s w, Host.read_only w = false ->
    mirrored (run_M Host.step m s w).1.1.2 (run_M Host.step m s w).1.2.

Lemma quiet_keeps_mirror {R : Type} (m : M R) :
  preserves_registry m -> emits keeps_files m -> keeps_mirror m.
Proof.
  intros Hs Hq s w [Hro Hfile].
  specialize (Hs Host.t Host.step s w). specialize (Hq Host.t Host.step s w).
  unfold run_M in *. cbn [fst snd] in *.
  destruct (host_frame (m s) w Hq) as [Hro' Hfile'].
  split; congruence.
Qed.

Lemma restores_keeps_mirror {R : Type} (m : M R) :
  restores_mirror m -> keeps_mirror m.
Proof. intros Hm s w [Hro _]. by apply Hm. Qed.

Lemma keeps_mirror_bind {A B : Type} (m : M A) (f : A -> M B) :
  keeps_mirror m -> (forall a, keeps_mirror (f a)) -> keeps_mirror (m ≫= f).
Proof.
  intros Hm Hf s w Hsw. rewrite run_M_bind. cbn zeta.
  specialize (Hm s w Hsw).
  destruct (run_M Host.step m s w) as [[[o s1] w1] t1]. cbn [fst snd] in *.
  destruct o as [a | e]; cbn [fst snd]; [| done]. by apply Hf.
Qed.

Lemma keeps_mirror_try {R : Type} (m : M R) catches (k : exn -> M R) :
  keeps_mirror m -> (forall e, keeps_mirror (k e)) ->
  keeps_mirror (try_except m catches k).
Proof.
  intros Hm Hk s w Hsw. rewrite run_M_try. cbn zeta.
  specialize (Hm s w Hsw).
  destruct (run_M Host.step m s w) as [[[o s1] w1] t1]. cbn [fst snd] in *.
  destruct o as [a | e]; cbn [fst snd]; [done |].
  destruct (catches e); cbn [fst snd]; [| done]. by apply Hk.
Qed.

Lemma restores_mirror_bind {A B : Type} (m : M A) (f : A -> M B) :
  restores_mirror m -> (forall a, keeps_mirror (f a)) ->
  restores_mirror (m ≫= f).
Proof.
  intros Hm Hf s w Hw. rewrite run_M_bind. cbn zeta.
  specialize (Hm s w Hw).
  destruct (run_M Host.step m s w) as [[[o s1] w1] t1]. cbn [fst snd] in *.
  destruct o as [a | e]; cbn [fst snd]; [| done]. by apply Hf.
Qed.

Lemma restores_mirror_set {B : Type} d (f : unit -> M B) :
  restores_mirror (f tt) -> restores_mirror (set_processes d ≫= f).
Proof.
  intros Hf s w Hw. rewrite run_M_bind, run_M_set. cbn [fst snd]. cbn zeta.
  by apply Hf.
Qed.

Lemma save_restores_mirror : restores_mirror ProcessManager.save_processes.
Proof.
  intros s w Hw. unfold ProcessManager.save_processes. unfold_M.
  rewrite Hw. by cbn.
Qed.

Lemma keeps_mirror_ret {R : Type} (r : R) : keeps_mirror (mret r).
Proof. by intros s w H. Qed.

Lemma keeps_mirror_get : keeps_mirror get_processes.
Proof. by intros s w H. Qed.

Lemma emits_lift {X : Type} (P : event -> bool) (p : prog X) :
  (forall (W : Type) (h : handler W) w, forallb P (run h p w).2 = true) ->
  emits P (lift p).
Proof. intros Hp W h s w. rewrite run_M_lift. apply Hp. Qed.

Lemma probe_keeps_files {W : Type} (h : handler W) port timeout w :
  forallb keeps_files
    (run h (ProcessManager._is_comfyui_healthy port timeout) w).2 = true.
Proof.
  cbn.
  destruct (h _ (connect_ex "localhost" port 2) w) as [[errno | e] w1];
    cbn; [| done].
  by destruct (errno =? 0).
Qed.

Lemma collect_dead_keeps_files {W : Type} (h : handler W) items w :
  forallb keeps_files (run h (ProcessManager.collect_dead items) w).2 = true.
Proof.
  revert w. induction items as [| [k info] items IH]; intros w; [done |].
  cbn [ProcessManager.collect_dead].
  destruct (truthy (info_pid info)); [| apply IH].
  cbn [run]. cbn zeta. cbn [fst snd forallb keeps_files andb].
  rewrite run_bind. cbn zeta. cbn [fst snd].
  rewrite forallb_app, IH. by cbn.
Qed.

Lemma classify_keeps_files {W : Type} (h : handler W) items w :
  forallb keeps_files (run h (ProcessManager.classify items) w).2 = true.
Proof.
  revert w. induction items as [| [k info] items IH]; intros w; [done |].
  cbn [ProcessManager.classify run]. cbn zeta.
  cbn [fst snd forallb keeps_files andb].
  rewrite run_bind. cbn zeta. cbn [fst snd run forallb keeps_files andb].
  rewrite forallb_app. apply andb_true_intro. split.
  - destruct ((h _ (pid_exists (info_pid info)) w).1 && truthy (info_port info));
      [apply probe_keeps_files | done].
  - cbn [forallb keeps_files andb]. rewrite run_bind. cbn zeta. cbn [snd].
    rewrite forallb_app, IH. by cbn.
Qed.

Lemma subprocess_run_keeps_files args shell timeout :
  emits keeps_files (ProcessManager.subprocess_run args shell timeout).
Proof. unfold ProcessManager.subprocess_run. auto 12 with registry. Qed.

Lemma link_scripts_keeps_files src dst files :
  emits keeps_files (ProcessManager.link_scripts src dst files).
Proof.
  pose proof subprocess_run_keeps_files.
  induction files as [| f files IH]; cbn [ProcessManager.link_scripts];
    auto 14 with registry.
Qed.

Lemma setup_scripts_keeps_files nv :
  emits keeps_files (ProcessManager._setup_tenant_scripts nv).
Proof.
  pose proof link_scripts_keeps_files.
  unfold ProcessManager._setup_tenant_scripts. auto 10 with registry.
Qed.

Lemma cloudwatch_keeps_files pod nv :
  emits keeps_files (ProcessManager._setup_cloudwatch_logging pod nv).
Proof.
  pose proof subprocess_run_keeps_files.
  unfold ProcessManager._setup_cloudwatch_logging. auto 14 with registry.
Qed.

Lemma wait_for_exit_keeps_files n pid :
  emits keeps_files (ProcessManager.wait_for_exit n pid).
Proof.
  induction n as [| n IH]; cbn [ProcessManager.wait_for_exit];
    auto 10 with registry.
Qed.

Lemma wait_for_exit_preserves n pid :
  preserves_registry (ProcessManager.wait_for_exit n pid).
Proof.
  induction n as [| n IH]; cbn [ProcessManager.wait_for_exit];
    auto 10 with registry.
Qed.

Lemma remove_from_tracking_keeps_mirror pod_id :
  keeps_mirror (ProcessManager.remove_from_tracking pod_id).
Proof.
  unfold ProcessManager.remove_from_tracking.
  apply keeps_mirror_bind; [apply keeps_mirror_get | intros procs].
  destruct (procs !! pod_id); [| apply keeps_mirror_ret].
  apply restores_keeps_mirror, restores_mirror_set, save_restores_mirror.
Qed.

Lemma force_cleanup_keeps_mirror pod_id info :
  keeps_mirror (ProcessManager._force_cleanup_tenant pod_id info).
Proof.
  unfold ProcessManager._force_cleanup_tenant.
  apply keeps_mirror_try; [| intros; apply keeps_mirror_ret].
  apply keeps_mirror_bind.
  { apply quiet_keeps_mirror; auto 10 with registry. }
  intros alive. apply keeps_mirror_bind;
    [| intros; apply remove_from_tracking_keeps_mirror].
  unfold ProcessManager.force_kill.
  apply quiet_keeps_mirror; auto 20 with registry.
Qed.

Lemma check_existing_keeps_mirror pod_id :
  keeps_mirror (ProcessManager.check_existing pod_id).
Proof.
  unfold ProcessManager.check_existing.
  apply keeps_mirror_bind; [apply keeps_mirror_get | intros procs].
  destruct (procs !! pod_id) as [info |]; [| apply keeps_mirror_ret].
  apply keeps_mirror_bind.
  { apply quiet_keeps_mirror; auto 10 with registry. }
  intros alive. apply keeps_mirror_bind.
  { apply quiet_keeps_mirror.
    - auto 10 with registry.
    - destruct (alive && truthy (info_port info)); [| auto with registry].
      apply emits_lift. intros. apply probe_keeps_files. }
  intros []; [apply keeps_mirror_ret |].
  apply keeps_mirror_bind; [apply force_cleanup_keeps_mirror |].
  intros; apply keeps_mirror_ret.
Qed.

Lemma spawn_tenant_keeps_mirror pod_id username port env_vars :
  keeps_mirror (ProcessManager.spawn_tenant pod_id username port env_vars).
Proof.
  unfold ProcessManager.spawn_tenant.
  apply keeps_mirror_bind;
    [apply quiet_keeps_mirror; auto 10 with registry | intros _].
  apply keeps_mirror_bind;
    [apply quiet_keeps_mirror; auto 10 with registry | intros environ].
  apply keeps_mirror_bind.
  { apply quiet_keeps_mirror;
      [auto with registry | apply setup_scripts_keeps_files]. }
  intros _.
  apply keeps_mirror_bind;
    [apply quiet_keeps_mirror; auto 10 with registry | intros pid].
  apply keeps_mirror_bind;
    [apply quiet_keeps_mirror; auto 10 with registry | intros now].
  apply keeps_mirror_bind; [apply keeps_mirror_get | intros procs].
  apply restores_keeps_mirror, restores_mirror_set, restores_mirror_bind;
    [apply save_restores_mirror | intros _].
  apply keeps_mirror_bind; [| intros; apply keeps_mirror_ret].
  apply quiet_keeps_mirror;
    [auto with registry | apply cloudwatch_keeps_files].
Qed.

Lemma start_tenant_keeps_mirror pod_id username port env_vars :
  keeps_mirror (ProcessManager.start_tenant pod_id username port env_vars).
Proof.
  unfold ProcessManager.start_tenant.
  apply keeps_mirror_bind; [apply check_existing_keeps_mirror |].
  intros [r |]; [apply keeps_mirror_ret | apply spawn_tenant_keeps_mirror].
Qed.

Lemma stop_tenant_keeps_mirror pod_id :
  keeps_mirror (ProcessManager.stop_tenant pod_id).
Proof.
  unfold ProcessManager.stop_tenant.
  apply keeps_mirror_bind; [apply keeps_mirror_get | intros procs].
  destruct (procs !! pod_id) as [info |]; [| apply keeps_mirror_ret].
  apply keeps_mirror_bind.
  { apply quiet_keeps_mirror; auto 10 with registry. }
  intros alive. destruct (negb alive).
  { apply restores_keeps_mirror, restores_mirror_set, restores_mirror_bind;
      [apply save_restores_mirror | intros; apply keeps_mirror_ret]. }
  apply keeps_mirror_bind.
  { pose proof wait_for_exit_keeps_files.
    pose proof wait_for_exit_preserves.
    unfold ProcessManager.graceful_shutdown.
    apply quiet_keeps_mirror; auto 20 with registry. }
  intros _. unfold ProcessManager.clean_up.
  apply keeps_mirror_bind; [apply keeps_mirror_get | intros procs'].
  apply restores_keeps_mirror, restores_mirror_set, restores_mirror_bind;
    [apply save_restores_mirror | intros; apply keeps_mirror_ret].
Qed.

Lemma cleanup_keeps_mirror :
  keeps_mirror ProcessManager._cleanup_dead_processes.
Proof.
  intros s w [Hro Hfile]. unfold ProcessManager._cleanup_dead_processes.
  rewrite run_M_bind, run_M_get. cbn [fst snd]. cbn zeta.
  rewrite run_M_bind, run_M_lift. cbn [fst snd]. cbn zeta.
  destruct (host_frame (ProcessManager.collect_dead (map_to_list s)) w
              (collect_dead_keeps_files _ _ _)) as [Hro' Hfile'].
  destruct (run Host.step (ProcessManager.collect_dead (map_to_list s)) w)
    as [[dead w1] tr]. cbn [fst snd] in *.
  rewrite run_M_bind, run_M_set. cbn [fst snd]. cbn zeta.
  destruct dead as [| k dead].
  - rewrite run_M_ret. cbn [fst snd foldl]. split; congruence.
  - apply save_restores_mirror. congruence.
Qed.

Lemma get_tenant_info_keeps_mirror :
  keeps_mirror ProcessManager.get_tenant_info.
Proof.
  unfold ProcessManager.get_tenant_info.
  apply keeps_mirror_bind; [apply cleanup_keeps_mirror | intros _].
  apply keeps_mirror_bind; [apply keeps_mirror_get | intros procs].
  apply quiet_keeps_mirror; [auto with registry |].
  apply emits_lift. intros. apply classify_keeps_files.
Qed.

(** X18.  On a host whose registry file can be written and holds the
    registry that is in memory, the file holds the registry in memory
    again after [start_tenant], after [stop_tenant] and after
    [get_tenant_info], however they end: every change of the registry
    reaches the file before the method is left.  And a fresh supervisor
    that finds a registry file holds what the file holds once
    [__init__] is done. *)
Theorem registry_file_mirrors_the_registry :
  forall (w : Host.t) (procs : gmap string process_info),
    Host.read_only w = false ->
    Host.registry_file w = Host.Document procs ->
    (forall pod_id username port env_vars,
        let r := run_M Host.step
                   (ProcessManager.start_tenant pod_id username port env_vars)
                   procs w in
        Host.registry_file r.1.2 = Host.Document r.1.1.2) /\
    (forall pod_id,
        let r := run_M Host.step (ProcessManager.stop_tenant pod_id)
                   procs w in
        Host.registry_file r.1.2 = Host.Document r.1.1.2) /\
    (let r := run_M Host.step ProcessManager.get_tenant_info procs w in
     Host.registry_file r.1.2 = Host.Document r.1.1.2) /\
    (forall s,
        let r := run_M Host.step ProcessManager.__init__ s w in
        Host.registry_file r.1.2 = Host.Document r.1.1.2).
Proof.
  intros w procs Hro Hfile.
  assert (Hm : mirrored procs w) by done.
  split; [| split; [| split]].
  - intros pod_id username port env_vars.
    apply (start_tenant_keeps_mirror pod_id username port env_vars _ _ Hm).
  - intros pod_id. apply (stop_tenant_keeps_mirror pod_id _ _ Hm).
  - apply (get_tenant_info_keeps_mirror _ _ Hm).
  - intros s. cbn zeta.
    unfold ProcessManager.__init__, ProcessManager.load_processes.
    rewrite run_M_bind, run_M_set. cbn [fst snd]. cbn zeta.
    rewrite run_M_try. cbn zeta.
    assert (Hpresent :
      Host.step _ (path_exists ProcessManager.processes_file) w = (true, w))
      by (cbn; by rewrite Hfile).
    assert (Hloaded :
      Host.step _ (json_load ProcessManager.processes_file) w
      = (Ok procs, w)) by (cbn; by rewrite Hfile).
    rewrite run_M_bind, run_M_os, Hpresent. cbn [fst snd]. cbn zeta.
    rewrite run_M_bind, run_M_os_try, Hloaded. cbn [fst snd]. cbn zeta.
    rewrite run_M_bind, run_M_set. cbn [fst snd]. cbn zeta.
    pose proof (cleanup_keeps_mirror procs w Hm) as Hc.
    pose proof (cleanup_on_host w procs) as [Hret _]. cbn zeta in Hret.
    destruct (run_M Host.step ProcessManager._cleanup_dead_processes procs w)
      as [[[o s1] w1] t1]. cbn [fst snd] in *. subst o. cbn [fst snd].
    apply Hc.
Qed.

(** X18 on the host of [Examples], its registry file holding the registry:
    after [stop_tenant] the file holds the registry without [t1]. *)
Lemma registry_file_witness :
  let w := Host.with_file (Examples.serving 200)
             (Host.Document Examples.registry) in
  let r := run_M Host.step (ProcessManager.stop_tenant "t1")
             Examples.registry w in
  Host.registry_file r.1.2 = Host.Document r.1.1.2 /\ r.1.1.2 = ∅.
Proof.
  intros w r. split; [| vm_compute; reflexivity].
  destruct (registry_file_mirrors_the_registry w Examples.registry)
    as (_ & Hstop & _); [reflexivity | reflexivity |].
  apply (Hstop "t1").
Defined.

(** ** The set-up of log forwarding *)


(** ** start_tenant over an unhealthy tenant, signal by signal *)








